(** * Token sale, readiness gate and profit distribution

    A shallow embedding of the backend's token-sale ledger
    ([TokenController.purchaseTokens]), readiness gate
    ([ProjectService.isProjectReadyForDistribution]) and profit
    distribution engine ([ProfitService.distributeProfit] and its
    endpoint [ProfitController.distributeProfit]).

    Conventions of the embedding:
    - integer columns (token amounts, counts, ids) are [Z];
    - every other JavaScript [number] (money, prices, ratios) is an IEEE 754
      binary64 value, computed with the operations of [SpecFloat];
    - the relational store is a record of tables (lists of rows); each SQL
      statement of the source is one function on it;
    - asynchronous code that can throw lives in a small state and exception
      monad over a connection (store, open transaction, effect log);
    - what the program does not decide itself (generated identifiers, the
      outcome of a contract call, a failing store statement) is read from an
      environment record;
    - requests run one at a time: the interleaving of concurrent requests
      is not modelled. [pool.getConnection], [beginTransaction], [commit]
      and [rollback] may reject, as the connection of the request has it;
      [run], [outcome], [store_after] and [effects_of] are about a request
      on a connection whose calls resolve, [run_on] and its like about any
      connection. [uuidv4()] of [distributeProfit], whose value is never
      used, and the [console] output are left out.

    Around these, the embedding also covers the administration of a
    project ([ProjectService.updateProjectStatus], [isProjectOwnedByAdmin]
    and [getProjectStats] with their endpoints in [ProjectController]), the
    readiness endpoint ([ProfitController.checkDistributionReadiness]) and
    the review of transactions ([TransactionController.approveTransaction]
    and [rejectTransaction]). The [Logger] calls of the last two write a
    line to a log file and return. *)

From Stdlib Require Import ZArith QArith Qabs Qpower Lqa.
From Stdlib Require Import List String Bool Lia DecimalString.
From Stdlib Require Import SpecFloat.
Import ListNotations.

Local Open Scope string_scope.
Local Open Scope Z_scope.

(** ** JavaScript numbers: IEEE 754 binary64 *)

Module Num.

Definition prec : Z := 53.
Definition emax : Z := 1024.

Definition number := spec_float.

Definition mul : number -> number -> number := SFmul prec emax.
Definition div : number -> number -> number := SFdiv prec emax.
Definition add : number -> number -> number := SFadd prec emax.
Definition leb : number -> number -> bool := SFleb.

(** The double nearest to an integer (exact below 2^53). *)
Definition of_Z (z : Z) : number := binary_normalize prec emax z 0 false.

(** The double nearest to the fraction [n / d] (binary64 division is
    correctly rounded, and both integers are exact below 2^53). *)
Definition of_ratio (n : Z) (d : Z) : number := div (of_Z n) (of_Z d).

(** The literals [0.30] and [0.70] of the source, as the doubles a
    JavaScript engine reads them to. *)
Definition lit_0_30 : number := S754_finite false 5404319552844595 (-54).
Definition lit_0_70 : number := S754_finite false 6305039478318694 (-53).
Definition lit_100000000 : number := of_Z 100000000.

(** JavaScript truthiness of a number: [0], [-0] and [NaN] are falsy. *)
Definition truthy (x : number) : bool :=
  match x with
  | S754_zero _ | S754_nan => false
  | _ => true
  end.

(** [Math.floor]. A finite double with a non-negative exponent is an
    integer already; otherwise its magnitude is below 2^53 and the floor
    is exact. *)
Definition floor (x : number) : number :=
  match x with
  | S754_finite s m e =>
      if 0 <=? e then x
      else
        let q := (cond_Zopp s (Zpos m)) / 2 ^ (- e) in
        if q =? 0 then S754_zero s else of_Z q
  | _ => x
  end.

(** The exact value of a finite double, as a rational. *)
Definition to_Q (x : number) : option Q :=
  match x with
  | S754_zero _ => Some 0%Q
  | S754_finite s m e => Some (inject_Z (cond_Zopp s (Zpos m)) * 2 ^ e)%Q
  | _ => None
  end.

(** The value of a finite positive double. *)
Definition value (m : positive) (e : Z) : Q := (inject_Z (Zpos m) * 2 ^ e)%Q.

(** The exact sum of a list of finite doubles. *)
Definition exact_sum (l : list number) : option Q :=
  fold_right
    (fun x acc =>
       match to_Q x, acc with
       | Some a, Some b => Some (a + b)%Q
       | _, _ => None
       end)
    (Some 0%Q) l.

(** A positive normal double with an exponent far from both ends of the
    range: a magnitude between 2^-848 and 2^953. *)
Definition ordinary (x : number) : bool :=
  match x with
  | S754_finite false m e =>
      (Zpos (digits2_pos m) =? 53) && (-900 <=? e) && (e <=? 900)
  | _ => false
  end.

(** [x + y = z] on the exact values. *)
Definition exact_sum_eqb (x y z : number) : bool :=
  match to_Q x, to_Q y, to_Q z with
  | Some a, Some b, Some c => Qeq_bool (a + b) c
  | _, _, _ => false
  end.

End Num.

Definition string_of_Z (z : Z) : string := NilZero.string_of_int (Z.to_int z).

(** ** The relational store

    One record per table; the field names are the column names, which are
    also the field names of the interfaces in [types/]. *)

Module Project.
Inductive project_status := active | completed | cancelled.

Record t := mk {
  id : Z;
  project_id : string;
  name : string;
  description : string;
  total_tokens : Z;
  available_tokens : Z;
  token_price : Num.number;
  initial_capital : Num.number;
  admin_id : Z;
  status : project_status
}.

Definition status_eqb (a b : project_status) : bool :=
  match a, b with
  | active, active | completed, completed | cancelled, cancelled => true
  | _, _ => false
  end.

Definition set_status (st : project_status) (p : t) : t :=
  mk (id p) (project_id p) (name p) (description p) (total_tokens p)
     (available_tokens p) (token_price p) (initial_capital p) (admin_id p) st.

Definition set_available_tokens (n : Z) (p : t) : t :=
  mk (id p) (project_id p) (name p) (description p) (total_tokens p)
     n (token_price p) (initial_capital p) (admin_id p) (status p).
End Project.

Module Token.
Inductive token_status := active | sold | transferred.

Record t := mk {
  id : Z;
  token_id : string;
  project_id : string;
  user_id : Z;
  amount : Z;
  price_per_token : Num.number;
  total_value : Num.number;
  status : token_status;
  blockchain_hash : option string
}.

Definition is_active (k : t) : bool :=
  match status k with active => true | _ => false end.
End Token.

Module Transaction.
Inductive transaction_type := purchase | transfer | profit_distribution.
Inductive transaction_status := pending | approved | rejected | completed.

Record t := mk {
  id : Z;
  transaction_id : string;
  from_user_id : Z;
  to_user_id : Z;
  project_id : string;
  token_amount : Z;
  total_value : Num.number;
  transaction_type_ : transaction_type;
  status : transaction_status;
  blockchain_hash : option string
}.

Definition is_pending (x : t) : bool :=
  match status x with pending => true | _ => false end.

Definition set_status (st : transaction_status) (x : t) : t :=
  mk (id x) (transaction_id x) (from_user_id x) (to_user_id x) (project_id x)
     (token_amount x) (total_value x) (transaction_type_ x) st (blockchain_hash x).
End Transaction.

Module ProfitDistribution.
Inductive distribution_status := pending | completed.

Record t := mk {
  id : Z;
  project_id : string;
  total_profit : Num.number;
  admin_share : Num.number;
  user_share : Num.number;
  profit_per_token : Num.number;
  blockchain_hash : option string;
  status : distribution_status
}.

Definition confirm (h : string) (d : t) : t :=
  mk (id d) (project_id d) (total_profit d) (admin_share d) (user_share d)
     (profit_per_token d) (Some h) completed.
End ProfitDistribution.

Module UserProfitRecord.
Record t := mk {
  id : Z;
  user_id : Z;
  project_id : string;
  token_amount : Z;
  profit_amount : Num.number;
  distribution_id : option Z
}.
End UserProfitRecord.

(** Modelled from the spec: the pool of [config/database] and the schema it
    connects to are not among the sources. The tables hold the persisted
    state of the data model, with the field shapes of [types/]; a value
    read back from a numeric column, [SUM(amount)] and [COUNT] included, is
    a number; a transaction is atomic and [rollback] restores the contents
    at [beginTransaction]. *)
Record store := mk_store {
  projects : list Project.t;
  tokens : list Token.t;
  transactions : list Transaction.t;
  profit_distributions : list ProfitDistribution.t;
  user_profit_records : list UserProfitRecord.t
}.

Definition empty_store : store := mk_store [] [] [] [] [].

(** ** The SQL statements of the source

    Each function follows the SQL text at its call site, with the usual
    meaning of the statement on the tables above. AUTO_INCREMENT keys are
    one more than the largest key present, which keeps [ORDER BY id DESC]
    the order of insertion. *)

Module Sql.

Definition next_id (ids : list Z) : Z := 1 + fold_right Z.max 0 ids.

(** A row of [SELECT user_id, SUM(amount) as total_tokens ... GROUP BY user_id]. *)
Record holder_row := mk_holder { user_id : Z; total_tokens : Z }.

Fixpoint update_first {A : Type} (sel : A -> bool) (upd : A -> A) (l : list A) : list A :=
  match l with
  | [] => []
  | x :: r => if sel x then upd x :: r else x :: update_first sel upd r
  end.

(** [SELECT ... FROM projects WHERE project_id = ?] *)
Definition select_project (pid : string) (s : store) : list Project.t :=
  filter (fun p => String.eqb (Project.project_id p) pid) (projects s).

(** [SELECT * FROM projects WHERE project_id = ? AND status = "active"] *)
Definition select_active_project (pid : string) (s : store) : list Project.t :=
  filter (fun p => String.eqb (Project.project_id p) pid
                   && Project.status_eqb (Project.status p) Project.active)
         (projects s).

(** The rows of [tokens WHERE project_id = ? AND status = "active"]. *)
Definition active_tokens (pid : string) (s : store) : list Token.t :=
  filter (fun k => String.eqb (Token.project_id k) pid && Token.is_active k)
         (tokens s).

Fixpoint add_to_group (u : Z) (a : Z) (groups : list holder_row) : list holder_row :=
  match groups with
  | [] => [mk_holder u a]
  | g :: r =>
      if user_id g =? u then mk_holder u (total_tokens g + a) :: r
      else g :: add_to_group u a r
  end.

(** [SELECT user_id, SUM(amount) as total_tokens FROM tokens
     WHERE project_id = ? AND status = "active" GROUP BY user_id] *)
Definition select_token_holders (pid : string) (s : store) : list holder_row :=
  fold_left (fun groups k => add_to_group (Token.user_id k) (Token.amount k) groups)
            (active_tokens pid s) [].

(** [SELECT COUNT(DISTINCT user_id) as holder_count FROM tokens
     WHERE project_id = ? AND status = "active"] *)
Definition count_token_holders (pid : string) (s : store) : Z :=
  Z.of_nat (List.length (nodup Z.eq_dec (map Token.user_id (active_tokens pid s)))).

(** [INSERT INTO profit_distributions (...) VALUES (?, ?, ?, ?, ?, 'pending')] *)
Definition insert_profit_distribution (pid : string)
    (total_profit admin_share user_share profit_per_token : Num.number)
    (s : store) : store :=
  let row := ProfitDistribution.mk
               (next_id (map ProfitDistribution.id (profit_distributions s)))
               pid total_profit admin_share user_share profit_per_token
               None ProfitDistribution.pending in
  mk_store (projects s) (tokens s) (transactions s)
           (profit_distributions s ++ [row]) (user_profit_records s).

(** [SELECT id FROM profit_distributions WHERE project_id = ? ORDER BY id DESC LIMIT 1] *)
Definition latest_distribution_id (pid : string) (s : store) : option Z :=
  fold_left (fun acc d =>
               if String.eqb (ProfitDistribution.project_id d) pid then
                 match acc with
                 | None => Some (ProfitDistribution.id d)
                 | Some i => Some (Z.max i (ProfitDistribution.id d))
                 end
               else acc)
            (profit_distributions s) None.

(** [UPDATE profit_distributions SET blockchain_hash = ?, status = "completed"
     WHERE project_id = ? ORDER BY id DESC LIMIT 1] *)
Definition confirm_latest_distribution (hash pid : string) (s : store) : store :=
  match latest_distribution_id pid s with
  | None => s
  | Some i =>
      mk_store (projects s) (tokens s) (transactions s)
        (update_first
           (fun d => String.eqb (ProfitDistribution.project_id d) pid
                     && (ProfitDistribution.id d =? i))
           (ProfitDistribution.confirm hash)
           (profit_distributions s))
        (user_profit_records s)
  end.

(** [INSERT INTO user_profit_records (...) VALUES (?, ?, ?, ?, (SELECT id ...))] *)
Definition insert_user_profit_record (user : Z) (pid : string) (token_amount : Z)
    (profit_amount : Num.number) (s : store) : store :=
  let row := UserProfitRecord.mk
               (next_id (map UserProfitRecord.id (user_profit_records s)))
               user pid token_amount profit_amount
               (latest_distribution_id pid s) in
  mk_store (projects s) (tokens s) (transactions s)
           (profit_distributions s) (user_profit_records s ++ [row]).

(** [UPDATE projects SET status = "completed", ... WHERE project_id = ?] *)
Definition complete_project (pid : string) (s : store) : store :=
  mk_store
    (map (fun p => if String.eqb (Project.project_id p) pid
                   then Project.set_status Project.completed p else p)
         (projects s))
    (tokens s) (transactions s) (profit_distributions s) (user_profit_records s).

(** [INSERT INTO tokens (...) VALUES (?, ?, ?, ?, ?, ?, 'active', ?)] *)
Definition insert_token (token_id pid : string) (user amount : Z)
    (price total_value : Num.number) (hash : string) (s : store) : store :=
  let row := Token.mk (next_id (map Token.id (tokens s)))
               token_id pid user amount price total_value Token.active (Some hash) in
  mk_store (projects s) (tokens s ++ [row]) (transactions s)
           (profit_distributions s) (user_profit_records s).

(** [UPDATE projects SET available_tokens = available_tokens - ? WHERE project_id = ?] *)
Definition decrement_available_tokens (amount : Z) (pid : string) (s : store) : store :=
  mk_store
    (map (fun p => if String.eqb (Project.project_id p) pid
                   then Project.set_available_tokens (Project.available_tokens p - amount) p
                   else p)
         (projects s))
    (tokens s) (transactions s) (profit_distributions s) (user_profit_records s).

(** [INSERT INTO transactions (...) VALUES (?, ?, ?, ?, ?, ?, 'purchase', 'completed', ?)] *)
Definition insert_transaction (transaction_id : string) (from_user to_user : Z)
    (pid : string) (token_amount : Z) (total_value : Num.number) (hash : string)
    (s : store) : store :=
  let row := Transaction.mk (next_id (map Transaction.id (transactions s)))
               transaction_id from_user to_user pid token_amount total_value
               Transaction.purchase Transaction.completed (Some hash) in
  mk_store (projects s) (tokens s) (transactions s ++ [row])
           (profit_distributions s) (user_profit_records s).

(** [INSERT INTO projects (...) VALUES (?, ?, ?, ?, ?, ?, ?, ?, 'active')];
    the second component is [insertId]. *)
Definition insert_project (pid name description : string)
    (total_tokens available_tokens : Z) (token_price initial_capital : Num.number)
    (admin : Z) (s : store) : Z * store :=
  let i := next_id (map Project.id (projects s)) in
  let row := Project.mk i pid name description total_tokens available_tokens
               token_price initial_capital admin Project.active in
  (i, mk_store (projects s ++ [row]) (tokens s) (transactions s)
               (profit_distributions s) (user_profit_records s)).

(** [UPDATE projects SET status = ?, updated_at = CURRENT_TIMESTAMP
     WHERE project_id = ?]; the first component is [affectedRows], the
    number of rows the statement matched. *)
Definition update_project_status (st : Project.project_status) (pid : string) (s : store)
    : Z * store :=
  (Z.of_nat (List.length (select_project pid s)),
   mk_store
     (map (fun p => if String.eqb (Project.project_id p) pid
                    then Project.set_status st p else p)
          (projects s))
     (tokens s) (transactions s) (profit_distributions s) (user_profit_records s)).

(** [SELECT id FROM projects WHERE project_id = ? AND admin_id = ?] *)
Definition select_owned_project (pid : string) (admin : Z) (s : store) : list Z :=
  map Project.id
    (filter (fun p => String.eqb (Project.project_id p) pid
                      && (Project.admin_id p =? admin))
            (projects s)).

(** A row of the statistics query: [p.*] and the three counted columns. *)
Record project_stats := mk_stats {
  stats_project : Project.t;
  token_holders_count : Z;
  tokens_sold : Z;
  profit_distributions_count : Z
}.

(** [SELECT p.*,
       (SELECT COUNT( * ) FROM tokens t
         WHERE t.project_id = p.project_id AND t.status = 'active'),
       (SELECT COALESCE(SUM(t.amount), 0) FROM tokens t
         WHERE t.project_id = p.project_id AND t.status = 'active'),
       (SELECT COUNT( * ) FROM profit_distributions pd
         WHERE pd.project_id = p.project_id)
     FROM projects p WHERE p.project_id = ?] *)
Definition select_project_stats (pid : string) (s : store) : list project_stats :=
  map (fun p =>
         mk_stats p
           (Z.of_nat (List.length (active_tokens (Project.project_id p) s)))
           (fold_right Z.add 0 (map Token.amount (active_tokens (Project.project_id p) s)))
           (Z.of_nat
              (List.length
                 (filter (fun d => String.eqb (ProfitDistribution.project_id d)
                                     (Project.project_id p))
                         (profit_distributions s)))))
      (select_project pid s).

(** [SELECT * FROM transactions WHERE transaction_id = ? AND status = "pending"] *)
Definition select_pending_transaction (tid : string) (s : store) : list Transaction.t :=
  filter (fun x => String.eqb (Transaction.transaction_id x) tid
                   && Transaction.is_pending x)
         (transactions s).

(** [UPDATE transactions SET status = ?, approved_at = CURRENT_TIMESTAMP
     WHERE transaction_id = ?], with the status written in the statement. *)
Definition set_transaction_status (st : Transaction.transaction_status) (tid : string)
    (s : store) : store :=
  mk_store (projects s) (tokens s)
    (map (fun x => if String.eqb (Transaction.transaction_id x) tid
                   then Transaction.set_status st x else x)
         (transactions s))
    (profit_distributions s) (user_profit_records s).

End Sql.

(** ** Effects: a connection, exceptions and the environment *)

(** A thrown value: an [Error] instance with its message, or anything else. *)
Inductive thrown := Error (message : string) | NonError.

(** [error instanceof Error ? error.message : 'Unknown error'] *)
Definition error_message (e : thrown) : string :=
  match e with
  | Error m => m
  | NonError => "Unknown error"
  end.

Inductive effect :=
| Acquire | Release | Begin | Commit | Rollback | Query | Write | Contract.

(** What the calls of the pool and of its connection do for a request, which
    awaits each of them at most once: [None] when the call resolves, the
    rejection otherwise. *)
Record connection := mk_connection {
  getConnection_fault : option thrown;
  beginTransaction_fault : option thrown;
  commit_fault : option thrown;
  rollback_fault : option thrown
}.

(** A connection whose calls resolve. *)
Definition healthy : connection := mk_connection None None None None.

(** What a request sees of the store: the current contents, the contents at
    [beginTransaction] while a transaction is open, the effects performed
    so far, and the connection it works on. A statement of the store or a
    call of the contract is an effect also when it fails; a call of the
    connection that rejects has no effect. *)
Record world := mk_world {
  db : store;
  saved : option store;
  log : list effect;
  link : connection
}.

Definition fresh_world (s : store) : world := mk_world s None [] healthy.

(** What awaiting a call of a contract method gives: the hash of the mined
    transaction, or what the call throws, be it in the encoder of its
    arguments (a number that is no integer is not taken for an [int256]),
    in the provider or on the chain. *)
Inductive contract_outcome := Mined (hash : string) | Failed (e : thrown).

(** What a request does not decide itself. [store_fault k] makes the
    statement issued as the [k]-th effect of the request fail. *)
Record env := mk_env {
  store_fault : nat -> option thrown;
  contract_createToken : string -> string -> Z -> contract_outcome;
  contract_addDividenProfit :
    string -> Num.number -> Num.number -> Num.number -> Num.number -> contract_outcome;
  generated_project_id : string;
  generated_token_id : string;
  generated_transaction_id : string
}.

Inductive result (A : Type) := Ok (a : A) | Throw (e : thrown).
Arguments Ok {A} a.
Arguments Throw {A} e.

Module Eff.

Definition M (A : Type) : Type := world -> result A * world.

Definition ret {A} (a : A) : M A := fun w => (Ok a, w).

Definition throw {A} (e : thrown) : M A := fun w => (Throw e, w).

Definition bind {A B} (m : M A) (k : A -> M B) : M B :=
  fun w =>
    match m w with
    | (Ok a, w') => k a w'
    | (Throw e, w') => (Throw e, w')
    end.

(** [try { m } catch (error) { h error }] *)
Definition try_catch {A} (m : M A) (h : thrown -> M A) : M A :=
  fun w =>
    match m w with
    | (Ok a, w') => (Ok a, w')
    | (Throw e, w') => h e w'
    end.

(** [try { m } finally { f }] with an [f] that does not throw. *)
Definition finally {A} (m : M A) (f : world -> world) : M A :=
  fun w => let '(r, w') := m w in (r, f w').

Definition record (ev : effect) (w : world) : world :=
  mk_world (db w) (saved w) (log w ++ [ev]) (link w).

(** [await pool.getConnection()] *)
Definition getConnection : M unit :=
  fun w =>
    match getConnection_fault (link w) with
    | Some e => (Throw e, w)
    | None => (Ok tt, record Acquire w)
    end.

(** [connection.release()], which does not throw. *)
Definition release : world -> world := record Release.

(** [await connection.beginTransaction()] *)
Definition beginTransaction : M unit :=
  fun w =>
    match beginTransaction_fault (link w) with
    | Some e => (Throw e, w)
    | None => (Ok tt, mk_world (db w) (Some (db w)) (log w ++ [Begin]) (link w))
    end.

(** [await connection.commit()]; a commit that rejects has committed
    nothing and leaves the transaction open. *)
Definition commit : M unit :=
  fun w =>
    match commit_fault (link w) with
    | Some e => (Throw e, w)
    | None => (Ok tt, mk_world (db w) None (log w ++ [Commit]) (link w))
    end.

(** [await connection.rollback()]; a rollback that rejects leaves the
    transaction open. *)
Definition rollback : M unit :=
  fun w =>
    match rollback_fault (link w) with
    | Some e => (Throw e, w)
    | None =>
        (Ok tt, mk_world (match saved w with Some s => s | None => db w end)
                         None (log w ++ [Rollback]) (link w))
    end.

(** A reading statement. *)
Definition query {A} (E : env) (q : store -> A) : M A :=
  fun w =>
    match store_fault E (List.length (log w)) with
    | Some e => (Throw e, record Query w)
    | None => (Ok (q (db w)), record Query w)
    end.

(** A writing statement that also returns a value. *)
Definition execute_returning {A} (E : env) (u : store -> A * store) : M A :=
  fun w =>
    match store_fault E (List.length (log w)) with
    | Some e => (Throw e, record Write w)
    | None =>
        let '(a, s') := u (db w) in
        (Ok a, mk_world s' (saved w) (log w ++ [Write]) (link w))
    end.

(** A writing statement. *)
Definition execute (E : env) (u : store -> store) : M unit :=
  execute_returning E (fun s => (tt, u s)).

(** A call into the contract, awaited until mined. *)
Definition contract_call (o : contract_outcome) : M string :=
  fun w =>
    match o with
    | Mined h => (Ok h, record Contract w)
    | Failed e => (Throw e, record Contract w)
    end.

(** [for (const x of l) { ... push(f x) }] *)
Fixpoint for_each {A B} (f : A -> M B) (l : list A) : M (list B) :=
  match l with
  | [] => ret []
  | x :: r => bind (f x) (fun y => bind (for_each f r) (fun ys => ret (y :: ys)))
  end.

End Eff.

Declare Scope eff_scope.
Delimit Scope eff_scope with eff.
Notation "x <- c1 ;; c2" := (Eff.bind c1 (fun x => c2))
  (at level 61, c1 at next level, right associativity) : eff_scope.
Notation "c1 ;; c2" := (Eff.bind c1 (fun _ => c2))
  (at level 61, right associativity) : eff_scope.

(** JavaScript truthiness of the optional fields of a request body. *)
Definition truthy_string (x : option string) : bool :=
  match x with
  | Some s => negb (String.eqb s "")
  | None => false
  end.

Definition truthy_int (x : option Z) : bool :=
  match x with
  | Some z => negb (z =? 0)
  | None => false
  end.

Local Open Scope eff_scope.

(** ** [config/blockchain]: the ledger adapter *)

Module BlockchainService.

Record receipt := mk_receipt { success : bool; hash : string }.

Definition addDividenProfit (E : env) (projectId : string)
    (totalProfit adminShare userShare profitPerToken : Num.number)
    : Eff.M receipt :=
  Eff.try_catch
    (tx_hash <- Eff.contract_call
                  (contract_addDividenProfit E projectId totalProfit adminShare userShare
                     (Num.floor (Num.mul profitPerToken Num.lit_100000000))) ;;
     Eff.ret (mk_receipt true tx_hash))
    (fun error => Eff.throw error).

Definition createToken (E : env) (tokenId projectId : string) (amount : Z)
    : Eff.M receipt :=
  Eff.try_catch
    (tx_hash <- Eff.contract_call (contract_createToken E tokenId projectId amount) ;;
     Eff.ret (mk_receipt true tx_hash))
    (fun error => Eff.throw error).

End BlockchainService.

(** ** [services/ProjectService] *)

Module ProjectService.

Record readiness := mk_readiness {
  ready : bool;
  reason : string;
  projectExists : bool;
  tokensSold : Z;
  totalTokens : Z;
  availableTokens : Z;
  tokenHolderCount : option Z
}.

Definition createProject (E : env) (name description : string) (total_tokens : Z)
    (token_price initial_capital : Num.number) (adminId : Z) : Eff.M Project.t :=
  let project_id := generated_project_id E in
  insertId <- Eff.execute_returning E
                (Sql.insert_project project_id name description total_tokens total_tokens
                   token_price initial_capital adminId) ;;
  Eff.ret (Project.mk insertId project_id name description total_tokens total_tokens
             token_price initial_capital adminId Project.active).

Definition not_sold_out_reason (tokensSold total available : Z) : string :=
  "Cannot distribute profit until all tokens are sold. Currently "
    ++ string_of_Z tokensSold ++ "/" ++ string_of_Z total
    ++ " tokens sold. Remaining: " ++ string_of_Z available ++ " tokens.".

Definition isProjectReadyForDistribution (E : env) (projectId : string)
    : Eff.M readiness :=
  Eff.try_catch
    (projectResult <- Eff.query E (Sql.select_project projectId) ;;
     match projectResult with
     | [] => Eff.ret (mk_readiness false "Project not found" false 0 0 0 None)
     | project :: _ =>
         let sold := Project.total_tokens project - Project.available_tokens project in
         let total := Project.total_tokens project in
         let available := Project.available_tokens project in
         if Project.status_eqb (Project.status project) Project.completed then
           Eff.ret (mk_readiness false "Project is already completed" true
                      sold total available None)
         else if Project.status_eqb (Project.status project) Project.cancelled then
           Eff.ret (mk_readiness false "Project is cancelled" true
                      sold total available None)
         else if 0 <? available then
           Eff.ret (mk_readiness false (not_sold_out_reason sold total available) true
                      sold total available None)
         else
           holder_count <- Eff.query E (Sql.count_token_holders projectId) ;;
           if holder_count =? 0 then
             Eff.ret (mk_readiness false "No active token holders found for this project"
                        true sold total available None)
           else
             Eff.ret (mk_readiness true "Project is ready for profit distribution" true
                        sold total available (Some holder_count))
     end)
    (fun error =>
       Eff.ret (mk_readiness false ("Database error: " ++ error_message error)
                  false 0 0 0 None)).

Definition updateProjectStatus (E : env) (projectId : string)
    (status : Project.project_status) : Eff.M bool :=
  affectedRows <- Eff.execute_returning E (Sql.update_project_status status projectId) ;;
  Eff.ret (0 <? affectedRows).

Definition getProjectStats (E : env) (projectId : string)
    : Eff.M (option Sql.project_stats) :=
  stats <- Eff.query E (Sql.select_project_stats projectId) ;;
  Eff.ret (match stats with
           | [] => None
           | row :: _ => Some row
           end).

Definition isProjectOwnedByAdmin (E : env) (projectId : string) (adminId : Z)
    : Eff.M bool :=
  result <- Eff.query E (Sql.select_owned_project projectId adminId) ;;
  Eff.ret (0 <? Z.of_nat (List.length result)).

End ProjectService.

(** ** [services/profitService] *)

Module ProfitService.

Record user_profit := mk_user_profit {
  user_id : Z;
  token_amount : Z;
  profit_amount : Num.number
}.

Record distributionData := mk_distributionData {
  projectId : string;
  initialCapital : Num.number;
  totalRevenue : Num.number;
  newProfit : Num.number;
  adminShare : Num.number;
  userTotalShare : Num.number;
  profitPerToken : Num.number;
  totalUserTokens : Num.number;
  userProfits : list user_profit;
  blockchainHash : string;
  projectStatus : Project.project_status
}.

Definition not_sold_out_message (tokensSold total available : Z) : string :=
  "Cannot distribute profit until all tokens are sold. Current: "
    ++ string_of_Z tokensSold ++ "/" ++ string_of_Z total
    ++ " tokens sold. Remaining: " ++ string_of_Z available ++ " tokens.".

(** [tokenHolders.reduce((sum, holder) => sum + holder.total_tokens, 0)] *)
Definition sum_total_tokens (tokenHolders : list Sql.holder_row) : Num.number :=
  fold_left (fun sum holder => Num.add sum (Num.of_Z (Sql.total_tokens holder)))
            tokenHolders (Num.of_Z 0).

(** The body of the loop [for (const holder of tokenHolders)]. *)
Definition credit_holder (E : env) (projectId : string) (profitPerToken : Num.number)
    (holder : Sql.holder_row) : Eff.M user_profit :=
  let userProfit := Num.mul (Num.of_Z (Sql.total_tokens holder)) profitPerToken in
  Eff.execute E
    (Sql.insert_user_profit_record (Sql.user_id holder) projectId
       (Sql.total_tokens holder) userProfit) ;;
  Eff.ret (mk_user_profit (Sql.user_id holder) (Sql.total_tokens holder) userProfit).

Definition distributeProfit (E : env) (projectId : string)
    (initialCapital totalRevenue newProfit : Num.number) (adminId : Z)
    : Eff.M distributionData :=
  Eff.getConnection ;;
  Eff.finally
    (Eff.try_catch
       (Eff.beginTransaction ;;
        projectCheck <- Eff.query E (Sql.select_project projectId) ;;
        match projectCheck with
        | [] => Eff.throw (Error "Project not found")
        | project :: _ =>
            if Project.status_eqb (Project.status project) Project.completed then
              Eff.throw (Error "Cannot distribute profit for completed project")
            else if 0 <? Project.available_tokens project then
              let tokensSold :=
                Project.total_tokens project - Project.available_tokens project in
              Eff.throw (Error (not_sold_out_message tokensSold
                                  (Project.total_tokens project)
                                  (Project.available_tokens project)))
            else
              let adminShare := Num.mul newProfit Num.lit_0_30 in
              let userTotalShare := Num.mul newProfit Num.lit_0_70 in
              tokenHolders <- Eff.query E (Sql.select_token_holders projectId) ;;
              match tokenHolders with
              | [] => Eff.throw (Error "No token holders found for this project")
              | _ :: _ =>
                  let totalUserTokens := sum_total_tokens tokenHolders in
                  let profitPerToken := Num.div userTotalShare totalUserTokens in
                  Eff.execute E
                    (Sql.insert_profit_distribution projectId newProfit adminShare
                       userTotalShare profitPerToken) ;;
                  blockchainResult <-
                    BlockchainService.addDividenProfit E projectId newProfit adminShare
                      userTotalShare profitPerToken ;;
                  Eff.execute E
                    (Sql.confirm_latest_distribution
                       (BlockchainService.hash blockchainResult) projectId) ;;
                  userProfits <-
                    Eff.for_each (credit_holder E projectId profitPerToken)
                      tokenHolders ;;
                  Eff.execute E (Sql.complete_project projectId) ;;
                  Eff.commit ;;
                  Eff.ret (mk_distributionData projectId initialCapital totalRevenue
                             newProfit adminShare userTotalShare profitPerToken
                             totalUserTokens userProfits
                             (BlockchainService.hash blockchainResult)
                             Project.completed)
              end
        end)
       (fun error => Eff.rollback ;; Eff.throw error))
    Eff.release.

End ProfitService.

(** An HTTP response: [res.status(c).json({ message, error, data })];
    [res.json] alone answers 200. [data] is the payload of the endpoint,
    whatever its key ([data], or [token] for a purchase). *)
Record response (D : Type) := mk_response {
  status_code : Z;
  message : string;
  error : option string;
  data : option D
}.
Arguments mk_response {D} status_code message error data.
Arguments status_code {D} r.
Arguments message {D} r.
Arguments error {D} r.
Arguments data {D} r.

(** ** [controllers/profitController] *)

Module ProfitController.

(** [req.body]; an absent (or null) field is [None]. *)
Record body := mk_body {
  projectId : option string;
  initialCapital : option Num.number;
  totalRevenue : option Num.number;
  newProfit : option Num.number
}.

Inductive payload :=
| NotReadyData (tokensSold totalTokens availableTokens : Z)
| DistributionData (d : ProfitService.distributionData).

Definition missing_fields : response payload :=
  mk_response 400
    "Missing required fields: projectId, initialCapital, totalRevenue, newProfit"
    None None.

Definition distributeProfit (E : env) (user_id : Z) (b : body)
    : Eff.M (response payload) :=
  Eff.try_catch
    (match projectId b, initialCapital b, totalRevenue b, newProfit b with
     | Some projectId, Some initialCapital, Some totalRevenue, Some newProfit =>
         if negb (truthy_string (Some projectId))
            || negb (Num.truthy initialCapital)
            || negb (Num.truthy totalRevenue)
            || negb (Num.truthy newProfit)
         then Eff.ret missing_fields
         else if Num.leb newProfit (Num.of_Z 0) then
           Eff.ret (mk_response 400 "New profit must be greater than 0" None None)
         else
           readinessCheck <- ProjectService.isProjectReadyForDistribution E projectId ;;
           if negb (ProjectService.ready readinessCheck) then
             Eff.ret (mk_response 400 "Project not ready for profit distribution"
                        (Some (ProjectService.reason readinessCheck))
                        (Some (NotReadyData
                                 (ProjectService.tokensSold readinessCheck)
                                 (ProjectService.totalTokens readinessCheck)
                                 (ProjectService.availableTokens readinessCheck))))
           else
             result <- ProfitService.distributeProfit E projectId initialCapital
                         totalRevenue newProfit user_id ;;
             Eff.ret (mk_response 200 "Profit distributed successfully" None
                        (Some (DistributionData result)))
     | _, _, _, _ =>
         (* an absent field is falsy *)
         Eff.ret missing_fields
     end)
    (fun error =>
       Eff.ret (mk_response 500 "Error distributing profit"
                  (Some (error_message error)) None)).

Definition checkDistributionReadiness (E : env) (projectId : string)
    : Eff.M (response ProjectService.readiness) :=
  Eff.try_catch
    (readinessCheck <- ProjectService.isProjectReadyForDistribution E projectId ;;
     Eff.ret (mk_response 200 "Distribution readiness checked" None
                (Some readinessCheck)))
    (fun error =>
       Eff.ret (mk_response 500 "Error checking distribution readiness"
                  (Some (error_message error)) None)).

End ProfitController.

(** ** [controllers/tokenController] *)

Module TokenController.

Record body := mk_body {
  project_id : option string;
  amount : option Z
}.

Record token_summary := mk_token_summary {
  token_id : string;
  token_project_id : string;
  token_amount : Z;
  total_value : Num.number;
  blockchain_hash : string
}.

Definition insufficient_message (available : Z) : string :=
  "Insufficient tokens available. Only " ++ string_of_Z available ++ " tokens left.".

Definition purchaseTokens (E : env) (user_id : Z) (b : body)
    : Eff.M (response token_summary) :=
  Eff.getConnection ;;
  Eff.finally
    (Eff.try_catch
       (match project_id b, amount b with
        | Some project_id, Some amount =>
            if negb (truthy_string (Some project_id))
               || negb (truthy_int (Some amount))
               || (amount <=? 0)
            then Eff.ret (mk_response 400 "Invalid project_id or amount" None None)
            else
              Eff.beginTransaction ;;
              projects <- Eff.query E (Sql.select_active_project project_id) ;;
              match projects with
              | [] => Eff.ret (mk_response 404 "Project not found or not active" None None)
              | project :: _ =>
                  if Project.available_tokens project <? amount then
                    Eff.ret (mk_response 400
                               (insufficient_message (Project.available_tokens project))
                               None None)
                  else
                    let token_id := generated_token_id E in
                    let total_value :=
                      Num.mul (Num.of_Z amount) (Project.token_price project) in
                    blockchainResult <-
                      BlockchainService.createToken E token_id project_id amount ;;
                    Eff.execute E
                      (Sql.insert_token token_id project_id user_id amount
                         (Project.token_price project) total_value
                         (BlockchainService.hash blockchainResult)) ;;
                    Eff.execute E (Sql.decrement_available_tokens amount project_id) ;;
                    let transaction_id := generated_transaction_id E in
                    Eff.execute E
                      (Sql.insert_transaction transaction_id (Project.admin_id project)
                         user_id project_id amount total_value
                         (BlockchainService.hash blockchainResult)) ;;
                    Eff.commit ;;
                    Eff.ret (mk_response 201 "Tokens purchased successfully" None
                               (Some (mk_token_summary token_id project_id amount
                                        total_value
                                        (BlockchainService.hash blockchainResult))))
              end
        | _, _ =>
            (* an absent field is falsy *)
            Eff.ret (mk_response 400 "Invalid project_id or amount" None None)
        end)
       (fun error =>
          Eff.rollback ;;
          Eff.ret (mk_response 500 "Error purchasing tokens" None None)))
    Eff.release.

End TokenController.

(** ** [controllers/projectController] *)

Module ProjectController.

(** [['active', 'completed', 'cancelled'].includes(status)], with the status
    the string names; a [status] that is absent, or not a string, is in no
    case included. *)
Definition included_status (status : option string) : option Project.project_status :=
  match status with
  | Some x =>
      if String.eqb x "active" then Some Project.active
      else if String.eqb x "completed" then Some Project.completed
      else if String.eqb x "cancelled" then Some Project.cancelled
      else None
  | None => None
  end.

(** [{ projectId, status }] *)
Record status_update := mk_status_update {
  projectId : string;
  status : Project.project_status
}.

Definition updateProjectStatus (E : env) (user_id : Z) (projectId : string)
    (status : option string) : Eff.M (response status_update) :=
  Eff.try_catch
    (match included_status status with
     | None =>
         Eff.ret (mk_response 400
                    "Invalid status. Must be: active, completed, or cancelled" None None)
     | Some status =>
         isOwner <- ProjectService.isProjectOwnedByAdmin E projectId user_id ;;
         if negb isOwner then
           Eff.ret (mk_response 403 "You can only update your own projects" None None)
         else
           updated <- ProjectService.updateProjectStatus E projectId status ;;
           if negb updated then
             Eff.ret (mk_response 404 "Project not found" None None)
           else
             Eff.ret (mk_response 200 "Project status updated successfully" None
                        (Some (mk_status_update projectId status)))
     end)
    (fun error =>
       Eff.ret (mk_response 500 "Error updating project status"
                  (Some (error_message error)) None)).

Definition getProjectStats (E : env) (projectId : string)
    : Eff.M (response Sql.project_stats) :=
  Eff.try_catch
    (stats <- ProjectService.getProjectStats E projectId ;;
     match stats with
     | None => Eff.ret (mk_response 404 "Project not found" None None)
     | Some row =>
         Eff.ret (mk_response 200 "Project statistics retrieved successfully" None
                    (Some row))
     end)
    (fun error =>
       Eff.ret (mk_response 500 "Error getting project statistics"
                  (Some (error_message error)) None)).

End ProjectController.

(** ** [controllers/transactionController] *)

Module TransactionController.

(** [{ transactionId, reason }]; an approval carries no reason. *)
Record review := mk_review {
  transactionId : string;
  reason : option string
}.

Definition approveTransaction (E : env) (transactionId : string)
    : Eff.M (response review) :=
  Eff.try_catch
    (transactions <- Eff.query E (Sql.select_pending_transaction transactionId) ;;
     match transactions with
     | [] =>
         Eff.ret (mk_response 404 "Transaction not found or not in pending status"
                    None None)
     | _ :: _ =>
         Eff.execute E
           (Sql.set_transaction_status Transaction.approved transactionId) ;;
         Eff.ret (mk_response 200 "Transaction approved successfully" None
                    (Some (mk_review transactionId None)))
     end)
    (fun error => Eff.ret (mk_response 500 "Error approving transaction" None None)).

Definition rejectTransaction (E : env) (transactionId : string) (reason : option string)
    : Eff.M (response review) :=
  Eff.try_catch
    (transactions <- Eff.query E (Sql.select_pending_transaction transactionId) ;;
     match transactions with
     | [] =>
         Eff.ret (mk_response 404 "Transaction not found or not in pending status"
                    None None)
     | _ :: _ =>
         Eff.execute E
           (Sql.set_transaction_status Transaction.rejected transactionId) ;;
         Eff.ret (mk_response 200 "Transaction rejected successfully" None
                    (Some (mk_review transactionId reason)))
     end)
    (fun error => Eff.ret (mk_response 500 "Error rejecting transaction" None None)).

End TransactionController.

(** Running a request against a store, on a connection whose calls resolve. *)
Definition run {A} (m : Eff.M A) (s : store) : result A * world := m (fresh_world s).

Definition outcome {A} (m : Eff.M A) (s : store) : result A := fst (run m s).

(** What the store durably holds: writes of a transaction that was neither
    committed nor rolled back are not part of it. *)
Definition persisted (w : world) : store :=
  match saved w with
  | Some s => s
  | None => db w
  end.

Definition store_after {A} (m : Eff.M A) (s : store) : store := persisted (snd (run m s)).

Definition effects_of {A} (m : Eff.M A) (s : store) : list effect := log (snd (run m s)).

(** Running a request against a store, on a connection that behaves as [c]. *)
Definition world_on (c : connection) (s : store) : world := mk_world s None [] c.

Definition run_on {A} (c : connection) (m : Eff.M A) (s : store) : result A * world :=
  m (world_on c s).

Definition outcome_on {A} (c : connection) (m : Eff.M A) (s : store) : result A :=
  fst (run_on c m s).

Definition store_after_on {A} (c : connection) (m : Eff.M A) (s : store) : store :=
  persisted (snd (run_on c m s)).

Definition effects_on {A} (c : connection) (m : Eff.M A) (s : store) : list effect :=
  log (snd (run_on c m s)).

(** ** Vocabulary of the statements *)

(** No statement of the request fails in the store. *)
Definition no_faults (E : env) : Prop := forall k, store_fault E k = None.

(** The amounts the engine derives from [newProfit] and the holders. *)
Definition admin_share_of (newProfit : Num.number) : Num.number :=
  Num.mul newProfit Num.lit_0_30.

Definition user_share_of (newProfit : Num.number) : Num.number :=
  Num.mul newProfit Num.lit_0_70.

Definition profit_per_token_of (newProfit : Num.number) (holders : list Sql.holder_row)
    : Num.number :=
  Num.div (user_share_of newProfit) (ProfitService.sum_total_tokens holders).

Definition credit_of (profitPerToken : Num.number) (holder : Sql.holder_row)
    : ProfitService.user_profit :=
  ProfitService.mk_user_profit (Sql.user_id holder) (Sql.total_tokens holder)
    (Num.mul (Num.of_Z (Sql.total_tokens holder)) profitPerToken).

(** The store after the loop over the holders. *)
Definition write_credits (pid : string) (profitPerToken : Num.number)
    (holders : list Sql.holder_row) (s : store) : store :=
  fold_left
    (fun s h =>
       Sql.insert_user_profit_record (Sql.user_id h) pid (Sql.total_tokens h)
         (Num.mul (Num.of_Z (Sql.total_tokens h)) profitPerToken) s)
    holders s.

(** The store a committed distribution leaves. *)
Definition distributed_store (pid : string) (newProfit : Num.number) (hash : string)
    (holders : list Sql.holder_row) (s : store) : store :=
  Sql.complete_project pid
    (write_credits pid (profit_per_token_of newProfit holders) holders
       (Sql.confirm_latest_distribution hash pid
          (Sql.insert_profit_distribution pid newProfit (admin_share_of newProfit)
             (user_share_of newProfit) (profit_per_token_of newProfit holders) s))).

(** What the contract answers to the dividend of this distribution. *)
Definition dividend_outcome (E : env) (pid : string) (newProfit : Num.number)
    (holders : list Sql.holder_row) : contract_outcome :=
  contract_addDividenProfit E pid newProfit (admin_share_of newProfit)
    (user_share_of newProfit)
    (Num.floor (Num.mul (profit_per_token_of newProfit holders) Num.lit_100000000)).

(** The store a committed purchase leaves. *)
Definition purchased_store (E : env) (user : Z) (pid : string) (amount : Z)
    (project : Project.t) (hash : string) (s : store) : store :=
  let total_value := Num.mul (Num.of_Z amount) (Project.token_price project) in
  Sql.insert_transaction (generated_transaction_id E) (Project.admin_id project) user pid
    amount total_value hash
    (Sql.decrement_available_tokens amount pid
       (Sql.insert_token (generated_token_id E) pid user amount
          (Project.token_price project) total_value hash s)).

(** The sum of the amounts of a list of holdings. *)
Definition sum_amounts (l : list Token.t) : Z :=
  fold_right (fun k acc => Token.amount k + acc) 0 l.

(** The sum of the tokens of a list of holders. *)
Definition holders_total (hs : list Sql.holder_row) : Z :=
  fold_right (fun h acc => Sql.total_tokens h + acc) 0 hs.

(** The supply invariant of the project [pid], created with [T] tokens. *)
Definition supply_invariant (pid : string) (T : Z) (s : store) : Prop :=
  exists p,
    Sql.select_project pid s = [p]
    /\ Project.total_tokens p = T
    /\ 0 <= Project.available_tokens p
    /\ Project.available_tokens p = T - sum_amounts (Sql.active_tokens pid s).

(** A purchase request: its environment, the authenticated user, the body. *)
Record purchase_call := mk_call {
  call_env : env;
  call_user : Z;
  call_body : TokenController.body
}.

Definition purchase (c : purchase_call) (s : store) : store :=
  store_after (TokenController.purchaseTokens (call_env c) (call_user c) (call_body c)) s.

(** The stores reached along a sequence of purchases, the first one excluded. *)
Fixpoint stores_along (calls : list purchase_call) (s : store) : list store :=
  match calls with
  | [] => []
  | c :: r => purchase c s :: stores_along r (purchase c s)
  end.

(** *** The readiness gate as the specification words it *)

Inductive gate_verdict :=
| NotFound | AlreadyCompleted | IsCancelled | NotSoldOut | NoHolders
| Ready (holders : Z).

(** Ordered checks, first failing check wins: the project must exist, must
    not be completed, must not be cancelled, [available_tokens] must equal
    0, and there must be at least one holder with an active holding. *)
Definition first_failing_check (rows : list Project.t) (holder_count : Z) : gate_verdict :=
  match rows with
  | [] => NotFound
  | p :: _ =>
      match Project.status p with
      | Project.completed => AlreadyCompleted
      | Project.cancelled => IsCancelled
      | Project.active =>
          if negb (Project.available_tokens p =? 0) then NotSoldOut
          else if holder_count <? 1 then NoHolders
          else Ready holder_count
      end
  end.

(** The checks as the gate has them: the sell-out check fails when
    [available_tokens] is greater than 0, and only then. *)
Definition amended_first_failing_check (rows : list Project.t) (holder_count : Z)
    : gate_verdict :=
  match rows with
  | [] => NotFound
  | p :: _ =>
      match Project.status p with
      | Project.completed => AlreadyCompleted
      | Project.cancelled => IsCancelled
      | Project.active =>
          if 0 <? Project.available_tokens p then NotSoldOut
          else if holder_count <? 1 then NoHolders
          else Ready holder_count
      end
  end.

(** [k] is a row of the tokens table, an active holding of the project. *)
Definition active_holding (pid : string) (s : store) (k : Token.t) : Prop :=
  In k (tokens s) /\ Token.project_id k = pid /\ Token.status k = Token.active.

(** The verdict a readiness result reports. *)
Definition verdict_of (r : ProjectService.readiness) : option gate_verdict :=
  if ProjectService.ready r then
    match ProjectService.tokenHolderCount r with
    | Some n => Some (Ready n)
    | None => None
    end
  else if String.eqb (ProjectService.reason r) "Project not found" then Some NotFound
  else if String.eqb (ProjectService.reason r) "Project is already completed"
  then Some AlreadyCompleted
  else if String.eqb (ProjectService.reason r) "Project is cancelled" then Some IsCancelled
  else if String.eqb (ProjectService.reason r)
            "No active token holders found for this project"
  then Some NoHolders
  else if String.prefix "Cannot distribute profit until all tokens are sold."
            (ProjectService.reason r)
  then Some NotSoldOut
  else None.

(** The result the gate reports when the store fails with [e]. *)
Definition database_error (e : thrown) : ProjectService.readiness :=
  ProjectService.mk_readiness false ("Database error: " ++ error_message e)
    false 0 0 0 None.

(** *** Vocabulary of the endpoint statements *)

(** The distribution data with other echoed amounts. *)
Definition with_echo (initialCapital totalRevenue : Num.number)
    (d : ProfitService.distributionData) : ProfitService.distributionData :=
  ProfitService.mk_distributionData (ProfitService.projectId d)
    initialCapital totalRevenue
    (ProfitService.newProfit d) (ProfitService.adminShare d)
    (ProfitService.userTotalShare d) (ProfitService.profitPerToken d)
    (ProfitService.totalUserTokens d) (ProfitService.userProfits d)
    (ProfitService.blockchainHash d) (ProfitService.projectStatus d).

Definition map_result {A B} (f : A -> B) (r : result A) : result B :=
  match r with
  | Ok a => Ok (f a)
  | Throw e => Throw e
  end.

(** One of the three amounts of the body is the number 0 (or -0). *)
Definition has_zero_amount (b : ProfitController.body) : Prop :=
  (exists sg, ProfitController.initialCapital b = Some (S754_zero sg))
  \/ (exists sg, ProfitController.totalRevenue b = Some (S754_zero sg))
  \/ (exists sg, ProfitController.newProfit b = Some (S754_zero sg)).

(** What [UPDATE projects SET available_tokens = available_tokens - ?] does
    to one row. *)
Definition debit (amount : Z) (pid : string) (p : Project.t) : Project.t :=
  if String.eqb (Project.project_id p) pid
  then Project.set_available_tokens (Project.available_tokens p - amount) p
  else p.

(** *** Vocabulary of the rounding statements *)

(** Where the exact value [M / K] lies with respect to the mantissa, the
    round bit and the sticky bit of a shift record. *)
Definition loc_inv (M K : Z) (mrs : shr_record) : Prop :=
  let m := shr_m mrs in
  0 <= m /\
  match shr_r mrs, shr_s mrs with
  | false, false => M = m * K
  | false, true => m * K < M /\ 2 * M < (2 * m + 1) * K
  | true, false => 2 * M = (2 * m + 1) * K
  | true, true => (2 * m + 1) * K < 2 * M /\ M < (m + 1) * K
  end.

(** The mantissa of a shift record is the integer part of [m0 / K]. *)
Definition mant_inv (m0 K : Z) (mrs : shr_record) : Prop :=
  0 <= shr_m mrs /\ shr_m mrs * K <= m0 < (shr_m mrs + 1) * K.

(** A double that holds the positive integer [z] exactly, in normal form. *)
Definition int_double (z : Z) (x : spec_float) : Prop :=
  exists m e,
    x = S754_finite false m e
    /\ Zpos (digits2_pos m) = 53
    /\ -52 <= e <= 0
    /\ Zpos m = z * 2 ^ (- e).


(** *** Vocabulary of the further properties *)

(** The tokens a user holds among a list of holdings. *)
Definition held_by (u : Z) (l : list Token.t) : Z :=
  sum_amounts (filter (fun k => Token.user_id k =? u) l).

(** The tokens the groups [g] count for the user [u]. *)
Definition group_total (u : Z) (g : list Sql.holder_row) : Z :=
  fold_right (fun h acc => if Sql.user_id h =? u then Sql.total_tokens h + acc else acc) 0 g.

(** What a credit record says of a credit. *)
Definition credit_of_record (c : UserProfitRecord.t) : ProfitService.user_profit :=
  ProfitService.mk_user_profit (UserProfitRecord.user_id c)
    (UserProfitRecord.token_amount c) (UserProfitRecord.profit_amount c).

(** The body of a purchase names a project and a positive amount. *)
Definition names (b : TokenController.body) (pid : string) (amount : Z) : Prop :=
  b = TokenController.mk_body (Some pid) (Some amount) /\ pid <> "" /\ 0 < amount.

(** The ways a purchase request ends: its answer, and the connection it
    leaves. *)
Inductive purchase_end (E : env) (user : Z) (b : TokenController.body) (s : store)
    : result (response TokenController.token_summary) * world -> Prop :=
| purchase_invalid :
    (forall pid amount, ~ names b pid amount) ->
    purchase_end E user b s
      (Ok (mk_response 400 "Invalid project_id or amount" None None),
       mk_world s None [Acquire; Release] healthy)
| purchase_unread pid amount e :
    names b pid amount ->
    store_fault E 2%nat = Some e ->
    purchase_end E user b s
      (Ok (mk_response 500 "Error purchasing tokens" None None),
       mk_world s None [Acquire; Begin; Query; Rollback; Release] healthy)
| purchase_not_found pid amount :
    names b pid amount ->
    store_fault E 2%nat = None ->
    Sql.select_active_project pid s = [] ->
    purchase_end E user b s
      (Ok (mk_response 404 "Project not found or not active" None None),
       mk_world s (Some s) [Acquire; Begin; Query; Release] healthy)
| purchase_insufficient pid amount project rest :
    names b pid amount ->
    store_fault E 2%nat = None ->
    Sql.select_active_project pid s = project :: rest ->
    Project.available_tokens project < amount ->
    purchase_end E user b s
      (Ok (mk_response 400
             (TokenController.insufficient_message (Project.available_tokens project))
             None None),
       mk_world s (Some s) [Acquire; Begin; Query; Release] healthy)
| purchase_failed pid amount project rest k :
    names b pid amount ->
    store_fault E 2%nat = None ->
    Sql.select_active_project pid s = project :: rest ->
    amount <= Project.available_tokens project ->
    (k = 0%nat /\ exists e,
        contract_createToken E (generated_token_id E) pid amount = Failed e)
    \/ (exists e, In k [1; 2; 3]%nat /\ store_fault E (3 + k) = Some e) ->
    purchase_end E user b s
      (Ok (mk_response 500 "Error purchasing tokens" None None),
       mk_world s None
         ([Acquire; Begin; Query; Contract] ++ repeat Write k ++ [Rollback; Release])
         healthy)
| purchase_committed pid amount project rest hash :
    names b pid amount ->
    store_fault E 2%nat = None ->
    Sql.select_active_project pid s = project :: rest ->
    amount <= Project.available_tokens project ->
    contract_createToken E (generated_token_id E) pid amount = Mined hash ->
    purchase_end E user b s
      (Ok (mk_response 201 "Tokens purchased successfully" None
             (Some (TokenController.mk_token_summary (generated_token_id E) pid amount
                      (Num.mul (Num.of_Z amount) (Project.token_price project)) hash))),
       mk_world (purchased_store E user pid amount project hash s) None
         [Acquire; Begin; Query; Contract; Write; Write; Write; Commit; Release] healthy).

(** The body of a distribution request passes the validation of the
    endpoint: every field is present and truthy, and [newProfit] is not
    [<= 0]. *)
Definition asks_to_distribute (b : ProfitController.body) (pid : string)
    (ic tr np : Num.number) : Prop :=
  b = ProfitController.mk_body (Some pid) (Some ic) (Some tr) (Some np)
  /\ pid <> ""
  /\ Num.truthy ic = true /\ Num.truthy tr = true /\ Num.truthy np = true
  /\ Num.leb np (Num.of_Z 0) = false.

(** The answer of the endpoint to a project that is not ready. *)
Definition not_ready_response (r : ProjectService.readiness)
    : response ProfitController.payload :=
  mk_response 400 "Project not ready for profit distribution"
    (Some (ProjectService.reason r))
    (Some (ProfitController.NotReadyData (ProjectService.tokensSold r)
             (ProjectService.totalTokens r) (ProjectService.availableTokens r))).

(** No transaction of the store awaits a review. *)
Definition no_pending (s : store) : Prop :=
  Forall (fun x => Transaction.status x <> Transaction.pending) (transactions s).

(** The review endpoints: approving, or rejecting with a reason. *)
Inductive review_request :=
| Approve
| Reject (reason : option string).

Definition review (E : env) (q : review_request) (tid : string)
    : Eff.M (response TransactionController.review) :=
  match q with
  | Approve => TransactionController.approveTransaction E tid
  | Reject reason => TransactionController.rejectTransaction E tid reason
  end.

Definition reviewed_status (q : review_request) : Transaction.transaction_status :=
  match q with
  | Approve => Transaction.approved
  | Reject _ => Transaction.rejected
  end.

(** The effects of a request inside its transaction. *)
Definition inner (ev : effect) : Prop := ev = Query \/ ev = Write \/ ev = Contract.

(** What opening the transaction leaves in the effects of a request on the
    connection [c], and what the rollback of its [catch] block leaves. *)
Definition opened (c : connection) : list effect :=
  match beginTransaction_fault c with
  | None => [Begin]
  | Some _ => []
  end.

Definition rolled_back (c : connection) : list effect :=
  match rollback_fault c with
  | None => [Rollback]
  | Some _ => []
  end.

(** How the transaction of a request with the result [r] was closed. *)
Definition closed {A} (c : connection) (r : result A) : list effect :=
  match r with
  | Ok _ => [Commit]
  | Throw _ => rolled_back c
  end.

(** *** Concrete requests *)

Module Scenario.

Definition quiet (o1 o2 : contract_outcome) : env :=
  mk_env (fun _ => None) (fun _ _ _ => o1) (fun _ _ _ _ _ => o2)
         "PROJECT_1700000000000_1a2b3c4d" "TOKEN_1700000000001_5e6f7a8b"
         "TXN_1700000000002_9c0d1e2f".

Definition ledger_up : env := quiet (Mined "0xa1") (Mined "0xd1").

Definition ledger_down : env :=
  quiet (Failed (Error "could not detect network"))
        (Failed (Error "could not detect network")).

(** The store fails, with [e], at the [k]-th effect of the request. *)
Definition store_down_at (k : nat) (e : thrown) : env :=
  mk_env (fun i => if Nat.eqb i k then Some e else None)
         (fun _ _ _ => Mined "0xa1") (fun _ _ _ _ _ => Mined "0xd1")
         "PROJECT_1700000000000_1a2b3c4d" "TOKEN_1700000000001_5e6f7a8b"
         "TXN_1700000000002_9c0d1e2f".

Definition project_row (st : Project.project_status) (total available : Z) : Project.t :=
  Project.mk 1 "PROJECT_1" "Solar farm" "" total available
             (Num.of_Z 1000) (Num.of_Z 100000) 1 st.

Definition holding (i user amount : Z) : Token.t :=
  Token.mk i "TOKEN_1" "PROJECT_1" user amount (Num.of_Z 1000)
           (Num.mul (Num.of_Z amount) (Num.of_Z 1000)) Token.active (Some "0xa0").

(** A sold-out project of 100 tokens held 60/40 by users 11 and 12. *)
Definition sold_out (st : Project.project_status) : store :=
  mk_store [project_row st 100 0] [holding 1 11 60; holding 2 12 40] [] [] [].

(** An active project of 10 tokens that holders 11 and 12 hold 7 and 5 of:
    two more than it has. *)
Definition oversold : store :=
  mk_store [project_row Project.active 10 (-2)] [holding 1 11 7; holding 2 12 5] [] [] [].

(** A sold-out project of 100000000 tokens held 60000000/40000000 by users
    11 and 12. *)
Definition large_sold_out : store :=
  mk_store [project_row Project.active 100000000 0]
    [holding 1 11 60000000; holding 2 12 40000000] [] [] [].

(** An active project with 3 of 10 tokens left. *)
Definition three_left : store :=
  mk_store [project_row Project.active 10 3] [holding 1 11 7] [] [] [].

(** The distribution of 50000 on ["PROJECT_1"], and what it returns on
    [sold_out Project.active] when the contract mines it as ["0xd1"]. *)
Definition distribute_50000 (E : env) : Eff.M ProfitService.distributionData :=
  ProfitService.distributeProfit E "PROJECT_1" (Num.of_Z 100000) (Num.of_Z 150000)
    (Num.of_Z 50000) 1.

Definition data_50000 : ProfitService.distributionData :=
  ProfitService.mk_distributionData "PROJECT_1" (Num.of_Z 100000) (Num.of_Z 150000)
    (Num.of_Z 50000) (Num.of_Z 15000) (Num.of_Z 35000) (Num.of_Z 350) (Num.of_Z 100)
    [ProfitService.mk_user_profit 11 60 (Num.of_Z 21000);
     ProfitService.mk_user_profit 12 40 (Num.of_Z 14000)]
    "0xd1" Project.completed.

(** The body of the request for that distribution. *)
Definition body_50000 : ProfitController.body :=
  ProfitController.mk_body (Some "PROJECT_1") (Some (Num.of_Z 100000))
    (Some (Num.of_Z 150000)) (Some (Num.of_Z 50000)).

(** An active project with 3 of 10 tokens left, sold to user 11 in two
    purchases. *)
Definition two_holdings : store :=
  mk_store [project_row Project.active 10 3] [holding 1 11 4; holding 2 11 3] [] [] [].

(** A store with one transaction that awaits a review. *)
Definition awaiting : store :=
  mk_store [project_row Project.active 10 8] []
    [Transaction.mk 1 "TXN_1" 1 11 "PROJECT_1" 2 (Num.of_Z 2000) Transaction.purchase
       Transaction.pending None]
    [] [].

End Scenario.

(** * Properties *)

(** ** Evaluating requests *)

Ltac eff_unfold :=
  unfold outcome, store_after, effects_of, run, fresh_world,
    outcome_on, store_after_on, effects_on, run_on, world_on, persisted,
    Eff.bind, Eff.try_catch, Eff.finally, Eff.query, Eff.execute,
    Eff.execute_returning, Eff.getConnection, Eff.beginTransaction, Eff.commit,
    Eff.rollback, Eff.release, Eff.contract_call, Eff.ret, Eff.throw, Eff.record.

Ltac eff_simpl :=
  cbn [fst snd db saved log link app List.length healthy getConnection_fault
       beginTransaction_fault commit_fault rollback_fault].

Lemma status_eqb_eq a b : Project.status_eqb a b = true <-> a = b.
Proof. destruct a, b; cbn; split; congruence. Qed.

Lemma filter_map_commute {A} (f : A -> bool) (g : A -> A) (l : list A) :
  (forall x, f (g x) = f x) -> filter f (map g l) = map g (filter f l).
Proof.
  intros H. induction l as [|x l IH]; cbn; [reflexivity|].
  rewrite H. destruct (f x); cbn; rewrite IH; reflexivity.
Qed.

Lemma sum_amounts_app l1 l2 : sum_amounts (l1 ++ l2) = sum_amounts l1 + sum_amounts l2.
Proof.
  unfold sum_amounts. induction l1 as [|k l IH]; cbn; [reflexivity|]. rewrite IH. lia.
Qed.

(** ** Rounding in binary64

    The error of a product and of a quotient of two normal doubles, and the
    exactness of sums of small integers, from the rounding that [SpecFloat]
    performs: a right shift that keeps a round bit and a sticky bit, then
    rounding to nearest, ties to even. *)

(** The literals are the doubles nearest to 3/10 and 7/10. *)
Lemma literals_are_nearest :
  Num.lit_0_30 = Num.of_ratio 3 10 /\ Num.lit_0_70 = Num.of_ratio 7 10.
Proof. split; vm_compute; reflexivity. Qed.

Lemma digits2_pos_bounds p :
  2 ^ (Zpos (digits2_pos p) - 1) <= Zpos p < 2 ^ Zpos (digits2_pos p).
Proof.
  induction p as [p IH|p IH|]; cbn [digits2_pos].
  - rewrite Pos2Z.inj_succ, (Pos2Z.inj_xI p).
    replace (Z.succ (Zpos (digits2_pos p)) - 1) with (Z.succ (Zpos (digits2_pos p) - 1)) by lia.
    rewrite !Z.pow_succ_r by lia.
    generalize dependent (2 ^ (Zpos (digits2_pos p) - 1)).
    generalize dependent (2 ^ Zpos (digits2_pos p)). intros z z0 [? ?]. split; lia.
  - rewrite Pos2Z.inj_succ, (Pos2Z.inj_xO p).
    replace (Z.succ (Zpos (digits2_pos p)) - 1) with (Z.succ (Zpos (digits2_pos p) - 1)) by lia.
    rewrite !Z.pow_succ_r by lia.
    generalize dependent (2 ^ (Zpos (digits2_pos p) - 1)).
    generalize dependent (2 ^ Zpos (digits2_pos p)). intros z z0 [? ?]. split; lia.
  - cbn. lia.
Qed.

Lemma digits2_pos_unique p k :
  2 ^ (k - 1) <= Zpos p < 2 ^ k -> Zpos (digits2_pos p) = k.
Proof.
  intros [Hlo Hhi]. pose proof (digits2_pos_bounds p) as [Hlo' Hhi'].
  assert (0 < k).
  { destruct (Z_lt_le_dec 0 k) as [|Hk]; [assumption|].
    exfalso. destruct (Z.eq_dec k 0) as [->|].
    - cbn in Hhi. lia.
    - rewrite Z.pow_neg_r in Hhi by lia. lia. }
  set (d := Zpos (digits2_pos p)) in *.
  destruct (Z.lt_trichotomy d k) as [Hlt|[Heq|Hgt]]; [|assumption|].
  - exfalso. assert (2 ^ d <= 2 ^ (k - 1)) by (apply Z.pow_le_mono_r; lia). lia.
  - exfalso. assert (2 ^ k <= 2 ^ (d - 1)) by (apply Z.pow_le_mono_r; lia). lia.
Qed.

Lemma shr_1_loc_inv M K mrs :
  0 < K -> loc_inv M K mrs -> loc_inv M (2 * K) (shr_1 mrs).
Proof.
  intros HK. destruct mrs as [m r s]. unfold loc_inv. cbn [shr_m shr_r shr_s].
  intros [Hm H].
  destruct m as [|p|p]; [| |lia].
  - destruct r, s; cbn [shr_1 orb shr_m shr_r shr_s]; lia.
  - destruct p as [p|p|]; destruct r, s; cbn [shr_1 orb shr_m shr_r shr_s];
      rewrite ?(Pos2Z.inj_xI p), ?(Pos2Z.inj_xO p) in H; nia.
Qed.

Lemma round_nearest_even_half M K mrs :
  0 < K -> loc_inv M K mrs ->
  let m2 := round_nearest_even (shr_m mrs) (loc_of_shr_record mrs) in
  (m2 = shr_m mrs \/ m2 = shr_m mrs + 1) /\ 2 * Z.abs (m2 * K - M) <= K.
Proof.
  intros HK [Hm H]. destruct mrs as [m r s]. cbn [shr_m shr_r shr_s] in *.
  destruct r, s; cbn [loc_of_shr_record round_nearest_even].
  - split; [right; reflexivity|]. nia.
  - destruct (Z.even m); (split; [auto|]); nia.
  - split; [left; reflexivity|]. nia.
  - split; [left; reflexivity|]. nia.
Qed.

Lemma iter_pos_shr_1_invariant (P : Z -> shr_record -> Prop) :
  (forall K mrs, 0 < K -> P K mrs -> P (2 * K) (shr_1 mrs)) ->
  forall p K mrs, 0 < K -> P K mrs -> P (K * 2 ^ Zpos p) (iter_pos shr_1 p mrs).
Proof.
  intros Hstep. induction p as [p IH|p IH|]; intros K mrs HK H; cbn [iter_pos].
  - rewrite (Pos2Z.inj_xI p).
    replace (K * 2 ^ (2 * Zpos p + 1)) with (2 * K * 2 ^ Zpos p * 2 ^ Zpos p).
    2:{ rewrite Z.pow_add_r by lia. replace (2 * Zpos p) with (Zpos p + Zpos p) by lia.
        rewrite Z.pow_add_r by lia. ring. }
    assert (0 < 2 ^ Zpos p) by (apply Z.pow_pos_nonneg; lia).
    apply IH; [apply Z.mul_pos_pos; [lia|assumption]|]. apply IH; [lia|].
    apply Hstep; assumption.
  - rewrite (Pos2Z.inj_xO p).
    replace (K * 2 ^ (2 * Zpos p)) with (K * 2 ^ Zpos p * 2 ^ Zpos p).
    2:{ replace (2 * Zpos p) with (Zpos p + Zpos p) by lia.
        rewrite Z.pow_add_r by lia. ring. }
    assert (0 < 2 ^ Zpos p) by (apply Z.pow_pos_nonneg; lia).
    apply IH; [apply Z.mul_pos_pos; [lia|assumption]|]. apply IH; assumption.
  - replace (K * 2 ^ 1) with (2 * K) by (rewrite Z.pow_1_r; lia). apply Hstep; assumption.
Qed.

Lemma shr_1_mant_inv m0 K mrs :
  0 < K -> mant_inv m0 K mrs -> mant_inv m0 (2 * K) (shr_1 mrs).
Proof.
  intros HK. destruct mrs as [m r s]. unfold mant_inv. cbn [shr_m].
  intros [Hm H].
  destruct m as [|p|p]; [| |lia].
  - cbn [shr_1 shr_m]. lia.
  - destruct p as [p|p|]; cbn [shr_1 shr_m];
      rewrite ?(Pos2Z.inj_xI p), ?(Pos2Z.inj_xO p) in H; nia.
Qed.

Lemma shr_m_of_loc m l : shr_m (shr_record_of_loc m l) = m.
Proof. destruct l as [|[| |]]; reflexivity. Qed.

Lemma round_nearest_even_exact M K mrs :
  0 < K -> loc_inv M K mrs -> (exists k, M = k * K) ->
  round_nearest_even (shr_m mrs) (loc_of_shr_record mrs) = shr_m mrs
  /\ shr_m mrs * K = M.
Proof.
  intros HK [Hm H] [k Hk]. destruct mrs as [m r s]. cbn [shr_m shr_r shr_s] in *.
  subst M.
  destruct r, s; cbn [loc_of_shr_record round_nearest_even].
  - exfalso. destruct H as [H1 H2].
    assert (2 * m + 1 < 2 * k) by nia. assert (k < m + 1) by nia. lia.
  - exfalso. assert (2 * k = 2 * m + 1) by nia. lia.
  - exfalso. destruct H as [H1 H2].
    assert (m < k) by nia. assert (2 * k < 2 * m + 1) by nia. lia.
  - split; [reflexivity|]. lia.
Qed.

(** The shift of [shr_fexp], by [n >= 0] places. *)
Lemma shr_places M0 K0 m e l n :
  0 < K0 -> 0 <= n ->
  loc_inv M0 K0 (shr_record_of_loc (Zpos m) l) ->
  exists mrs1,
    shr (shr_record_of_loc (Zpos m) l) e n = (mrs1, e + n)
    /\ loc_inv M0 (K0 * 2 ^ n) mrs1
    /\ mant_inv (Zpos m) (2 ^ n) mrs1.
Proof.
  intros HK0 Hn Hloc. destruct n as [|pn|pn]; [| |lia].
  - exists (shr_record_of_loc (Zpos m) l). cbn [shr].
    rewrite Z.add_0_r, Z.pow_0_r, Z.mul_1_r. split; [reflexivity|]. split; [assumption|].
    unfold mant_inv. rewrite shr_m_of_loc. lia.
  - exists (iter_pos shr_1 pn (shr_record_of_loc (Zpos m) l)). cbn [shr].
    split; [reflexivity|]. split.
    + apply (iter_pos_shr_1_invariant (loc_inv M0)); [|assumption|assumption].
      intros; apply shr_1_loc_inv; assumption.
    + rewrite <- (Z.mul_1_l (2 ^ Zpos pn)).
      apply (iter_pos_shr_1_invariant (mant_inv (Zpos m))).
      * intros; apply shr_1_mant_inv; assumption.
      * lia.
      * unfold mant_inv. rewrite shr_m_of_loc. lia.
Qed.

Lemma binary_round_aux_finite M0 K0 m e l :
  0 < K0 ->
  loc_inv M0 K0 (shr_record_of_loc (Zpos m) l) ->
  53 <= Zpos (digits2_pos m) ->
  -1074 <= Zpos (digits2_pos m) + e - 53 ->
  Zpos (digits2_pos m) + e <= 1023 ->
  exists m3 e3,
    binary_round_aux 53 1024 false (Zpos m) e l = S754_finite false m3 e3
    /\ Zpos (digits2_pos m3) = 53
    /\ e + (Zpos (digits2_pos m) - 53) <= e3 <= e + (Zpos (digits2_pos m) - 53) + 1
    /\ 2 * Z.abs (Zpos m3 * 2 ^ (e3 - e) * K0 - M0)
       <= K0 * 2 ^ (Zpos (digits2_pos m) - 53)
    /\ ((exists k, M0 = k * (K0 * 2 ^ (Zpos (digits2_pos m) - 53))) ->
        e3 = e + (Zpos (digits2_pos m) - 53)
        /\ Zpos m3 * 2 ^ (Zpos (digits2_pos m) - 53) * K0 = M0).
Proof.
  intros HK0 Hloc Hd Hlo Hhi.
  set (d := Zpos (digits2_pos m)) in *.
  unfold binary_round_aux, shr_fexp. cbn [Zdigits2]. fold d.
  unfold fexp, emin.
  rewrite Z.max_l by lia.
  replace (d + e - 53 - e) with (d - 53) by lia.
  set (n := d - 53) in *. assert (Hn : 0 <= n) by lia.
  destruct (shr_places M0 K0 m e l n HK0 Hn Hloc) as (mrs1 & -> & Hloc1 & [Hm1 Hmant1]).
  assert (HP : 0 < 2 ^ n) by (apply Z.pow_pos_nonneg; lia).
  assert (HK : 0 < K0 * 2 ^ n) by (apply Z.mul_pos_pos; assumption).
  destruct (round_nearest_even_half M0 (K0 * 2 ^ n) mrs1 HK Hloc1) as [Hm2 Herr].
  pose proof (round_nearest_even_exact M0 (K0 * 2 ^ n) mrs1 HK Hloc1) as Hexact.
  set (m1 := shr_m mrs1) in *.
  set (m2 := round_nearest_even m1 (loc_of_shr_record mrs1)) in *.
  pose proof (digits2_pos_bounds m) as [Hmlo Hmhi]. fold d in Hmlo, Hmhi.
  assert (Hd1 : d - 1 = 52 + n) by lia.
  assert (Hd2 : d = 53 + n) by lia.
  rewrite Hd1, Z.pow_add_r in Hmlo by lia.
  rewrite Hd2, Z.pow_add_r in Hmhi by lia.
  assert (H52 : 2 ^ 52 <= m1 < 2 ^ 53) by (generalize dependent (2 ^ n); intros; nia).
  destruct (Z_lt_le_dec m2 (2 ^ 53)) as [Hlt|Hge].
  - (* no carry *)
    destruct m2 as [|q|q] eqn:Hq; [lia| |lia].
    assert (Hdq : Zpos (digits2_pos q) = 53) by (apply digits2_pos_unique; lia).
    cbn [Zdigits2]. rewrite Hdq.
    rewrite Z.max_l by lia.
    replace (53 + (e + n) - 53 - (e + n)) with 0 by lia.
    cbn [shr]. rewrite shr_m_of_loc.
    replace (e + n <=? 1024 - 53) with true by (symmetry; apply Z.leb_le; lia).
    exists q, (e + n). split; [reflexivity|]. split; [assumption|]. split; [lia|].
    replace (e + n - e) with n by lia.
    replace (Zpos q * 2 ^ n * K0) with (Zpos q * (K0 * 2 ^ n)) by ring.
    split; [exact Herr|].
    intros Hk. destruct (Hexact Hk) as [Hsame Hval]. split; [reflexivity|].
    rewrite Hsame. rewrite <- Hval. ring.
  - (* the rounding carries into the next binade *)
    assert (Hm2e : m2 = 2 ^ 53) by lia.
    assert (Hup : m2 <> m1) by lia.
    rewrite Hm2e in *. clear Hge.
    change (2 ^ 53) with (Zpos 9007199254740992) in *.
    cbn [Zdigits2]. change (Zpos (digits2_pos 9007199254740992)) with 54.
    rewrite Z.max_l by lia.
    replace (54 + (e + n) - 53 - (e + n)) with 1 by lia.
    cbn [shr iter_pos shr_record_of_loc shr_1 shr_m orb].
    replace (e + n + 1 <=? 1024 - 53) with true by (symmetry; apply Z.leb_le; lia).
    exists 4503599627370496%positive, (e + n + 1).
    split; [reflexivity|]. split; [reflexivity|]. split; [lia|].
    replace (e + n + 1 - e) with (n + 1) by lia.
    rewrite Z.pow_add_r, Z.pow_1_r by lia.
    replace (4503599627370496 * (2 ^ n * 2) * K0)
      with (9007199254740992 * (K0 * 2 ^ n)) by ring.
    split; [exact Herr|].
    intros Hk. destruct (Hexact Hk) as [Hsame _]. congruence.
Qed.

Lemma normal_mantissa m :
  Zpos (digits2_pos m) = 53 -> 4503599627370496 <= Zpos m < 9007199254740992.
Proof.
  intros H. pose proof (digits2_pos_bounds m) as Hb. rewrite H in Hb. exact Hb.
Qed.

Lemma mul_normal mx ex my ey :
  Zpos (digits2_pos mx) = 53 ->
  Zpos (digits2_pos my) = 53 ->
  -1126 <= ex + ey <= 917 ->
  exists m3 e3,
    SFmul 53 1024 (S754_finite false mx ex) (S754_finite false my ey)
    = S754_finite false m3 e3
    /\ Zpos (digits2_pos m3) = 53
    /\ ex + ey + 52 <= e3 <= ex + ey + 54
    /\ 2 ^ 53 * Z.abs (Zpos m3 * 2 ^ (e3 - (ex + ey)) - Zpos mx * Zpos my)
       <= Zpos mx * Zpos my.
Proof.
  intros Hdx Hdy He.
  pose proof (normal_mantissa mx Hdx) as Hx.
  pose proof (normal_mantissa my Hdy) as Hy.
  pose proof (digits2_pos_bounds (mx * my)) as [Hlo Hhi].
  set (d := Zpos (digits2_pos (mx * my))) in *.
  rewrite Pos2Z.inj_mul in Hlo, Hhi.
  assert (HM : 2 ^ 104 <= Zpos mx * Zpos my < 2 ^ 106).
  { change (2 ^ 104) with (4503599627370496 * 4503599627370496).
    change (2 ^ 106) with (9007199254740992 * 9007199254740992). nia. }
  assert (Hd : 105 <= d <= 106).
  { split.
    - assert (104 < d); [|lia]. apply (Z.pow_lt_mono_r_iff 2); lia.
    - assert (d - 1 < 106); [|lia]. apply (Z.pow_lt_mono_r_iff 2); lia. }
  cbn [SFmul xorb].
  assert (Hloc : loc_inv (Zpos (mx * my)) 1 (shr_record_of_loc (Zpos (mx * my)) loc_Exact)).
  { unfold loc_inv. cbn [shr_record_of_loc shr_m shr_r shr_s]. lia. }
  destruct (binary_round_aux_finite (Zpos (mx * my)) 1 (mx * my) (ex + ey) loc_Exact
              ltac:(lia) Hloc ltac:(fold d; lia) ltac:(fold d; lia) ltac:(fold d; lia))
    as (m3 & e3 & Hr & Hd3 & He3 & Herr & _).
  fold d in Herr, He3.
  exists m3, e3. split; [exact Hr|]. split; [exact Hd3|]. split; [lia|].
  rewrite Pos2Z.inj_mul, Z.mul_1_r, Z.mul_1_l in Herr.
  assert (Hpow : 2 ^ (d - 1) = 2 ^ 52 * 2 ^ (d - 53)).
  { rewrite <- Z.pow_add_r by lia. f_equal. lia. }
  rewrite Hpow in Hlo.
  change (2 ^ 52) with 4503599627370496 in Hlo.
  change (2 ^ 53) with 9007199254740992.
  generalize dependent (2 ^ (d - 53)). intros. lia.
Qed.

Lemma new_location_loc_inv q r b :
  0 <= q -> 0 < b -> 0 <= r < b ->
  loc_inv (q * b + r) b (shr_record_of_loc q (new_location b r)).
Proof.
  intros Hq Hb Hr. unfold new_location.
  destruct (Z.even b) eqn:Hev.
  - unfold new_location_even. destruct (r =? 0) eqn:Hz.
    + apply Z.eqb_eq in Hz. unfold loc_inv. cbn. lia.
    + apply Z.eqb_neq in Hz. unfold loc_inv.
      destruct (Z.compare_spec (2 * r) b); cbn [shr_record_of_loc shr_m shr_r shr_s]; nia.
  - unfold new_location_odd. destruct (r =? 0) eqn:Hz.
    + apply Z.eqb_eq in Hz. unfold loc_inv. cbn. lia.
    + apply Z.eqb_neq in Hz. unfold loc_inv.
      assert (Hodd : b <> 2 * r).
      { intros ->. rewrite Z.even_mul in Hev. discriminate. }
      destruct (Z.compare_spec (2 * r + 1) b); cbn [shr_record_of_loc shr_m shr_r shr_s]; nia.
Qed.

Lemma div_normal mx ex my ey :
  Zpos (digits2_pos mx) = 53 ->
  Zpos (digits2_pos my) = 53 ->
  -1020 <= ex - ey <= 960 ->
  exists m3 e3,
    SFdiv 53 1024 (S754_finite false mx ex) (S754_finite false my ey)
    = S754_finite false m3 e3
    /\ Zpos (digits2_pos m3) = 53
    /\ ex - ey - 53 <= e3 <= ex - ey - 51
    /\ 2 ^ 53 * Z.abs (Zpos m3 * 2 ^ (e3 - (ex - ey - 53)) * Zpos my - Zpos mx * 2 ^ 53)
       <= Zpos mx * 2 ^ 53.
Proof.
  intros Hdx Hdy He.
  pose proof (normal_mantissa mx Hdx) as Hx.
  pose proof (normal_mantissa my Hdy) as Hy.
  unfold SFdiv, SFdiv_core_binary. cbn [Zdigits2 xorb].
  rewrite Hdx, Hdy. unfold fexp, emin.
  replace (53 + ex - (53 + ey) - 53) with (ex - ey - 53) by lia.
  rewrite Z.max_l by lia. rewrite Z.min_l by lia.
  replace (ex - ey - (ex - ey - 53)) with 53 by lia.
  rewrite Z.shiftl_mul_pow2 by lia.
  pose proof (Z_div_mod (Zpos mx * 2 ^ 53) (Zpos my) eq_refl) as Hdm.
  destruct (Z.div_eucl (Zpos mx * 2 ^ 53) (Zpos my)) as [q r].
  destruct Hdm as [Hdm Hr].
  change (2 ^ 53) with 9007199254740992 in *.
  assert (Hq : 4503599627370496 <= q < 4 * 4503599627370496) by nia.
  destruct q as [|qp|qp]; [lia| |lia].
  pose proof (digits2_pos_bounds qp) as [Hqlo Hqhi].
  set (d := Zpos (digits2_pos qp)) in *.
  assert (Hd : 53 <= d <= 54).
  { split.
    - assert (52 < d); [|lia]. apply (Z.pow_lt_mono_r_iff 2); [lia|lia|].
      change (2 ^ 52) with 4503599627370496. lia.
    - assert (d - 1 < 54); [|lia]. apply (Z.pow_lt_mono_r_iff 2); [lia|lia|].
      change (2 ^ 54) with (4 * 4503599627370496). lia. }
  assert (Hloc : loc_inv (Zpos mx * 9007199254740992) (Zpos my)
                   (shr_record_of_loc (Zpos qp) (new_location (Zpos my) r))).
  { rewrite Hdm. replace (Zpos my * Zpos qp + r) with (Zpos qp * Zpos my + r) by ring.
    apply new_location_loc_inv; lia. }
  destruct (binary_round_aux_finite (Zpos mx * 9007199254740992) (Zpos my) qp
              (ex - ey - 53) (new_location (Zpos my) r)
              ltac:(lia) Hloc ltac:(fold d; lia) ltac:(fold d; lia) ltac:(fold d; lia))
    as (m3 & e3 & Hres & Hd3 & He3 & Herr & _).
  fold d in Herr, He3.
  exists m3, e3. split; [exact Hres|]. split; [exact Hd3|]. split; [lia|].
  assert (Hpow : 2 ^ (d - 1) = 4503599627370496 * 2 ^ (d - 53)).
  { change 4503599627370496 with (2 ^ 52). rewrite <- Z.pow_add_r by lia. f_equal. lia. }
  rewrite Hpow in Hqlo.
  assert (0 < 2 ^ (d - 53)) by (apply Z.pow_pos_nonneg; lia).
  generalize dependent (2 ^ (d - 53)). intros P Herr HP0 HP.
  generalize dependent (Zpos m3 * 2 ^ (e3 - (ex - ey - 53)) * Zpos my). intros R HR.
  nia.
Qed.

Lemma pos_iter_xO m d : Zpos (Pos.iter xO m d) = Zpos m * 2 ^ Zpos d.
Proof.
  induction d as [|d IH] using Pos.peano_ind.
  - cbn [Pos.iter]. rewrite Z.pow_1_r. lia.
  - rewrite Pos.iter_succ, Pos2Z.inj_succ, Z.pow_succ_r by lia.
    rewrite (Pos2Z.inj_xO (Pos.iter xO m d)), IH. ring.
Qed.

Lemma shl_align_spec mx ex ex' :
  exists mz sh,
    shl_align mx ex ex' = (mz, ex - sh)
    /\ sh = Z.max 0 (ex - ex')
    /\ Zpos mz = Zpos mx * 2 ^ sh.
Proof.
  unfold shl_align. destruct (ex' - ex) as [|p|p] eqn:H.
  - exists mx, 0. rewrite Z.sub_0_r, Z.pow_0_r. repeat split; lia.
  - exists mx, 0. rewrite Z.sub_0_r, Z.pow_0_r. repeat split; lia.
  - exists (Pos.iter xO mx p), (Zpos p). rewrite pos_iter_xO.
    split; [f_equal; lia|]. split; lia.
Qed.

Lemma digits_shift m mz sh :
  0 <= sh -> Zpos mz = Zpos m * 2 ^ sh ->
  Zpos (digits2_pos mz) = Zpos (digits2_pos m) + sh.
Proof.
  intros Hsh H. apply digits2_pos_unique. rewrite H.
  pose proof (digits2_pos_bounds m) as [Hlo Hhi].
  replace (Zpos (digits2_pos m) + sh - 1) with (Zpos (digits2_pos m) - 1 + sh) by lia.
  rewrite !Z.pow_add_r by lia.
  assert (0 < 2 ^ sh) by (apply Z.pow_pos_nonneg; lia).
  split; nia.
Qed.

Lemma binary_round_int sp ez c :
  -52 <= ez <= 0 ->
  0 < c < 2 ^ 53 ->
  Zpos sp = c * 2 ^ (- ez) ->
  int_double c (binary_round 53 1024 false sp ez).
Proof.
  intros Hez Hc HS.
  pose proof (digits2_pos_bounds sp) as [Hlo Hhi].
  set (dS := Zpos (digits2_pos sp)) in *.
  assert (HP : 0 < 2 ^ (- ez)) by (apply Z.pow_pos_nonneg; lia).
  (* the target exponent *)
  assert (HdS : 1 - ez <= dS <= 53 - ez).
  { split.
    - assert (- ez < dS); [|lia]. apply (Z.pow_lt_mono_r_iff 2); [lia|lia|]. nia.
    - assert (dS - 1 < 53 - ez); [|lia]. apply (Z.pow_lt_mono_r_iff 2); [lia|lia|].
      replace (53 - ez) with (53 + - ez) by lia. rewrite Z.pow_add_r by lia. nia. }
  unfold binary_round. fold dS. unfold fexp, emin.
  rewrite Z.max_l by lia.
  remember (dS + ez - 53) as t eqn:Et.
  destruct (shl_align_spec sp ez t) as (mz & sh & -> & Hsh & Hmz).
  assert (Hsh0 : 0 <= sh) by lia.
  pose proof (digits_shift sp mz sh Hsh0 Hmz) as Hdz. fold dS in Hdz.
  assert (Ht : dS + sh - 53 + (ez - sh) = t) by lia.
  assert (Hloc : loc_inv (Zpos mz) 1 (shr_record_of_loc (Zpos mz) loc_Exact)).
  { unfold loc_inv. cbn [shr_record_of_loc shr_m shr_r shr_s]. lia. }
  assert (C1 : 53 <= Zpos (digits2_pos mz)). { lia. }
  assert (C2 : -1074 <= Zpos (digits2_pos mz) + (ez - sh) - 53) by lia.
  assert (C3 : Zpos (digits2_pos mz) + (ez - sh) <= 1023) by lia.
  destruct (binary_round_aux_finite (Zpos mz) 1 mz (ez - sh) loc_Exact
              ltac:(lia) Hloc C1 C2 C3)
    as (m3 & e3 & Hres & Hd3 & He3 & _ & Hexact).
  rewrite Hdz in Hexact, He3.
  (* the mantissa is a multiple of the places shifted out *)
  assert (Hmz' : Zpos mz = c * 2 ^ (- t) * 2 ^ (dS + sh - 53)).
  { rewrite Hmz, HS, <- !Z.mul_assoc, <- !Z.pow_add_r by lia.
    do 2 f_equal. lia. }
  assert (Hk : exists k, Zpos mz = k * (1 * 2 ^ (dS + sh - 53))).
  { exists (c * 2 ^ (- t)). rewrite Hmz'. ring. }
  destruct (Hexact Hk) as [He3' Hm3].
  exists m3, e3. split; [exact Hres|]. split; [exact Hd3|]. split; [lia|].
  replace (- e3) with (- t) by lia.
  rewrite Z.mul_1_r in Hm3.
  assert (HQ : 0 < 2 ^ (dS + sh - 53)) by (apply Z.pow_pos_nonneg; lia).
  apply (Z.mul_reg_r _ _ (2 ^ (dS + sh - 53))); [lia|].
  rewrite Hm3. exact Hmz'.
Qed.

Lemma int_double_pos z x : int_double z x -> 0 < z.
Proof.
  intros (m & e & _ & _ & He & Hm).
  assert (0 < 2 ^ (- e)) by (apply Z.pow_pos_nonneg; lia). nia.
Qed.

Lemma of_Z_int_double z :
  0 < z < 2 ^ 53 -> int_double z (binary_normalize 53 1024 z 0 false).
Proof.
  intros Hz. destruct z as [|p|p]; [lia| |lia].
  cbn [binary_normalize]. apply binary_round_int; [lia|assumption|].
  cbn [Z.opp]. rewrite Z.pow_0_r. lia.
Qed.

Lemma add_int_double a b x y :
  int_double a x -> int_double b y -> a + b < 2 ^ 53 ->
  int_double (a + b) (SFadd 53 1024 x y).
Proof.
  intros Hx Hy Hab.
  pose proof (int_double_pos a x Hx) as Ha.
  pose proof (int_double_pos b y Hy) as Hb.
  destruct Hx as (mx & ex & -> & _ & Hex & Hmx).
  destruct Hy as (my & ey & -> & _ & Hey & Hmy).
  cbn [SFadd cond_Zopp].
  destruct (shl_align_spec mx ex (Z.min ex ey)) as (mzx & shx & -> & Hshx & Hzx).
  destruct (shl_align_spec my ey (Z.min ex ey)) as (mzy & shy & -> & Hshy & Hzy).
  cbn [fst]. rewrite <- Pos2Z.inj_add. cbn [binary_normalize].
  apply binary_round_int; [lia|lia|].
  rewrite Pos2Z.inj_add, Hzx, Hzy, Hmx, Hmy.
  rewrite <- !Z.mul_assoc, <- !Z.pow_add_r by lia.
  replace (- ex + shx) with (- Z.min ex ey) by lia.
  replace (- ey + shy) with (- Z.min ex ey) by lia.
  ring.
Qed.

Lemma two_power_pos e : (0 < 2 ^ e)%Q.
Proof. apply Qpower_0_lt. reflexivity. Qed.

Lemma two_power_add a b : (2 ^ (a + b) == 2 ^ a * 2 ^ b)%Q.
Proof. apply Qpower_plus. discriminate. Qed.

Lemma scaled_mantissa m e3 e :
  e <= e3 -> (inject_Z m * 2 ^ e3 == inject_Z (m * 2 ^ (e3 - e)) * 2 ^ e)%Q.
Proof.
  intros H. rewrite inject_Z_mult, Zpower_Qpower by lia.
  replace e3 with ((e3 - e) + e) at 1 by lia.
  rewrite two_power_add. change (inject_Z 2) with 2%Q. ring.
Qed.

Lemma value_pos m e : (0 < Num.value m e)%Q.
Proof. apply Qmult_lt_0_compat; [reflexivity|apply two_power_pos]. Qed.

(** An integer inequality on mantissas, scaled by a power of two. *)
Lemma scaled_error (R M : Z) (P : Q) :
  (0 < P)%Q ->
  2 ^ 53 * Z.abs (R - M) <= M ->
  (Qabs (inject_Z R * P - inject_Z M * P) <= inject_Z M * P * (1 # 2 ^ 53))%Q.
Proof.
  intros HP Herr.
  assert (Hd : (inject_Z R * P - inject_Z M * P == inject_Z (R - M) * P)%Q).
  { unfold Z.sub. rewrite inject_Z_plus, inject_Z_opp. ring. }
  rewrite Hd, Qabs_Qmult, (Qabs_pos P) by (apply Qlt_le_weak; exact HP).
  assert (Hz : (inject_Z (Z.abs (R - M)) * inject_Z (2 ^ 53) <= inject_Z M)%Q).
  { rewrite <- inject_Z_mult. rewrite <- Zle_Qle. lia. }
  change (inject_Z (2 ^ 53)) with (9007199254740992 # 1)%Q in Hz.
  change (1 # 2 ^ 53)%Q with (1 # 9007199254740992)%Q.
  assert (Habs : (Qabs (inject_Z (R - M)) == inject_Z (Z.abs (R - M)))%Q)
    by reflexivity.
  rewrite Habs.
  set (A := inject_Z (Z.abs (R - M))) in *. set (B := inject_Z M) in *.
  assert (HA : (A * P * (9007199254740992 # 1) <= B * P)%Q).
  { setoid_replace (A * P * (9007199254740992 # 1))%Q
      with (A * (9007199254740992 # 1) * P)%Q by ring.
    apply Qmult_le_compat_r; [exact Hz|apply Qlt_le_weak; exact HP]. }
  generalize dependent (A * P)%Q. generalize dependent (B * P)%Q.
  intros bp ? ap ?. lra.
Qed.

Lemma mul_error mx ex my ey :
  Zpos (digits2_pos mx) = 53 ->
  Zpos (digits2_pos my) = 53 ->
  -1126 <= ex + ey <= 917 ->
  exists m3 e3,
    SFmul 53 1024 (S754_finite false mx ex) (S754_finite false my ey)
    = S754_finite false m3 e3
    /\ Zpos (digits2_pos m3) = 53
    /\ ex + ey + 52 <= e3 <= ex + ey + 54
    /\ (Qabs (Num.value m3 e3 - Num.value mx ex * Num.value my ey)
        <= Num.value mx ex * Num.value my ey * (1 # 2 ^ 53))%Q.
Proof.
  intros Hdx Hdy He.
  destruct (mul_normal mx ex my ey Hdx Hdy He) as (m3 & e3 & Hr & Hd3 & He3 & Herr).
  exists m3, e3. split; [exact Hr|]. split; [exact Hd3|]. split; [exact He3|].
  unfold Num.value.
  rewrite (scaled_mantissa (Zpos m3) e3 (ex + ey)) by lia.
  assert (Hxy : ((inject_Z (Zpos mx) * 2 ^ ex) * (inject_Z (Zpos my) * 2 ^ ey)
                 == inject_Z (Zpos mx * Zpos my) * 2 ^ (ex + ey))%Q).
  { rewrite inject_Z_mult, two_power_add. ring. }
  rewrite Hxy. apply scaled_error; [apply two_power_pos|exact Herr].
Qed.

Lemma div_error mx ex my ey :
  Zpos (digits2_pos mx) = 53 ->
  Zpos (digits2_pos my) = 53 ->
  -1020 <= ex - ey <= 960 ->
  exists m3 e3,
    SFdiv 53 1024 (S754_finite false mx ex) (S754_finite false my ey)
    = S754_finite false m3 e3
    /\ Zpos (digits2_pos m3) = 53
    /\ ex - ey - 53 <= e3 <= ex - ey - 51
    /\ (Qabs (Num.value m3 e3 * Num.value my ey - Num.value mx ex)
        <= Num.value mx ex * (1 # 2 ^ 53))%Q.
Proof.
  intros Hdx Hdy He.
  destruct (div_normal mx ex my ey Hdx Hdy He) as (m3 & e3 & Hr & Hd3 & He3 & Herr).
  exists m3, e3. split; [exact Hr|]. split; [exact Hd3|]. split; [exact He3|].
  unfold Num.value.
  rewrite (scaled_mantissa (Zpos m3) e3 (ex - ey - 53)) by lia.
  set (R := Zpos m3 * 2 ^ (e3 - (ex - ey - 53))) in *.
  assert (H1 : (inject_Z R * 2 ^ (ex - ey - 53) * (inject_Z (Zpos my) * 2 ^ ey)
                == inject_Z (R * Zpos my) * 2 ^ (ex - 53))%Q).
  { rewrite inject_Z_mult. replace (ex - 53) with ((ex - ey - 53) + ey) by lia.
    rewrite two_power_add. ring. }
  assert (H2 : (inject_Z (Zpos mx) * 2 ^ ex
                == inject_Z (Zpos mx * 2 ^ 53) * 2 ^ (ex - 53))%Q).
  { rewrite inject_Z_mult, Zpower_Qpower by lia. change (inject_Z 2) with 2%Q.
    replace ex with (53 + (ex - 53)) at 1 by lia. rewrite two_power_add. ring. }
  rewrite H1, H2. apply scaled_error; [apply two_power_pos|exact Herr].
Qed.

Lemma int_double_value z x :
  int_double z x ->
  exists m e,
    x = S754_finite false m e
    /\ Zpos (digits2_pos m) = 53
    /\ -52 <= e <= 0
    /\ (Num.value m e == inject_Z z)%Q.
Proof.
  intros (m & e & -> & Hd & He & Hm). exists m, e.
  split; [reflexivity|]. split; [assumption|]. split; [assumption|].
  unfold Num.value. rewrite Hm, inject_Z_mult, Zpower_Qpower by lia.
  change (inject_Z 2) with 2%Q.
  rewrite <- Qmult_assoc, <- two_power_add.
  replace (- e + e) with 0 by lia. cbn. ring.
Qed.

(** ** The readiness gate *)

Lemma ready_project E pid s r :
  no_faults E ->
  outcome (ProjectService.isProjectReadyForDistribution E pid) s = Ok r ->
  ProjectService.ready r = true ->
  exists p rest,
    Sql.select_project pid s = p :: rest
    /\ Project.status p = Project.active
    /\ Project.available_tokens p <= 0
    /\ ProjectService.totalTokens r = Project.total_tokens p
    /\ ProjectService.availableTokens r = Project.available_tokens p
    /\ ProjectService.tokenHolderCount r = Some (Sql.count_token_holders pid s)
    /\ Sql.count_token_holders pid s <> 0.
Proof.
  intros Hnf. unfold ProjectService.isProjectReadyForDistribution. eff_unfold. eff_simpl.
  rewrite !Hnf. eff_simpl.
  destruct (Sql.select_project pid s) as [|p rest]; [intros [= <-]; discriminate|].
  destruct (Project.status p) eqn:Hst; cbn [Project.status_eqb];
    try (intros [= <-]; discriminate).
  destruct (0 <? Project.available_tokens p) eqn:Hav; [intros [= <-]; discriminate|].
  eff_simpl. rewrite Hnf. eff_simpl.
  destruct (Sql.count_token_holders pid s =? 0) eqn:Hz; intros [= <-]; [discriminate|].
  intros _. apply Z.ltb_ge in Hav. apply Z.eqb_neq in Hz. exists p, rest. cbn.
  repeat split; try reflexivity; assumption.
Qed.

Lemma active_tokens_In pid s k :
  In k (Sql.active_tokens pid s) <-> active_holding pid s k.
Proof.
  unfold Sql.active_tokens, active_holding, Token.is_active.
  rewrite filter_In, andb_true_iff, String.eqb_eq.
  destruct (Token.status k); intuition discriminate.
Qed.

Lemma count_token_holders_zero pid s :
  Sql.count_token_holders pid s = 0 <-> Sql.active_tokens pid s = [].
Proof.
  unfold Sql.count_token_holders. split.
  - destruct (Sql.active_tokens pid s) as [|k l]; [reflexivity|].
    intros H. exfalso.
    assert (Hin : In (Token.user_id k) (nodup Z.eq_dec (map Token.user_id (k :: l))))
      by (apply nodup_In; left; reflexivity).
    destruct (nodup Z.eq_dec (map Token.user_id (k :: l))); [contradiction|].
    cbn [List.length] in H. lia.
  - intros ->. reflexivity.
Qed.

Lemma holders_of_the_project pid s :
  let users := nodup Z.eq_dec (map Token.user_id (Sql.active_tokens pid s)) in
  NoDup users
  /\ (forall u, In u users <-> exists k, active_holding pid s k /\ Token.user_id k = u)
  /\ Z.of_nat (List.length users) = Sql.count_token_holders pid s
  /\ (Sql.count_token_holders pid s <> 0 <-> exists k, active_holding pid s k).
Proof.
  intros users. split; [apply NoDup_nodup|]. split; [|split; [reflexivity|]].
  - intros u. unfold users. rewrite nodup_In, in_map_iff.
    split; intros (k & Hk & Hin); exists k.
    + split; [apply active_tokens_In, Hin|exact Hk].
    + split; [exact Hin|apply active_tokens_In, Hk].
  - rewrite count_token_holders_zero.
    destruct (Sql.active_tokens pid s) as [|k l] eqn:Hact.
    + split; [congruence|]. intros (k & Hk). apply active_tokens_In in Hk.
      rewrite Hact in Hk. destruct Hk.
    + split; [|discriminate]. intros _. exists k. apply active_tokens_In.
      rewrite Hact. left. reflexivity.
Qed.

(** C5, as the claim has it, fails. A project created with a supply of -2
    has [available_tokens = -2]: the sell-out check of the claim fails on
    it, and the gate reports that it has no holder. A project of 10 tokens
    whose holders hold 7 and 5 has [available_tokens = -2] as well, and the
    gate reports it ready, with 12 of 10 tokens sold. *)
Lemma negative_supply_passes_the_sell_out_check :
  let E := Scenario.ledger_up in
  let pid := generated_project_id E in
  let created :=
    store_after (ProjectService.createProject E "Solar farm" "" (-2) (Num.of_Z 1000)
                   (Num.of_Z 10000) 1) empty_store in
  let report (r : ProjectService.readiness) :=
    (ProjectService.ready r, ProjectService.tokensSold r, ProjectService.totalTokens r,
     ProjectService.availableTokens r, ProjectService.tokenHolderCount r) in
  map Project.available_tokens (Sql.select_project pid created) = [-2]
  /\ map_result verdict_of
       (outcome (ProjectService.isProjectReadyForDistribution E pid) created)
     = Ok (Some NoHolders)
  /\ first_failing_check (Sql.select_project pid created) 0 = NotSoldOut
  /\ map_result report
       (outcome (ProjectService.isProjectReadyForDistribution E "PROJECT_1")
          Scenario.oversold)
     = Ok (true, 12, 10, -2, Some 2)
  /\ first_failing_check (Sql.select_project "PROJECT_1" Scenario.oversold) 2
     = NotSoldOut.
Proof.
  intros E pid created report.
  split; [vm_compute; reflexivity|].
  split; [vm_compute; reflexivity|].
  split; [vm_compute; reflexivity|].
  split; vm_compute; reflexivity.
Qed.

(** C5, as the code has it. When the store answers, the gate reports the
    first failing check of the fixed order: the project exists, is not
    completed, is not cancelled, has no [available_tokens] greater than 0,
    and has an active holding in the tokens table. A cancelled project is
    reported as cancelled whatever its [available_tokens]; the gate is
    ready exactly when all five checks pass, and then reports as holder
    count the number of distinct users with an active holding. The gate
    writes nothing. *)
Theorem readiness_first_failing_check :
  forall E pid s,
    no_faults E ->
    exists r users,
      outcome (ProjectService.isProjectReadyForDistribution E pid) s = Ok r
      /\ store_after (ProjectService.isProjectReadyForDistribution E pid) s = s
      /\ NoDup users
      /\ (forall u, In u users
                    <-> exists k, active_holding pid s k /\ Token.user_id k = u)
      /\ verdict_of r
         = Some (amended_first_failing_check (Sql.select_project pid s)
                   (Z.of_nat (List.length users)))
      /\ (forall p rest,
            Sql.select_project pid s = p :: rest ->
            Project.status p = Project.cancelled ->
            ProjectService.ready r = false
            /\ ProjectService.reason r = "Project is cancelled")
      /\ (ProjectService.ready r = true <->
          exists p rest,
            Sql.select_project pid s = p :: rest
            /\ Project.status p = Project.active
            /\ Project.available_tokens p <= 0
            /\ exists k, active_holding pid s k)
      /\ (ProjectService.ready r = true ->
          ProjectService.tokenHolderCount r = Some (Z.of_nat (List.length users))).
Proof.
  intros E pid s Hnf.
  destruct (holders_of_the_project pid s) as (Hnd & Husers & Hlen & Hsome).
  set (users := nodup Z.eq_dec (map Token.user_id (Sql.active_tokens pid s))) in *.
  cut (exists r,
          outcome (ProjectService.isProjectReadyForDistribution E pid) s = Ok r
          /\ store_after (ProjectService.isProjectReadyForDistribution E pid) s = s
          /\ verdict_of r
             = Some (amended_first_failing_check (Sql.select_project pid s)
                       (Sql.count_token_holders pid s))
          /\ (forall p rest,
                Sql.select_project pid s = p :: rest ->
                Project.status p = Project.cancelled ->
                ProjectService.ready r = false
                /\ ProjectService.reason r = "Project is cancelled")
          /\ (ProjectService.ready r = true <->
              exists p rest,
                Sql.select_project pid s = p :: rest
                /\ Project.status p = Project.active
                /\ Project.available_tokens p <= 0
                /\ Sql.count_token_holders pid s <> 0)
          /\ (ProjectService.ready r = true ->
              ProjectService.tokenHolderCount r = Some (Sql.count_token_holders pid s))).
  { intros (r & Hr & Hs & Hv & Hc & Hready & Hcount). exists r, users.
    rewrite Hlen. split; [exact Hr|]. split; [exact Hs|]. split; [exact Hnd|].
    split; [exact Husers|]. split; [exact Hv|]. split; [exact Hc|].
    split; [|exact Hcount]. rewrite Hready.
    split; intros (p & rest & H1 & H2 & H3 & H4); exists p, rest;
      (split; [exact H1|split; [exact H2|split; [exact H3|apply Hsome, H4]]]). }
  clear Hnd Husers Hlen Hsome users.
  unfold ProjectService.isProjectReadyForDistribution. eff_unfold. eff_simpl.
  rewrite !Hnf. eff_simpl.
  destruct (Sql.select_project pid s) as [|p rest] eqn:Hsel.
  - eexists. split; [reflexivity|]. split; [reflexivity|]. split; [reflexivity|].
    split; [intros ? ? [=]|]. split; [|discriminate].
    split; [discriminate|]. intros (? & ? & [=] & _).
  - unfold amended_first_failing_check.
    assert (Hc : 0 <= Sql.count_token_holders pid s)
      by (unfold Sql.count_token_holders; lia).
    destruct (Project.status p) eqn:Hst; cbn [Project.status_eqb].
    + destruct (0 <? Project.available_tokens p) eqn:Hav.
      * apply Z.ltb_lt in Hav.
        eexists. split; [reflexivity|]. split; [reflexivity|]. split; [reflexivity|].
        split; [intros ? ? [= <- <-]; congruence|]. split; [|discriminate].
        split; [discriminate|]. intros (? & ? & [= <- <-] & _ & Hz & _). lia.
      * eff_simpl. rewrite Hnf. apply Z.ltb_ge in Hav.
        destruct (Sql.count_token_holders pid s =? 0) eqn:Hz.
        -- apply Z.eqb_eq in Hz. rewrite Hz.
           eexists. split; [reflexivity|]. split; [reflexivity|]. split; [reflexivity|].
           split; [intros ? ? [= <- <-]; congruence|]. split; [|discriminate].
           split; [discriminate|]. intros (? & ? & _ & _ & _ & Hne). congruence.
        -- apply Z.eqb_neq in Hz.
           replace (Sql.count_token_holders pid s <? 1) with false
             by (symmetry; apply Z.ltb_ge; lia).
           eexists. split; [reflexivity|]. split; [reflexivity|]. split; [reflexivity|].
           split; [intros ? ? [= <- <-]; congruence|]. split; [|reflexivity].
           split; [|reflexivity]. intros _. exists p, rest.
           split; [reflexivity|]. split; [exact Hst|]. split; assumption.
    + eexists. split; [reflexivity|]. split; [reflexivity|]. split; [reflexivity|].
      split; [intros ? ? [= <- <-]; congruence|]. split; [|discriminate].
      split; [discriminate|]. intros (? & ? & [= <- <-] & Hs' & _). congruence.
    + eexists. split; [reflexivity|]. split; [reflexivity|]. split; [reflexivity|].
      split; [intros ? ? [= <- <-] _; split; reflexivity|]. split; [|discriminate].
      split; [discriminate|]. intros (? & ? & [= <- <-] & Hs' & _). congruence.
Qed.

Lemma readiness_first_failing_check_witness :
  exists r (users : list Z),
    outcome (ProjectService.isProjectReadyForDistribution Scenario.ledger_up "PROJECT_1")
            Scenario.oversold = Ok r
    /\ NoDup users
    /\ Z.of_nat (List.length users) = 2
    /\ verdict_of r = Some (Ready 2)
    /\ ProjectService.ready r = true
    /\ ProjectService.tokenHolderCount r = Some 2.
Proof.
  destruct (readiness_first_failing_check Scenario.ledger_up "PROJECT_1" Scenario.oversold)
    as (r & users & Hr & _ & Hnd & Hu & Hv & _ & Hready & Hcount);
    [intros k; reflexivity|].
  assert (Hok : ProjectService.ready r = true).
  { apply Hready. exists (Scenario.project_row Project.active 10 (-2)), [].
    split; [reflexivity|]. split; [reflexivity|]. split; [cbn; lia|].
    exists (Scenario.holding 1 11 7). split; [left; reflexivity|split; reflexivity]. }
  assert (Hlen : List.length users = 2%nat).
  { apply Nat.le_antisymm.
    - apply (NoDup_incl_length (l' := [11; 12]) Hnd). intros u Hin.
      apply Hu in Hin. destruct Hin as (k & (Hin & _ & _) & <-).
      destruct Hin as [<-|[<-|[]]]; cbn; tauto.
    - apply (NoDup_incl_length (l := [11; 12])).
      + repeat constructor; cbn; intuition lia.
      + intros u [<-|[<-|[]]]; apply Hu.
        * exists (Scenario.holding 1 11 7).
          split; [split; [left; reflexivity|split; reflexivity]|reflexivity].
        * exists (Scenario.holding 2 12 5).
          split; [split; [right; left; reflexivity|split; reflexivity]|reflexivity]. }
  exists r, users. rewrite Hlen in *. specialize (Hcount Hok).
  split; [exact Hr|]. split; [exact Hnd|]. split; [reflexivity|].
  split; [exact Hv|]. split; [exact Hok|exact Hcount].
Defined.

(** C9. The gate always returns a result object and never throws; when a
    statement of the store fails, the result is not ready, carries the
    database error as its reason and has zeroed counters. *)
Theorem readiness_never_throws :
  forall E pid s,
    exists r,
      outcome (ProjectService.isProjectReadyForDistribution E pid) s = Ok r
      /\ store_after (ProjectService.isProjectReadyForDistribution E pid) s = s
      /\ (forall e, store_fault E 0%nat = Some e -> r = database_error e)
      /\ (forall e p rest,
            store_fault E 0%nat = None ->
            Sql.select_project pid s = p :: rest ->
            Project.status p = Project.active ->
            Project.available_tokens p <= 0 ->
            store_fault E 1%nat = Some e ->
            r = database_error e).
Proof.
  intros E pid s.
  unfold ProjectService.isProjectReadyForDistribution. eff_unfold. eff_simpl.
  destruct (store_fault E 0%nat) as [e0|] eqn:H0.
  - eexists. split; [reflexivity|]. split; [reflexivity|]. split.
    + intros e [= <-]. reflexivity.
    + intros; discriminate.
  - eff_simpl.
    destruct (Sql.select_project pid s) as [|p rest] eqn:Hsel.
    { eexists. split; [reflexivity|]. split; [reflexivity|].
      split; intros; discriminate. }
    destruct (Project.status_eqb (Project.status p) Project.completed) eqn:Hc.
    { eexists. split; [reflexivity|]. split; [reflexivity|].
      split; [intros; discriminate|].
      intros e p' rest' _ [= <- <-] Hst. rewrite Hst in Hc. discriminate. }
    destruct (Project.status_eqb (Project.status p) Project.cancelled) eqn:Hx.
    { eexists. split; [reflexivity|]. split; [reflexivity|].
      split; [intros; discriminate|].
      intros e p' rest' _ [= <- <-] Hst. rewrite Hst in Hx. discriminate. }
    destruct (0 <? Project.available_tokens p) eqn:Hav.
    { eexists. split; [reflexivity|]. split; [reflexivity|].
      split; [intros; discriminate|].
      intros e p' rest' _ [= <- <-] _ Hle. apply Z.ltb_lt in Hav. lia. }
    eff_simpl.
    destruct (store_fault E 1%nat) as [e1|] eqn:H1.
    + eexists. split; [reflexivity|]. split; [reflexivity|].
      split; [intros; discriminate|].
      intros e p' rest' _ _ _ _ [= <-]. reflexivity.
    + eff_simpl.
      destruct (Sql.count_token_holders pid s =? 0);
        (eexists; split; [reflexivity|]; split; [reflexivity|];
         split; intros; discriminate).
Qed.

(** The gate on a store that fails at its first, or at its second, query. *)
Lemma readiness_of_a_failing_store :
  outcome (ProjectService.isProjectReadyForDistribution
             (Scenario.store_down_at 0 (Error "connect ECONNREFUSED")) "PROJECT_1")
          (Scenario.sold_out Project.active)
  = Ok (ProjectService.mk_readiness false "Database error: connect ECONNREFUSED"
          false 0 0 0 None)
  /\ outcome (ProjectService.isProjectReadyForDistribution
                (Scenario.store_down_at 1 NonError) "PROJECT_1")
             (Scenario.sold_out Project.active)
     = Ok (ProjectService.mk_readiness false "Database error: Unknown error"
             false 0 0 0 None).
Proof. split; vm_compute; reflexivity. Qed.

(** ** The token sale *)

Local Opaque Num.mul Num.of_Z string_of_Z.

Lemma purchase_store_cases E user b s :
  store_after (TokenController.purchaseTokens E user b) s = s
  \/ exists pid amount project rest hash,
       b = TokenController.mk_body (Some pid) (Some amount)
       /\ Sql.select_active_project pid s = project :: rest
       /\ 0 < amount
       /\ amount <= Project.available_tokens project
       /\ store_after (TokenController.purchaseTokens E user b) s
          = purchased_store E user pid amount project hash s.
Proof.
  destruct b as [[pid|] [amount|]]; try (left; reflexivity).
  unfold TokenController.purchaseTokens, BlockchainService.createToken.
  eff_unfold. eff_simpl.
  cbn [TokenController.project_id TokenController.amount].
  destruct (negb (truthy_string (Some pid)) || negb (truthy_int (Some amount))
            || (amount <=? 0)) eqn:Hv; [left; reflexivity|].
  apply orb_false_elim in Hv. destruct Hv as [_ Hpos]. apply Z.leb_gt in Hpos.
  eff_simpl.
  destruct (store_fault E 2%nat); [left; reflexivity|]. eff_simpl.
  destruct (Sql.select_active_project pid s) as [|project rest] eqn:Hsel;
    [left; reflexivity|].
  destruct (Project.available_tokens project <? amount) eqn:Hav; [left; reflexivity|].
  apply Z.ltb_ge in Hav.
  destruct (contract_createToken E (generated_token_id E) pid amount) as [hash|e];
    [|left; reflexivity].
  eff_simpl. cbn [BlockchainService.hash].
  destruct (store_fault E 4%nat); [left; reflexivity|]. eff_simpl.
  destruct (store_fault E 5%nat); [left; reflexivity|]. eff_simpl.
  destruct (store_fault E 6%nat); [left; reflexivity|]. eff_simpl.
  right. exists pid, amount, project, rest, hash. repeat split; assumption || reflexivity.
Qed.

Lemma select_project_purchased E user pid amount project hash s pid0 :
  Sql.select_project pid0 (purchased_store E user pid amount project hash s)
  = map (debit amount pid) (Sql.select_project pid0 s).
Proof.
  unfold Sql.select_project, purchased_store. cbn [projects Sql.insert_transaction
    Sql.decrement_available_tokens Sql.insert_token].
  apply (filter_map_commute _ (debit amount pid)).
  intros x. unfold debit. destruct (Project.project_id x =? pid)%string; reflexivity.
Qed.

Lemma active_tokens_purchased E user pid amount project hash s pid0 :
  Sql.active_tokens pid0 (purchased_store E user pid amount project hash s)
  = (Sql.active_tokens pid0 s
      ++ (if String.eqb pid pid0
          then [Token.mk (Sql.next_id (map Token.id (tokens s))) (generated_token_id E)
                  pid user amount (Project.token_price project)
                  (Num.mul (Num.of_Z amount) (Project.token_price project))
                  Token.active (Some hash)]
          else []))%list.
Proof.
  unfold Sql.active_tokens, purchased_store. cbn [tokens Sql.insert_transaction
    Sql.decrement_available_tokens Sql.insert_token].
  rewrite filter_app. cbn [filter Token.project_id Token.is_active Token.status].
  rewrite andb_true_r. destruct (pid =? pid0)%string; reflexivity.
Qed.

Lemma select_active_in_select pid s project rest :
  Sql.select_active_project pid s = project :: rest ->
  In project (Sql.select_project pid s).
Proof.
  intros H. assert (Hin : In project (Sql.select_active_project pid s))
    by (rewrite H; left; reflexivity).
  unfold Sql.select_active_project in Hin. apply filter_In in Hin.
  destruct Hin as [Hin Hb]. apply andb_prop in Hb.
  unfold Sql.select_project. apply filter_In. tauto.
Qed.

Lemma select_project_id pid s p : In p (Sql.select_project pid s) -> Project.project_id p = pid.
Proof.
  unfold Sql.select_project. intros H. apply filter_In in H.
  apply String.eqb_eq. tauto.
Qed.

Lemma purchase_keeps_supply_invariant pid0 T c s :
  supply_invariant pid0 T s -> supply_invariant pid0 T (purchase c s).
Proof.
  intros (p & Hsel & Htot & Hnn & Heq). unfold purchase.
  destruct (purchase_store_cases (call_env c) (call_user c) (call_body c) s)
    as [->|(pid & amount & project & rest & hash & _ & Hact & Hpos & Hle & ->)].
  { exists p. auto. }
  unfold supply_invariant.
  rewrite select_project_purchased, active_tokens_purchased, Hsel, sum_amounts_app.
  cbn [map]. unfold debit.
  assert (Hid : Project.project_id p = pid0).
  { apply (select_project_id pid0 s). rewrite Hsel. left; reflexivity. }
  rewrite Hid.
  destruct (String.eqb pid pid0) eqn:Hpp.
  - apply String.eqb_eq in Hpp. subst pid. rewrite String.eqb_refl.
    apply select_active_in_select in Hact. rewrite Hsel in Hact.
    destruct Hact as [<-|[]].
    eexists. split; [reflexivity|]. cbn. repeat split; lia.
  - rewrite String.eqb_sym, Hpp. exists p. cbn. repeat split; try assumption; lia.
Qed.

Lemma purchases_keep_supply_invariant pid0 T calls :
  forall s, supply_invariant pid0 T s ->
            Forall (supply_invariant pid0 T) (stores_along calls s).
Proof.
  induction calls as [|c calls IH]; intros s Hs; cbn [stores_along].
  - constructor.
  - constructor.
    + apply purchase_keeps_supply_invariant, Hs.
    + apply IH, purchase_keeps_supply_invariant, Hs.
Qed.

(** C6. For a project created with [T] tokens, [0 <= T], every store reached
    along any sequence of purchase requests (of any project, user, amount
    and environment) keeps [available_tokens] non-negative and equal to
    [total_tokens] minus the sum of the project's active holdings. *)
Theorem supply_invariant_along_purchases :
  forall E name description T price capital admin s0 calls,
    0 <= T ->
    store_fault E 0%nat = None ->
    Sql.select_project (generated_project_id E) s0 = [] ->
    Sql.active_tokens (generated_project_id E) s0 = [] ->
    let create := ProjectService.createProject E name description T price capital admin in
    (exists p, outcome create s0 = Ok p
               /\ Project.project_id p = generated_project_id E
               /\ Project.total_tokens p = T /\ Project.available_tokens p = T)
    /\ supply_invariant (generated_project_id E) T (store_after create s0)
    /\ Forall (supply_invariant (generated_project_id E) T)
         (stores_along calls (store_after create s0)).
Proof.
  intros E name description T price capital admin s0 calls HT Hnf Hfresh Hnone create.
  assert (Hs : store_after create s0
               = snd (Sql.insert_project (generated_project_id E) name description T T
                        price capital admin s0)).
  { unfold create, ProjectService.createProject. eff_unfold. eff_simpl.
    rewrite Hnf. reflexivity. }
  assert (Hinv : supply_invariant (generated_project_id E) T (store_after create s0)).
  { rewrite Hs. unfold supply_invariant, Sql.insert_project. cbn [snd].
    unfold Sql.select_project, Sql.active_tokens in *. cbn [projects tokens].
    rewrite filter_app, Hfresh, Hnone. cbn. rewrite String.eqb_refl.
    eexists. split; [reflexivity|]. cbn. repeat split; lia. }
  split; [|split].
  - unfold create, ProjectService.createProject. eff_unfold. eff_simpl.
    rewrite Hnf. cbn. eexists. split; [reflexivity|]. cbn. auto.
  - exact Hinv.
  - apply purchases_keep_supply_invariant, Hinv.
Qed.

(** C7. A purchase of a positive amount of tokens, more than the active
    project has left, is answered 400 with the insufficient-supply message
    and changes nothing: no holding, no transaction record, no contract
    call. *)
Theorem purchase_beyond_supply_rejected :
  forall E user pid amount s p rest,
    store_fault E 2%nat = None ->
    pid <> "" ->
    Sql.select_active_project pid s = p :: rest ->
    0 < amount ->
    Project.available_tokens p < amount ->
    let request :=
      TokenController.purchaseTokens E user
        (TokenController.mk_body (Some pid) (Some amount)) in
    outcome request s
    = Ok (mk_response 400
            (TokenController.insufficient_message (Project.available_tokens p))
            None None)
    /\ store_after request s = s
    /\ effects_of request s = [Acquire; Begin; Query; Release].
Proof.
  intros E user pid amount s p rest Hnf Hpid Hsel Hpos Hlt request.
  unfold request, TokenController.purchaseTokens. eff_unfold. eff_simpl.
  cbn [TokenController.project_id TokenController.amount].
  assert (Hv : negb (truthy_string (Some pid)) || negb (truthy_int (Some amount))
               || (amount <=? 0) = false).
  { apply String.eqb_neq in Hpid. cbn. rewrite Hpid. cbn.
    replace (amount =? 0) with false by (symmetry; apply Z.eqb_neq; lia).
    cbn. apply Z.leb_gt. lia. }
  rewrite Hv. eff_simpl. rewrite Hnf. eff_simpl. rewrite Hsel.
  replace (Project.available_tokens p <? amount) with true
    by (symmetry; apply Z.ltb_lt; lia).
  repeat split; reflexivity.
Qed.

(** C3, as the code has it. When the contract call of a purchase fails, the
    request is answered 500, the transaction is rolled back and the store
    is what it was: no holding, no decrement, no transaction record. *)
Theorem failed_ledger_rolls_purchase_back :
  forall E user pid amount s p rest e,
    store_fault E 2%nat = None ->
    pid <> "" ->
    0 < amount ->
    Sql.select_active_project pid s = p :: rest ->
    amount <= Project.available_tokens p ->
    contract_createToken E (generated_token_id E) pid amount = Failed e ->
    let request :=
      TokenController.purchaseTokens E user
        (TokenController.mk_body (Some pid) (Some amount)) in
    outcome request s = Ok (mk_response 500 "Error purchasing tokens" None None)
    /\ store_after request s = s
    /\ effects_of request s = [Acquire; Begin; Query; Contract; Rollback; Release].
Proof.
  intros E user pid amount s p rest e Hnf Hpid Hpos Hsel Hle Hfail request.
  unfold request, TokenController.purchaseTokens, BlockchainService.createToken.
  eff_unfold. eff_simpl.
  cbn [TokenController.project_id TokenController.amount].
  assert (Hv : negb (truthy_string (Some pid)) || negb (truthy_int (Some amount))
               || (amount <=? 0) = false).
  { apply String.eqb_neq in Hpid. cbn. rewrite Hpid. cbn.
    replace (amount =? 0) with false by (symmetry; apply Z.eqb_neq; lia).
    cbn. apply Z.leb_gt. lia. }
  rewrite Hv. eff_simpl. rewrite Hnf. eff_simpl. rewrite Hsel.
  replace (Project.available_tokens p <? amount) with false
    by (symmetry; apply Z.ltb_ge; lia).
  rewrite Hfail. repeat split; reflexivity.
Qed.

Local Transparent Num.mul Num.of_Z string_of_Z.

Lemma supply_invariant_along_purchases_witness :
  let E := Scenario.ledger_up in
  let buy e user pid amount :=
    mk_call e user (TokenController.mk_body (Some pid) (Some amount)) in
  let calls :=
    [ buy Scenario.ledger_up 11 (generated_project_id E) 4;
      buy Scenario.ledger_up 12 (generated_project_id E) 7;
      buy Scenario.ledger_down 12 (generated_project_id E) 2;
      buy Scenario.ledger_up 12 (generated_project_id E) 6;
      buy Scenario.ledger_up 13 (generated_project_id E) 1 ] in
  let created :=
    store_after (ProjectService.createProject E "Solar farm" "" 10 (Num.of_Z 1000)
                   (Num.of_Z 10000) 1) empty_store in
  Forall (supply_invariant (generated_project_id E) 10) (stores_along calls created)
  /\ map (fun s => map Project.available_tokens (projects s)) (stores_along calls created)
     = [[6]; [6]; [6]; [0]; [0]].
Proof.
  intros E buy calls created. split.
  - apply (supply_invariant_along_purchases E "Solar farm" "" 10 (Num.of_Z 1000)
             (Num.of_Z 10000) 1 empty_store calls).
    + lia.
    + reflexivity.
    + reflexivity.
    + reflexivity.
  - vm_compute. reflexivity.
Defined.

Lemma purchase_beyond_supply_rejected_witness :
  let request :=
    TokenController.purchaseTokens Scenario.ledger_up 12
      (TokenController.mk_body (Some "PROJECT_1") (Some 5)) in
  outcome request Scenario.three_left
  = Ok (mk_response 400 "Insufficient tokens available. Only 3 tokens left." None None)
  /\ store_after request Scenario.three_left = Scenario.three_left
  /\ effects_of request Scenario.three_left = [Acquire; Begin; Query; Release].
Proof.
  apply (purchase_beyond_supply_rejected Scenario.ledger_up 12 "PROJECT_1" 5
           Scenario.three_left (Scenario.project_row Project.active 10 3) []).
  - reflexivity.
  - discriminate.
  - reflexivity.
  - lia.
  - cbn. lia.
Defined.

(** C3, as the claim has it, fails: with the contract unreachable, a purchase
    of 2 of the 3 tokens left is answered 500 and records nothing. *)
Lemma failed_ledger_purchase_is_not_recorded :
  let request :=
    TokenController.purchaseTokens Scenario.ledger_down 12
      (TokenController.mk_body (Some "PROJECT_1") (Some 2)) in
  let after := store_after request Scenario.three_left in
  outcome request Scenario.three_left
  = Ok (mk_response 500 "Error purchasing tokens" None None)
  /\ tokens after = tokens Scenario.three_left
  /\ map Project.available_tokens (projects after) = [3]
  /\ transactions after = [].
Proof. vm_compute. repeat split; reflexivity. Qed.

Lemma failed_ledger_rolls_purchase_back_witness :
  let request :=
    TokenController.purchaseTokens Scenario.ledger_down 12
      (TokenController.mk_body (Some "PROJECT_1") (Some 2)) in
  outcome request Scenario.three_left
  = Ok (mk_response 500 "Error purchasing tokens" None None)
  /\ store_after request Scenario.three_left = Scenario.three_left
  /\ effects_of request Scenario.three_left
     = [Acquire; Begin; Query; Contract; Rollback; Release].
Proof.
  apply (failed_ledger_rolls_purchase_back Scenario.ledger_down 12 "PROJECT_1" 2
           Scenario.three_left (Scenario.project_row Project.active 10 3) []
           (Error "could not detect network")).
  - reflexivity.
  - discriminate.
  - lia.
  - reflexivity.
  - cbn. lia.
  - reflexivity.
Defined.

(** ** The distribution engine *)

Section AnsweringStore.

Variable E : env.
Hypothesis Hnf : no_faults E.

Lemma for_each_credit_holder pid ppt holders :
  forall w,
    Eff.for_each (ProfitService.credit_holder E pid ppt) holders w
    = (Ok (map (credit_of ppt) holders),
       mk_world (write_credits pid ppt holders (db w)) (saved w)
                (log w ++ repeat Write (List.length holders)) (link w)).
Proof.
  induction holders as [|h hs IH]; intros w.
  - cbn. rewrite app_nil_r. destruct w; reflexivity.
  - cbn [Eff.for_each]. unfold Eff.bind at 1.
    unfold ProfitService.credit_holder at 1.
    unfold Eff.bind at 1, Eff.execute, Eff.execute_returning.
    rewrite Hnf. cbn [Eff.ret].
    unfold Eff.bind at 1. rewrite IH.
    cbn [db saved log map List.length repeat write_credits fold_left Eff.ret].
    rewrite <- app_assoc. reflexivity.
Qed.

(** A distribution that passes the checks of the engine, with a store that
    answers and a contract that mines the dividend, commits. *)
Lemma distributeProfit_commits pid ic tr np admin s p rest h hs hash :
  Sql.select_project pid s = p :: rest ->
  Project.status p <> Project.completed ->
  Project.available_tokens p <= 0 ->
  Sql.select_token_holders pid s = h :: hs ->
  dividend_outcome E pid np (h :: hs) = Mined hash ->
  run (ProfitService.distributeProfit E pid ic tr np admin) s
  = (Ok (ProfitService.mk_distributionData pid ic tr np (admin_share_of np)
           (user_share_of np) (profit_per_token_of np (h :: hs))
           (ProfitService.sum_total_tokens (h :: hs))
           (map (credit_of (profit_per_token_of np (h :: hs))) (h :: hs))
           hash Project.completed),
     mk_world (distributed_store pid np hash (h :: hs) s) None
       ([Acquire; Begin; Query; Query; Write; Contract; Write]
          ++ repeat Write (List.length (h :: hs)) ++ [Write; Commit; Release])
       healthy).
Proof.
  intros Hp Hst Hav Hh Hl.
  unfold dividend_outcome, profit_per_token_of, user_share_of, admin_share_of in Hl.
  unfold ProfitService.distributeProfit, BlockchainService.addDividenProfit.
  eff_unfold. eff_simpl. rewrite !Hnf. eff_simpl. rewrite Hp.
  destruct (Project.status_eqb (Project.status p) Project.completed) eqn:Hc.
  { apply status_eqb_eq in Hc. contradiction. }
  replace (0 <? Project.available_tokens p) with false
    by (symmetry; apply Z.ltb_ge; lia).
  eff_simpl. rewrite ?Hnf. eff_simpl. rewrite Hh. eff_simpl. rewrite ?Hnf. eff_simpl.
  rewrite Hl. eff_simpl. rewrite ?Hnf. eff_simpl. cbn [BlockchainService.hash].
  rewrite (for_each_credit_holder pid _ (h :: hs)). eff_simpl.
  rewrite ?Hnf. eff_simpl.
  unfold distributed_store, profit_per_token_of, user_share_of, admin_share_of.
  f_equal. f_equal. cbn [app]. rewrite <- !app_assoc. reflexivity.
Qed.

End AnsweringStore.

Lemma projects_write_credits pid ppt holders s :
  projects (write_credits pid ppt holders s) = projects s.
Proof.
  revert s. induction holders as [|h hs IH]; intros s; cbn; [reflexivity|].
  unfold write_credits in IH. rewrite IH. reflexivity.
Qed.

Lemma projects_confirm_latest hash pid s :
  projects (Sql.confirm_latest_distribution hash pid s) = projects s.
Proof.
  unfold Sql.confirm_latest_distribution.
  destruct (Sql.latest_distribution_id pid s); reflexivity.
Qed.

Lemma user_profit_records_confirm_latest hash pid s :
  user_profit_records (Sql.confirm_latest_distribution hash pid s) = user_profit_records s.
Proof.
  unfold Sql.confirm_latest_distribution.
  destruct (Sql.latest_distribution_id pid s); reflexivity.
Qed.

Create Rewrite HintDb tables.

#[local] Hint Rewrite projects_write_credits projects_confirm_latest
  user_profit_records_confirm_latest : tables.

Lemma select_project_distributed pid np hash holders s :
  Sql.select_project pid (distributed_store pid np hash holders s)
  = map (Project.set_status Project.completed) (Sql.select_project pid s).
Proof.
  unfold distributed_store, Sql.select_project, Sql.complete_project. cbn [projects].
  autorewrite with tables. cbn [projects Sql.insert_profit_distribution].
  induction (projects s) as [|q l IH]; cbn; [reflexivity|].
  destruct (Project.project_id q =? pid)%string eqn:Hq; cbn; rewrite Hq, IH; reflexivity.
Qed.

(** C1. On a ready project of 100 tokens whose holders hold 60 and 40, a
    distribution of 50000 computes an admin share of 15000, a user share of
    35000 and 350 per token, credits the holders 21000 and 14000, records
    these credits and completes the project. *)
Theorem distribute_50000_over_60_and_40 :
  forall E pid ic tr admin s r u1 u2 hash,
    no_faults E ->
    outcome (ProjectService.isProjectReadyForDistribution E pid) s = Ok r ->
    ProjectService.ready r = true ->
    ProjectService.totalTokens r = 100 ->
    Sql.select_token_holders pid s = [Sql.mk_holder u1 60; Sql.mk_holder u2 40] ->
    dividend_outcome E pid (Num.of_Z 50000) [Sql.mk_holder u1 60; Sql.mk_holder u2 40]
    = Mined hash ->
    let call := ProfitService.distributeProfit E pid ic tr (Num.of_Z 50000) admin in
    exists d c1 c2,
      outcome call s = Ok d
      /\ ProfitService.adminShare d = Num.of_Z 15000
      /\ ProfitService.userTotalShare d = Num.of_Z 35000
      /\ ProfitService.profitPerToken d = Num.of_Z 350
      /\ ProfitService.userProfits d
         = [ProfitService.mk_user_profit u1 60 (Num.of_Z 21000);
            ProfitService.mk_user_profit u2 40 (Num.of_Z 14000)]
      /\ ProfitService.projectStatus d = Project.completed
      /\ user_profit_records (store_after call s)
         = (user_profit_records s ++ [c1; c2])%list
      /\ UserProfitRecord.profit_amount c1 = Num.of_Z 21000
      /\ UserProfitRecord.profit_amount c2 = Num.of_Z 14000
      /\ Sql.select_project pid (store_after call s) <> []
      /\ Forall (fun q => Project.status q = Project.completed)
           (Sql.select_project pid (store_after call s)).
Proof.
  intros E pid ic tr admin s r u1 u2 hash Hnf Hr Hready _ Hh Hl call.
  destruct (ready_project E pid s r Hnf Hr Hready) as (p & rest & Hp & Hst & Hav & _).
  assert (Hrun := distributeProfit_commits E Hnf pid ic tr (Num.of_Z 50000) admin s p rest
                    _ _ hash Hp ltac:(congruence) Hav Hh Hl).
  unfold call, outcome, store_after, persisted. rewrite Hrun. cbn [fst snd saved db].
  eexists. do 2 eexists.
  split; [reflexivity|].
  cbn [ProfitService.adminShare ProfitService.userTotalShare ProfitService.profitPerToken
       ProfitService.userProfits ProfitService.projectStatus].
  split; [vm_compute; reflexivity|].
  split; [vm_compute; reflexivity|].
  split; [vm_compute; reflexivity|].
  split; [vm_compute; reflexivity|].
  split; [reflexivity|].
  split.
  { unfold distributed_store, write_credits.
    cbn [fold_left Sql.complete_project user_profit_records Sql.insert_user_profit_record].
    autorewrite with tables.
    cbn [user_profit_records Sql.insert_profit_distribution].
    rewrite <- app_assoc. cbn [app]. reflexivity. }
  split; [vm_compute; reflexivity|].
  split; [vm_compute; reflexivity|].
  rewrite select_project_distributed, Hp. cbn [map].
  split; [discriminate|].
  constructor; [reflexivity|].
  apply Forall_forall. intros q Hq. apply in_map_iff in Hq.
  destruct Hq as (q0 & <- & _). reflexivity.
Qed.

Lemma distribute_50000_over_60_and_40_witness :
  let call :=
    ProfitService.distributeProfit Scenario.ledger_up "PROJECT_1" (Num.of_Z 100000)
      (Num.of_Z 150000) (Num.of_Z 50000) 1 in
  let s := Scenario.sold_out Project.active in
  exists d c1 c2,
    outcome call s = Ok d
    /\ ProfitService.adminShare d = Num.of_Z 15000
    /\ ProfitService.userTotalShare d = Num.of_Z 35000
    /\ ProfitService.profitPerToken d = Num.of_Z 350
    /\ ProfitService.userProfits d
       = [ProfitService.mk_user_profit 11 60 (Num.of_Z 21000);
          ProfitService.mk_user_profit 12 40 (Num.of_Z 14000)]
    /\ ProfitService.projectStatus d = Project.completed
    /\ user_profit_records (store_after call s) = (user_profit_records s ++ [c1; c2])%list
    /\ UserProfitRecord.profit_amount c1 = Num.of_Z 21000
    /\ UserProfitRecord.profit_amount c2 = Num.of_Z 14000
    /\ Sql.select_project "PROJECT_1" (store_after call s) <> []
    /\ Forall (fun q => Project.status q = Project.completed)
         (Sql.select_project "PROJECT_1" (store_after call s)).
Proof.
  intros call s.
  apply (distribute_50000_over_60_and_40 Scenario.ledger_up "PROJECT_1" (Num.of_Z 100000)
           (Num.of_Z 150000) 1 s
           (ProjectService.mk_readiness true "Project is ready for profit distribution"
              true 100 100 0 (Some 2))
           11 12 "0xd1").
  - intros k. reflexivity.
  - reflexivity.
  - reflexivity.
  - reflexivity.
  - reflexivity.
  - reflexivity.
Defined.

(** C2, as the claim has it, fails: with the contract unreachable the
    distribution fails, and no pending record is left in the store. *)
Lemma failed_ledger_leaves_no_pending_record :
  let call :=
    ProfitService.distributeProfit Scenario.ledger_down "PROJECT_1" (Num.of_Z 100000)
      (Num.of_Z 150000) (Num.of_Z 50000) 1 in
  let after := store_after call (Scenario.sold_out Project.active) in
  outcome call (Scenario.sold_out Project.active)
  = Throw (Error "could not detect network")
  /\ ~ (exists d, In d (profit_distributions after)
                  /\ ProfitDistribution.status d = ProfitDistribution.pending).
Proof.
  split; [vm_compute; reflexivity|].
  intros (d & Hin & _). vm_compute in Hin. exact Hin.
Qed.

(** C2, as the code has it. When the contract call of a distribution fails,
    the distribution fails with that error and the transaction is rolled
    back: the pending record written before the call is discarded and the
    store is what it was before the request. *)
Theorem failed_ledger_rolls_distribution_back :
  forall E pid ic tr np admin s p rest h hs e,
    no_faults E ->
    Sql.select_project pid s = p :: rest ->
    Project.status p <> Project.completed ->
    Project.available_tokens p <= 0 ->
    Sql.select_token_holders pid s = h :: hs ->
    dividend_outcome E pid np (h :: hs) = Failed e ->
    let call := ProfitService.distributeProfit E pid ic tr np admin in
    outcome call s = Throw e
    /\ store_after call s = s
    /\ effects_of call s
       = [Acquire; Begin; Query; Query; Write; Contract; Rollback; Release].
Proof.
  intros E pid ic tr np admin s p rest h hs e Hnf Hp Hst Hav Hh Hl call.
  unfold dividend_outcome, profit_per_token_of, user_share_of, admin_share_of in Hl.
  unfold call, ProfitService.distributeProfit, BlockchainService.addDividenProfit.
  eff_unfold. eff_simpl. rewrite !Hnf. eff_simpl. rewrite Hp.
  destruct (Project.status_eqb (Project.status p) Project.completed) eqn:Hc.
  { apply status_eqb_eq in Hc. contradiction. }
  replace (0 <? Project.available_tokens p) with false
    by (symmetry; apply Z.ltb_ge; lia).
  eff_simpl. rewrite Hnf. eff_simpl. rewrite Hh. eff_simpl. rewrite Hnf. eff_simpl.
  rewrite Hl. repeat split; reflexivity.
Qed.

Lemma failed_ledger_rolls_distribution_back_witness :
  let call :=
    ProfitService.distributeProfit Scenario.ledger_down "PROJECT_1" (Num.of_Z 100000)
      (Num.of_Z 150000) (Num.of_Z 50000) 1 in
  outcome call (Scenario.sold_out Project.active)
  = Throw (Error "could not detect network")
  /\ store_after call (Scenario.sold_out Project.active) = Scenario.sold_out Project.active
  /\ effects_of call (Scenario.sold_out Project.active)
     = [Acquire; Begin; Query; Query; Write; Contract; Rollback; Release].
Proof.
  apply (failed_ledger_rolls_distribution_back Scenario.ledger_down "PROJECT_1"
           (Num.of_Z 100000) (Num.of_Z 150000) (Num.of_Z 50000) 1
           (Scenario.sold_out Project.active)
           (Scenario.project_row Project.active 100 0) []
           (Sql.mk_holder 11 60) [Sql.mk_holder 12 40]
           (Error "could not detect network")).
  - intros k. reflexivity.
  - reflexivity.
  - discriminate.
  - cbn. lia.
  - reflexivity.
  - reflexivity.
Defined.

(** C4. The engine does not check for cancellation: on a cancelled,
    sold-out project with holders, which the gate reports as cancelled, the
    engine distributes, records the distribution and the credits, and
    completes the project. *)
Theorem cancelled_project_is_distributed :
  let s := Scenario.sold_out Project.cancelled in
  let call :=
    ProfitService.distributeProfit Scenario.ledger_up "PROJECT_1" (Num.of_Z 100000)
      (Num.of_Z 150000) (Num.of_Z 50000) 1 in
  outcome (ProjectService.isProjectReadyForDistribution Scenario.ledger_up "PROJECT_1") s
  = Ok (ProjectService.mk_readiness false "Project is cancelled" true 100 100 0 None)
  /\ map_result ProfitService.projectStatus (outcome call s) = Ok Project.completed
  /\ map Project.status (projects s) = [Project.cancelled]
  /\ map Project.status (projects (store_after call s)) = [Project.completed]
  /\ map ProfitDistribution.status (profit_distributions (store_after call s))
     = [ProfitDistribution.completed]
  /\ map UserProfitRecord.profit_amount (user_profit_records (store_after call s))
     = [Num.of_Z 21000; Num.of_Z 14000].
Proof.
  intros s call.
  split; [vm_compute; reflexivity|].
  split; [vm_compute; reflexivity|].
  split; [vm_compute; reflexivity|].
  split; [vm_compute; reflexivity|].
  split; vm_compute; reflexivity.
Qed.

(** ** The distribute endpoint *)

Lemma echo_only E pid ic tr ic' tr' np admin s :
  run (ProfitService.distributeProfit E pid ic' tr' np admin) s
  = (map_result (with_echo ic' tr')
       (fst (run (ProfitService.distributeProfit E pid ic tr np admin) s)),
     snd (run (ProfitService.distributeProfit E pid ic tr np admin) s)).
Proof.
  unfold ProfitService.distributeProfit, BlockchainService.addDividenProfit.
  eff_unfold. eff_simpl.
  repeat match goal with
         | |- context [match ?x with _ => _ end] =>
             match x with
             | context [match _ with _ => _ end] => fail 1
             | _ => destruct x eqn:?
             end; eff_simpl; try reflexivity
         end.
Qed.

(** C10. A request whose [initialCapital], [totalRevenue] or [newProfit] is
    0 is answered 400 with the missing-fields message before anything is
    read or written; and the engine only echoes [initialCapital] and
    [totalRevenue]: with other values for them it runs the same effects and
    returns the same data, these two fields apart. *)
Theorem zero_amount_is_missing_field :
  (forall E user b s,
      has_zero_amount b ->
      outcome (ProfitController.distributeProfit E user b) s
      = Ok ProfitController.missing_fields
      /\ effects_of (ProfitController.distributeProfit E user b) s = []
      /\ store_after (ProfitController.distributeProfit E user b) s = s)
  /\ (forall E pid ic tr ic' tr' np admin s,
         outcome (ProfitService.distributeProfit E pid ic' tr' np admin) s
         = map_result (with_echo ic' tr')
             (outcome (ProfitService.distributeProfit E pid ic tr np admin) s)
         /\ snd (run (ProfitService.distributeProfit E pid ic' tr' np admin) s)
            = snd (run (ProfitService.distributeProfit E pid ic tr np admin) s)).
Proof.
  split.
  - intros E user [pid ic tr np] s Hz.
    unfold ProfitController.distributeProfit. eff_unfold.
    cbn [ProfitController.projectId ProfitController.initialCapital
         ProfitController.totalRevenue ProfitController.newProfit].
    unfold has_zero_amount in Hz.
    cbn [ProfitController.initialCapital ProfitController.totalRevenue
         ProfitController.newProfit] in Hz.
    destruct pid as [pid|]; [|repeat split; reflexivity].
    destruct ic as [ic|]; [|repeat split; reflexivity].
    destruct tr as [tr|]; [|repeat split; reflexivity].
    destruct np as [np|]; [|repeat split; reflexivity].
    assert (Hf : negb (truthy_string (Some pid)) || negb (Num.truthy ic)
                 || negb (Num.truthy tr) || negb (Num.truthy np) = true).
    { destruct Hz as [[sg [= ->]]|[[sg [= ->]]|[sg [= ->]]]]; cbn;
        rewrite ?orb_true_r; reflexivity. }
    rewrite Hf. repeat split; reflexivity.
  - intros. unfold outcome. rewrite (echo_only E pid ic tr ic' tr'). split; reflexivity.
Qed.

Lemma zero_amount_is_missing_field_witness :
  let request :=
    ProfitController.distributeProfit Scenario.ledger_up 1
      (ProfitController.mk_body (Some "PROJECT_1") (Some (Num.of_Z 100000))
         (Some (Num.of_Z 0)) (Some (Num.of_Z 50000))) in
  outcome request (Scenario.sold_out Project.active) = Ok ProfitController.missing_fields
  /\ effects_of request (Scenario.sold_out Project.active) = []
  /\ store_after request (Scenario.sold_out Project.active)
     = Scenario.sold_out Project.active.
Proof.
  apply (proj1 zero_amount_is_missing_field).
  right. left. exists false. reflexivity.
Defined.

(** ** Conservation of the split *)

Lemma literals_sum :
  (Num.value 5404319552844595 (-54) + Num.value 6305039478318694 (-53)
   == 1 - (1 # 2 ^ 54))%Q.
Proof. vm_compute. reflexivity. Qed.

Lemma ordinary_finite np :
  Num.ordinary np = true ->
  exists m e, np = S754_finite false m e /\ Zpos (digits2_pos m) = 53 /\ -900 <= e <= 900.
Proof.
  destruct np as [| | |[|] m e]; try discriminate. cbn [Num.ordinary].
  intros H. apply andb_prop in H. destruct H as [H Hhi]. apply andb_prop in H.
  destruct H as [Hd Hlo]. apply Z.eqb_eq in Hd. apply Z.leb_le in Hlo, Hhi.
  exists m, e. repeat split; assumption.
Qed.

Lemma split_error m e :
  Zpos (digits2_pos m) = 53 -> -900 <= e <= 900 ->
  exists ma ea mu eu,
    admin_share_of (S754_finite false m e) = S754_finite false ma ea
    /\ user_share_of (S754_finite false m e) = S754_finite false mu eu
    /\ Zpos (digits2_pos mu) = 53
    /\ e - 1 <= eu <= e + 1
    /\ (Qabs (Num.value ma ea + Num.value mu eu - Num.value m e)
        <= Num.value m e * (1 # 2 ^ 52))%Q.
Proof.
  intros Hd He.
  destruct (mul_error m e 5404319552844595 (-54) Hd eq_refl ltac:(lia))
    as (ma & ea & Ha & _ & _ & Hea).
  destruct (mul_error m e 6305039478318694 (-53) Hd eq_refl ltac:(lia))
    as (mu & eu & Hu & Hdu & Heu & Hvu).
  exists ma, ea, mu, eu.
  split; [exact Ha|]. split; [exact Hu|]. split; [exact Hdu|]. split; [lia|].
  pose proof (value_pos m e) as Hx.
  set (x := Num.value m e) in *.
  set (a := Num.value ma ea) in *.
  set (u := Num.value mu eu) in *.
  set (c3 := Num.value 5404319552844595 (-54)) in *.
  set (c7 := Num.value 6305039478318694 (-53)) in *.
  assert (Hc : (x * c3 + x * c7 == x - x * (1 # 2 ^ 54))%Q).
  { setoid_replace (x * c3 + x * c7)%Q with (x * (c3 + c7))%Q by ring.
    unfold c3, c7. rewrite literals_sum. ring. }
  assert (H3 : (0 < x * c3)%Q) by (apply Qmult_lt_0_compat; [exact Hx|apply value_pos]).
  assert (H7 : (0 < x * c7)%Q) by (apply Qmult_lt_0_compat; [exact Hx|apply value_pos]).
  apply Qabs_Qle_condition in Hea, Hvu. apply Qabs_Qle_condition.
  change (1 # 2 ^ 53)%Q with (1 # 9007199254740992)%Q in *.
  change (1 # 2 ^ 54)%Q with (1 # 18014398509481984)%Q in *.
  change (1 # 2 ^ 52)%Q with (1 # 4503599627370496)%Q.
  generalize dependent (x * c3)%Q. generalize dependent (x * c7)%Q.
  intros. lra.
Qed.

(** *** The holders of a project *)

Lemma add_to_group_total u a g :
  holders_total (Sql.add_to_group u a g) = holders_total g + a.
Proof.
  induction g as [|h g IH]; cbn [Sql.add_to_group holders_total fold_right Sql.total_tokens].
  - lia.
  - destruct (Sql.user_id h =? u); cbn [holders_total fold_right Sql.total_tokens].
    + fold (holders_total g). lia.
    + fold (holders_total (Sql.add_to_group u a g)). fold (holders_total g). lia.
Qed.

Lemma add_to_group_positive u a g :
  0 < a ->
  Forall (fun h => 0 < Sql.total_tokens h) g ->
  Forall (fun h => 0 < Sql.total_tokens h) (Sql.add_to_group u a g).
Proof.
  intros Ha. induction g as [|h g IH]; intros Hg; cbn [Sql.add_to_group].
  - constructor; [exact Ha|constructor].
  - inversion Hg as [|? ? Hh Hg']; subst.
    destruct (Sql.user_id h =? u).
    + constructor; [cbn; lia|assumption].
    + constructor; [assumption|apply IH; assumption].
Qed.

Lemma add_to_group_not_nil u a g : Sql.add_to_group u a g <> [].
Proof.
  destruct g as [|h g]; cbn [Sql.add_to_group]; [discriminate|].
  destruct (Sql.user_id h =? u); discriminate.
Qed.

Lemma group_fold l :
  forall g,
    let g' := fold_left
                (fun groups k => Sql.add_to_group (Token.user_id k) (Token.amount k) groups)
                l g in
    holders_total g' = holders_total g + sum_amounts l
    /\ (Forall (fun k => 0 < Token.amount k) l ->
        Forall (fun h => 0 < Sql.total_tokens h) g ->
        Forall (fun h => 0 < Sql.total_tokens h) g')
    /\ (g <> [] -> g' <> []).
Proof.
  induction l as [|k l IH]; intros g; cbn [fold_left].
  - cbn. split; [lia|]. split; auto.
  - destruct (IH (Sql.add_to_group (Token.user_id k) (Token.amount k) g))
      as (Ht & Hp & Hn).
    split; [|split].
    + rewrite Ht, add_to_group_total. unfold sum_amounts. cbn [fold_right]. lia.
    + intros Hl Hg. inversion Hl; subst. apply Hp; [assumption|].
      apply add_to_group_positive; assumption.
    + intros _. apply Hn, add_to_group_not_nil.
Qed.

Lemma select_token_holders_total pid s :
  holders_total (Sql.select_token_holders pid s) = sum_amounts (Sql.active_tokens pid s).
Proof. unfold Sql.select_token_holders. rewrite (proj1 (group_fold _ [])). cbn. lia. Qed.

Lemma select_token_holders_positive pid s :
  Forall (fun k => 0 < Token.amount k) (Sql.active_tokens pid s) ->
  Forall (fun h => 0 < Sql.total_tokens h) (Sql.select_token_holders pid s).
Proof.
  intros H. unfold Sql.select_token_holders.
  apply (proj1 (proj2 (group_fold _ []))); [assumption|constructor].
Qed.

Lemma select_token_holders_not_nil pid s :
  Sql.count_token_holders pid s <> 0 -> Sql.select_token_holders pid s <> [].
Proof.
  unfold Sql.count_token_holders, Sql.select_token_holders.
  destruct (Sql.active_tokens pid s) as [|k l]; [cbn; congruence|].
  intros _. cbn [fold_left].
  apply (proj2 (proj2 (group_fold l _))), add_to_group_not_nil.
Qed.

(** *** The sum of the holders' tokens is exact *)

Lemma holders_total_pos hs :
  Forall (fun h => 0 < Sql.total_tokens h) hs -> 0 <= holders_total hs.
Proof.
  induction 1 as [|h hs Hh _ IH]; cbn [holders_total fold_right]; [lia|].
  fold (holders_total hs). lia.
Qed.

Lemma sum_fold_int_double hs :
  forall acc z,
    int_double z acc ->
    Forall (fun h => 0 < Sql.total_tokens h) hs ->
    z + holders_total hs < 2 ^ 53 ->
    int_double (z + holders_total hs)
      (fold_left (fun sum holder => Num.add sum (Num.of_Z (Sql.total_tokens holder)))
                 hs acc).
Proof.
  induction hs as [|h hs IH]; intros acc z Hacc Hpos Hlt; cbn [fold_left].
  - cbn. rewrite Z.add_0_r. exact Hacc.
  - inversion Hpos as [|? ? Hh Hpos']; subst.
    cbn [holders_total fold_right] in *. fold (holders_total hs) in *.
    pose proof (holders_total_pos hs Hpos').
    pose proof (int_double_pos z acc Hacc).
    rewrite Z.add_assoc. apply IH; [|assumption|lia].
    apply add_int_double; [assumption| |lia].
    apply of_Z_int_double. lia.
Qed.

Lemma sum_total_tokens_int_double hs :
  hs <> [] ->
  Forall (fun h => 0 < Sql.total_tokens h) hs ->
  holders_total hs < 2 ^ 53 ->
  int_double (holders_total hs) (ProfitService.sum_total_tokens hs).
Proof.
  destruct hs as [|h hs]; [congruence|]. intros _ Hpos Hlt.
  inversion Hpos as [|? ? Hh Hpos']; subst.
  cbn [holders_total fold_right] in *. fold (holders_total hs) in *.
  pose proof (holders_total_pos hs Hpos').
  unfold ProfitService.sum_total_tokens. cbn [fold_left].
  assert (Hfirst : int_double (Sql.total_tokens h) (Num.of_Z (Sql.total_tokens h)))
    by (apply of_Z_int_double; lia).
  replace (Num.add (Num.of_Z 0) (Num.of_Z (Sql.total_tokens h)))
    with (Num.of_Z (Sql.total_tokens h)).
  - apply sum_fold_int_double; assumption.
  - destruct Hfirst as (m & e & -> & _). reflexivity.
Qed.

(** *** The credits *)

Lemma credit_error t mp ep :
  0 < t < 2 ^ 53 ->
  Zpos (digits2_pos mp) = 53 ->
  -1070 <= ep <= 915 ->
  exists mc ec,
    Num.mul (Num.of_Z t) (S754_finite false mp ep) = S754_finite false mc ec
    /\ (Qabs (Num.value mc ec - inject_Z t * Num.value mp ep)
        <= inject_Z t * Num.value mp ep * (1 # 2 ^ 53))%Q.
Proof.
  intros Ht Hdp Hep.
  destruct (int_double_value t (Num.of_Z t) (of_Z_int_double t Ht))
    as (mt & et & -> & Hdt & Het & Hvt).
  destruct (mul_error mt et mp ep Hdt Hdp ltac:(lia)) as (mc & ec & Hc & _ & _ & Herr).
  exists mc, ec. split; [exact Hc|]. rewrite <- Hvt. exact Herr.
Qed.

Lemma credits_error mp ep hs :
  Zpos (digits2_pos mp) = 53 ->
  -1070 <= ep <= 915 ->
  Forall (fun h => 0 < Sql.total_tokens h) hs ->
  holders_total hs < 2 ^ 53 ->
  exists total,
    Num.exact_sum
      (map ProfitService.profit_amount (map (credit_of (S754_finite false mp ep)) hs))
    = Some total
    /\ (Qabs (total - inject_Z (holders_total hs) * Num.value mp ep)
        <= inject_Z (holders_total hs) * Num.value mp ep * (1 # 2 ^ 53))%Q.
Proof.
  intros Hdp Hep. induction hs as [|h hs IH]; intros Hpos Hlt.
  - exists 0%Q. split; [reflexivity|]. unfold holders_total. cbn [fold_right].
    change (inject_Z 0) with 0%Q. apply Qabs_Qle_condition.
    generalize (Num.value mp ep). intros p.
    change (1 # 2 ^ 53)%Q with (1 # 9007199254740992)%Q. lra.
  - inversion Hpos as [|? ? Hh Hpos']; subst.
    cbn [holders_total fold_right] in *. fold (holders_total hs) in *.
    pose proof (holders_total_pos hs Hpos').
    destruct (IH Hpos' ltac:(lia)) as (rest & Hrest & Herr).
    destruct (credit_error (Sql.total_tokens h) mp ep ltac:(lia) Hdp Hep)
      as (mc & ec & Hc & Hcerr).
    cbn [map Num.exact_sum fold_right credit_of ProfitService.profit_amount].
    fold (Num.exact_sum
            (map ProfitService.profit_amount (map (credit_of (S754_finite false mp ep)) hs))).
    rewrite Hc, Hrest. cbn [Num.to_Q cond_Zopp]. fold (Num.value mc ec).
    eexists. split; [reflexivity|].
    rewrite inject_Z_plus. clear IH.
    setoid_replace
      ((inject_Z (Sql.total_tokens h) + inject_Z (holders_total hs)) * Num.value mp ep)%Q
      with (inject_Z (Sql.total_tokens h) * Num.value mp ep
            + inject_Z (holders_total hs) * Num.value mp ep)%Q by ring.
    apply Qabs_Qle_condition in Herr, Hcerr. apply Qabs_Qle_condition.
    set (A := (inject_Z (Sql.total_tokens h) * Num.value mp ep)%Q) in *.
    set (B := (inject_Z (holders_total hs) * Num.value mp ep)%Q) in *.
    clearbody A B.
    change (1 # 2 ^ 53)%Q with (1 # 9007199254740992)%Q in *.
    lra.
Qed.

Lemma credits_conserved m e hs :
  Zpos (digits2_pos m) = 53 -> -900 <= e <= 900 ->
  hs <> [] ->
  Forall (fun h => 0 < Sql.total_tokens h) hs ->
  holders_total hs < 2 ^ 53 ->
  exists mu eu total,
    user_share_of (S754_finite false m e) = S754_finite false mu eu
    /\ Num.exact_sum
         (map ProfitService.profit_amount
            (map (credit_of (profit_per_token_of (S754_finite false m e) hs)) hs))
       = Some total
    /\ (Qabs (total - Num.value mu eu) <= Num.value mu eu * (1 # 2 ^ 51))%Q.
Proof.
  intros Hd He Hne Hpos Hlt.
  destruct (split_error m e Hd He) as (_ & _ & mu & eu & _ & Hu & Hdu & Heu & _).
  destruct (int_double_value _ _ (sum_total_tokens_int_double hs Hne Hpos Hlt))
    as (mT & eT & HT & HdT & HeT & HvT).
  destruct (div_error mu eu mT eT Hdu HdT ltac:(lia))
    as (mp & ep & Hp & Hdp & Hep & Hperr).
  destruct (credits_error mp ep hs Hdp ltac:(lia) Hpos Hlt) as (total & Htot & Hterr).
  exists mu, eu, total. split; [exact Hu|].
  unfold profit_per_token_of. rewrite Hu, HT.
  change (Num.div (S754_finite false mu eu) (S754_finite false mT eT))
    with (SFdiv 53 1024 (S754_finite false mu eu) (S754_finite false mT eT)).
  rewrite Hp. split; [exact Htot|].
  rewrite HvT in Hperr.
  pose proof (value_pos mu eu) as Hupos.
  apply Qabs_Qle_condition in Hperr, Hterr. apply Qabs_Qle_condition.
  setoid_replace (Num.value mp ep * inject_Z (holders_total hs))%Q
    with (inject_Z (holders_total hs) * Num.value mp ep)%Q in Hperr by ring.
  set (u := Num.value mu eu) in *.
  set (P := (inject_Z (holders_total hs) * Num.value mp ep)%Q) in *.
  clearbody u P.
  change (1 # 2 ^ 53)%Q with (1 # 9007199254740992)%Q in *.
  change (1 # 2 ^ 51)%Q with (1 # 2251799813685248)%Q.
  lra.
Qed.

(** C8, as the code has it. On a ready project whose active holdings are
    positive and sum to less than 2^53, a distribution of an ordinary
    positive [newProfit] computes shares whose sum is [newProfit] up to a
    relative error of 2^-52, and credits whose sum is the user share up to
    a relative error of 2^-51. *)
Theorem split_conserved_up_to_rounding :
  forall E pid ic tr np admin s r hash,
    no_faults E ->
    outcome (ProjectService.isProjectReadyForDistribution E pid) s = Ok r ->
    ProjectService.ready r = true ->
    dividend_outcome E pid np (Sql.select_token_holders pid s) = Mined hash ->
    Num.ordinary np = true ->
    Forall (fun k => 0 < Token.amount k) (Sql.active_tokens pid s) ->
    sum_amounts (Sql.active_tokens pid s) < 2 ^ 53 ->
    exists d a u x total,
      outcome (ProfitService.distributeProfit E pid ic tr np admin) s = Ok d
      /\ Num.to_Q (ProfitService.adminShare d) = Some a
      /\ Num.to_Q (ProfitService.userTotalShare d) = Some u
      /\ Num.to_Q (ProfitService.newProfit d) = Some x
      /\ (0 < x)%Q
      /\ (Qabs (a + u - x) <= x * (1 # 2 ^ 52))%Q
      /\ Num.exact_sum (map ProfitService.profit_amount (ProfitService.userProfits d))
         = Some total
      /\ (Qabs (total - u) <= u * (1 # 2 ^ 51))%Q.
Proof.
  intros E pid ic tr np admin s r hash Hnf Hr Hready Hl Hord Hamounts Hsum.
  destruct (ready_project E pid s r Hnf Hr Hready)
    as (p & rest & Hp & Hst & Hav & _ & _ & _ & Hcount).
  pose proof (select_token_holders_not_nil pid s Hcount) as Hne.
  destruct (Sql.select_token_holders pid s) as [|h hs] eqn:Hh; [congruence|].
  pose proof (distributeProfit_commits E Hnf pid ic tr np admin s p rest h hs hash
                Hp ltac:(congruence) Hav Hh Hl) as Hrun.
  destruct (ordinary_finite np Hord) as (m & e & -> & Hd & He).
  pose proof (select_token_holders_positive pid s Hamounts) as Hpos.
  pose proof (select_token_holders_total pid s) as Htot.
  rewrite Hh in Hpos, Htot.
  destruct (split_error m e Hd He) as (ma & ea & mu & eu & Ha & Hu & _ & _ & Hsplit).
  destruct (credits_conserved m e (h :: hs) Hd He ltac:(discriminate) Hpos ltac:(lia))
    as (mu' & eu' & total & Hu' & Hcred & Hcerr).
  rewrite Hu in Hu'. injection Hu' as <- <-.
  unfold outcome. rewrite Hrun. cbn [fst].
  eexists. exists (Num.value ma ea), (Num.value mu eu), (Num.value m e), total.
  split; [reflexivity|].
  cbn [ProfitService.adminShare ProfitService.userTotalShare ProfitService.newProfit
       ProfitService.userProfits].
  rewrite Ha, Hu.
  split; [reflexivity|]. split; [reflexivity|]. split; [reflexivity|].
  split; [apply value_pos|]. split; [exact Hsplit|]. split; [exact Hcred|exact Hcerr].
Qed.

Lemma split_conserved_up_to_rounding_witness :
  let s := Scenario.large_sold_out in
  exists d a u x total,
    outcome (ProfitService.distributeProfit Scenario.ledger_up "PROJECT_1"
               (Num.of_Z 100000) (Num.of_Z 150000) (Num.of_Z 8000000000000001) 1) s
    = Ok d
    /\ Num.to_Q (ProfitService.adminShare d) = Some a
    /\ Num.to_Q (ProfitService.userTotalShare d) = Some u
    /\ Num.to_Q (ProfitService.newProfit d) = Some x
    /\ (0 < x)%Q
    /\ (Qabs (a + u - x) <= x * (1 # 2 ^ 52))%Q
    /\ Num.exact_sum (map ProfitService.profit_amount (ProfitService.userProfits d))
       = Some total
    /\ (Qabs (total - u) <= u * (1 # 2 ^ 51))%Q.
Proof.
  intros s.
  apply (split_conserved_up_to_rounding Scenario.ledger_up "PROJECT_1" (Num.of_Z 100000)
           (Num.of_Z 150000) (Num.of_Z 8000000000000001) 1 s
           (ProjectService.mk_readiness true "Project is ready for profit distribution"
              true 100000000 100000000 0 (Some 2))
           "0xd1").
  - intros k. reflexivity.
  - vm_compute. reflexivity.
  - reflexivity.
  - reflexivity.
  - vm_compute. reflexivity.
  - repeat constructor.
  - vm_compute. reflexivity.
Defined.

(** C8, as the claim has it, fails. On the ready project of 100000000 tokens
    held 60000000/40000000, a distribution of 8000000000000001 computes an
    admin share of 2400000000000000 and a user share of 5600000000000000,
    whose sum is one less than the profit. Every amount handed to the
    contract is an integer below 2^53, which its [int256] parameters
    take. *)
Lemma split_of_8000000000000001_is_not_conserved :
  let s := Scenario.large_sold_out in
  let call :=
    ProfitService.distributeProfit Scenario.ledger_up "PROJECT_1" (Num.of_Z 100000)
      (Num.of_Z 150000) (Num.of_Z 8000000000000001) 1 in
  map_result ProjectService.ready
    (outcome (ProjectService.isProjectReadyForDistribution Scenario.ledger_up "PROJECT_1") s)
  = Ok true
  /\ map_result (fun d => (ProfitService.adminShare d, ProfitService.userTotalShare d))
       (outcome call s)
     = Ok (Num.of_Z 2400000000000000, Num.of_Z 5600000000000000)
  /\ map_result
       (fun d => Num.floor (Num.mul (ProfitService.profitPerToken d) Num.lit_100000000))
       (outcome call s)
     = Ok (Num.of_Z 5600000000000000)
  /\ Num.add (Num.of_Z 2400000000000000) (Num.of_Z 5600000000000000)
     = Num.of_Z 8000000000000000
  /\ Num.of_Z 8000000000000001 = S754_finite false 8000000000000001 0
  /\ Num.of_Z 8000000000000000 = S754_finite false 8000000000000000 0
  /\ map_result
       (fun d => Num.exact_sum_eqb (ProfitService.adminShare d)
                   (ProfitService.userTotalShare d) (ProfitService.newProfit d))
       (outcome call s)
     = Ok false.
Proof.
  intros s call.
  split; [vm_compute; reflexivity|].
  split; [vm_compute; reflexivity|].
  split; [vm_compute; reflexivity|].
  split; [vm_compute; reflexivity|].
  split; [vm_compute; reflexivity|].
  split; vm_compute; reflexivity.
Qed.


(** * Further properties *)

(** ** The distribution engine, whatever the store does *)

Lemma for_each_credit_holder_cases E pid ppt holders :
  forall w r w',
    Eff.for_each (ProfitService.credit_holder E pid ppt) holders w = (r, w') ->
    saved w' = saved w
    /\ link w' = link w
    /\ (exists k, log w' = (log w ++ repeat Write k)%list)
    /\ (forall ys, r = Ok ys ->
          ys = map (credit_of ppt) holders
          /\ db w' = write_credits pid ppt holders (db w)).
Proof.
  induction holders as [|h hs IH]; intros w r w'.
  - cbn. intros [= <- <-]. split; [reflexivity|]. split; [reflexivity|].
    split; [exists 0%nat; cbn; rewrite app_nil_r; reflexivity|].
    intros ys [= <-]. split; reflexivity.
  - cbn [Eff.for_each]. unfold Eff.bind at 1.
    unfold ProfitService.credit_holder at 1.
    unfold Eff.bind at 1, Eff.execute, Eff.execute_returning.
    destruct (store_fault E (List.length (log w))).
    { cbn. intros [= <- <-]. split; [reflexivity|]. split; [reflexivity|].
      split; [exists 1%nat; reflexivity|]. intros ys [=]. }
    cbn [Eff.ret]. unfold Eff.bind at 1.
    match goal with
    | |- context [Eff.for_each ?f hs ?w1] =>
        pose proof (IH w1) as IH1; destruct (Eff.for_each f hs w1) as [[ys|e] w2]
    end; cbn [Eff.ret]; intros [= <- <-];
      destruct (IH1 _ _ eq_refl) as (Hs & Hc & [k Hk] & Hok);
      cbn [saved db log link] in Hs, Hc, Hk, Hok;
      (split; [exact Hs|]); (split; [exact Hc|]);
      (split; [exists (S k); rewrite Hk, <- app_assoc; reflexivity|]).
    + intros ys' [= <-]. destruct (Hok ys eq_refl) as [-> ->]. split; reflexivity.
    + intros ys' [=].
Qed.

Lemma inner_repeat_write k : Forall inner (repeat Write k).
Proof.
  apply Forall_forall. intros ev Hin. apply repeat_spec in Hin. subst. right. left.
  reflexivity.
Qed.

Ltac inner_effects :=
  repeat first [apply Forall_nil | apply Forall_cons | apply inner_repeat_write
               | apply Forall_app; split
               | left; reflexivity | right; left; reflexivity
               | right; right; reflexivity].

Ltac same_effects := cbn [app]; rewrite <- ?app_assoc; cbn [app]; reflexivity.

Ltac next_fault E :=
  match goal with
  | |- context [store_fault E ?k] => destruct (store_fault E k)
  end.

(** The end of a distribution that threw inside its [try] block, with the
    effects [mid] between the opening and the closing of its transaction. *)
Ltac thrown_with gr mid :=
  exists mid; split; [inner_effects|];
  destruct gr; eff_simpl;
  (split; [reflexivity|]);
  (split; [intros; try discriminate; split; reflexivity|]);
  (split; [intros ? He; try discriminate; injection He as <-; reflexivity|]);
  same_effects.

Lemma distributeProfit_on c E pid ic tr np admin s l :
  match getConnection_fault c with
  | Some e =>
      ProfitService.distributeProfit E pid ic tr np admin (mk_world s None l c)
      = (Throw e, mk_world s None l c)
  | None =>
      exists mid,
        Forall inner mid
        /\ match ProfitService.distributeProfit E pid ic tr np admin
                  (mk_world s None l c) with
           | (Ok d, w') =>
               (beginTransaction_fault c = None /\ commit_fault c = None)
               /\ (exists p rest h hs hash,
                      Sql.select_project pid s = p :: rest
                      /\ Project.status p <> Project.completed
                      /\ Project.available_tokens p <= 0
                      /\ Sql.select_token_holders pid s = h :: hs
                      /\ dividend_outcome E pid np (h :: hs) = Mined hash
                      /\ d = ProfitService.mk_distributionData pid ic tr np
                               (admin_share_of np) (user_share_of np)
                               (profit_per_token_of np (h :: hs))
                               (ProfitService.sum_total_tokens (h :: hs))
                               (map (credit_of (profit_per_token_of np (h :: hs)))
                                  (h :: hs))
                               hash Project.completed
                      /\ db w' = distributed_store pid np hash (h :: hs) s)
               /\ saved w' = None
               /\ log w' = (l ++ Acquire :: Begin :: mid ++ [Commit; Release])%list
           | (Throw e, w') =>
               persisted w' = s
               /\ (rollback_fault c = None -> db w' = s /\ saved w' = None)
               /\ (forall e', rollback_fault c = Some e' -> e = e')
               /\ log w'
                  = (l ++ Acquire :: opened c ++ mid ++ rolled_back c ++ [Release])%list
           end
  end.
Proof.
  destruct c as [ga gb gc gr].
  unfold ProfitService.distributeProfit, BlockchainService.addDividenProfit,
    opened, rolled_back.
  eff_unfold. eff_simpl.
  destruct ga as [e|]; [reflexivity|]. eff_simpl.
  destruct gb as [e|]; [thrown_with gr (@nil effect)|]. eff_simpl.
  next_fault E; [thrown_with gr [Query]|]. eff_simpl.
  destruct (Sql.select_project pid s) as [|p rest] eqn:Hp; [thrown_with gr [Query]|].
  destruct (Project.status_eqb (Project.status p) Project.completed) eqn:Hc;
    [thrown_with gr [Query]|].
  destruct (0 <? Project.available_tokens p) eqn:Ha; [thrown_with gr [Query]|].
  eff_simpl.
  next_fault E; [thrown_with gr [Query; Query]|]. eff_simpl.
  destruct (Sql.select_token_holders pid s) as [|h hs] eqn:Hh;
    [thrown_with gr [Query; Query]|].
  eff_simpl.
  next_fault E; [thrown_with gr [Query; Query; Write]|]. eff_simpl.
  destruct (contract_addDividenProfit E pid np (Num.mul np Num.lit_0_30)
              (Num.mul np Num.lit_0_70) _) as [hash|e] eqn:Hl;
    [|thrown_with gr [Query; Query; Write; Contract]].
  eff_simpl. cbn [BlockchainService.hash].
  next_fault E; [thrown_with gr [Query; Query; Write; Contract; Write]|]. eff_simpl.
  match goal with
  | |- context [Eff.for_each ?f ?hl ?w1] =>
      pose proof (for_each_credit_holder_cases E pid
                    (Num.div (Num.mul np Num.lit_0_70)
                       (ProfitService.sum_total_tokens (h :: hs))) (h :: hs) w1) as Hfe;
      destruct (Eff.for_each f hl w1) as [[ys|e] [d1 s1 l1 c1]]
  end; destruct (Hfe _ _ eq_refl) as (Hs & Hlink & [k Hk] & Hok);
    cbn [fst snd saved db log link] in Hs, Hlink, Hk, Hok; subst s1 c1 l1; eff_simpl.
  2:{ thrown_with gr ([Query; Query; Write; Contract; Write] ++ repeat Write k)%list. }
  destruct (Hok ys eq_refl) as [-> ->].
  next_fault E; eff_simpl;
    [thrown_with gr (([Query; Query; Write; Contract; Write] ++ repeat Write k)
                       ++ [Write])%list|].
  destruct gc as [e|]; eff_simpl;
    [thrown_with gr (([Query; Query; Write; Contract; Write] ++ repeat Write k)
                       ++ [Write])%list|].
  exists (([Query; Query; Write; Contract; Write] ++ repeat Write k) ++ [Write])%list.
  split; [inner_effects|].
  split; [split; reflexivity|].
  split.
  { exists p, rest, h, hs, hash.
    split; [reflexivity|].
    split; [intros Hst; rewrite Hst in Hc; discriminate|].
    split; [apply Z.ltb_ge in Ha; exact Ha|].
    split; [reflexivity|].
    split; [exact Hl|].
    split; reflexivity. }
  split; [reflexivity|]. same_effects.
Qed.

Lemma distributeProfit_from E pid ic tr np admin s l :
  match ProfitService.distributeProfit E pid ic tr np admin (mk_world s None l healthy) with
  | (Throw e, w') => db w' = s /\ saved w' = None
  | (Ok d, w') =>
      exists p rest h hs hash,
        Sql.select_project pid s = p :: rest
        /\ Project.status p <> Project.completed
        /\ Project.available_tokens p <= 0
        /\ Sql.select_token_holders pid s = h :: hs
        /\ dividend_outcome E pid np (h :: hs) = Mined hash
        /\ d = ProfitService.mk_distributionData pid ic tr np (admin_share_of np)
                 (user_share_of np) (profit_per_token_of np (h :: hs))
                 (ProfitService.sum_total_tokens (h :: hs))
                 (map (credit_of (profit_per_token_of np (h :: hs))) (h :: hs))
                 hash Project.completed
        /\ db w' = distributed_store pid np hash (h :: hs) s
        /\ saved w' = None
  end.
Proof.
  destruct (distributeProfit_on healthy E pid ic tr np admin s l) as (mid & _ & H).
  destruct (ProfitService.distributeProfit E pid ic tr np admin (mk_world s None l healthy))
    as [[d|e] w'].
  - destruct H as (_ & (p & rest & h & hs & hash & H1 & H2 & H3 & H4 & H5 & H6 & H7)
                   & Hsv & _).
    exists p, rest, h, hs, hash. repeat split; assumption.
  - destruct H as (_ & H & _). apply H. reflexivity.
Qed.

Lemma distributeProfit_run E pid ic tr np admin s :
  match run (ProfitService.distributeProfit E pid ic tr np admin) s with
  | (Throw e, w) => db w = s /\ saved w = None
  | (Ok d, w) =>
      exists p rest h hs hash,
        Sql.select_project pid s = p :: rest
        /\ Project.status p <> Project.completed
        /\ Project.available_tokens p <= 0
        /\ Sql.select_token_holders pid s = h :: hs
        /\ dividend_outcome E pid np (h :: hs) = Mined hash
        /\ d = ProfitService.mk_distributionData pid ic tr np (admin_share_of np)
                 (user_share_of np) (profit_per_token_of np (h :: hs))
                 (ProfitService.sum_total_tokens (h :: hs))
                 (map (credit_of (profit_per_token_of np (h :: hs))) (h :: hs))
                 hash Project.completed
        /\ db w = distributed_store pid np hash (h :: hs) s
        /\ saved w = None
  end.
Proof. exact (distributeProfit_from E pid ic tr np admin s []). Qed.

(** X1. A distribution is all or nothing, whatever fails and wherever: when
    [distributeProfit] throws (a failed check, a failing statement of the
    store at any point, a failing contract call) the store is what it was
    before the call; when it returns, the store holds the whole
    distribution, with the hash it returns. *)
Theorem distribution_is_all_or_nothing :
  forall E pid ic tr np admin s,
    let call := ProfitService.distributeProfit E pid ic tr np admin in
    match outcome call s with
    | Throw _ => store_after call s = s
    | Ok d =>
        store_after call s
        = distributed_store pid np (ProfitService.blockchainHash d)
            (Sql.select_token_holders pid s) s
    end.
Proof.
  intros E pid ic tr np admin s call. unfold call, outcome, store_after, persisted.
  pose proof (distributeProfit_run E pid ic tr np admin s) as H.
  destruct (run (ProfitService.distributeProfit E pid ic tr np admin) s) as [[d|e] w].
  - destruct H as (p & rest & h & hs & hash & _ & _ & _ & Hh & _ & -> & Hdb & Hsv).
    cbn [fst snd]. rewrite Hsv, Hdb, Hh. reflexivity.
  - destruct H as [Hdb Hsv]. cbn [fst snd]. rewrite Hsv. exact Hdb.
Qed.

Lemma distributeProfit_ok E pid ic tr np admin s d :
  outcome (ProfitService.distributeProfit E pid ic tr np admin) s = Ok d ->
  exists p rest h hs hash,
    Sql.select_project pid s = p :: rest
    /\ Project.status p <> Project.completed
    /\ Project.available_tokens p <= 0
    /\ Sql.select_token_holders pid s = h :: hs
    /\ dividend_outcome E pid np (h :: hs) = Mined hash
    /\ d = ProfitService.mk_distributionData pid ic tr np (admin_share_of np)
             (user_share_of np) (profit_per_token_of np (h :: hs))
             (ProfitService.sum_total_tokens (h :: hs))
             (map (credit_of (profit_per_token_of np (h :: hs))) (h :: hs))
             hash Project.completed
    /\ store_after (ProfitService.distributeProfit E pid ic tr np admin) s
       = distributed_store pid np hash (h :: hs) s.
Proof.
  unfold outcome, store_after, persisted.
  pose proof (distributeProfit_run E pid ic tr np admin s) as H.
  destruct (run (ProfitService.distributeProfit E pid ic tr np admin) s) as [[d'|e] w];
    cbn [fst snd]; intros [= <-].
  destruct H as (p & rest & h & hs & hash & Hp & Hst & Hav & Hh & Hl & -> & Hdb & Hsv).
  exists p, rest, h, hs, hash.
  rewrite Hsv, Hdb. repeat split; assumption || reflexivity.
Qed.

Lemma completed_project_throws E pid ic tr np admin s p rest :
  store_fault E 2%nat = None ->
  Sql.select_project pid s = p :: rest ->
  Project.status p = Project.completed ->
  run (ProfitService.distributeProfit E pid ic tr np admin) s
  = (Throw (Error "Cannot distribute profit for completed project"),
     mk_world s None [Acquire; Begin; Query; Rollback; Release] healthy).
Proof.
  intros Hnf Hp Hst. unfold ProfitService.distributeProfit. eff_unfold. eff_simpl.
  rewrite Hnf. eff_simpl. rewrite Hp, Hst. reflexivity.
Qed.

Lemma completed_project_gate E pid s p rest :
  store_fault E 0%nat = None ->
  Sql.select_project pid s = p :: rest ->
  Project.status p = Project.completed ->
  run (ProjectService.isProjectReadyForDistribution E pid) s
  = (Ok (ProjectService.mk_readiness false "Project is already completed" true
           (Project.total_tokens p - Project.available_tokens p)
           (Project.total_tokens p) (Project.available_tokens p) None),
     mk_world s None [Query] healthy).
Proof.
  intros Hnf Hp Hst. unfold ProjectService.isProjectReadyForDistribution.
  eff_unfold. eff_simpl. rewrite Hnf. eff_simpl. rewrite Hp, Hst. reflexivity.
Qed.

(** X2. Once a distribution has returned, a second [distributeProfit] for the
    same project throws [Cannot distribute profit for completed project],
    rolls back and changes nothing, and the gate reports the project as
    already completed. *)
Theorem completed_project_is_not_distributed_again :
  forall E pid ic tr np admin s d E' ic' tr' np' admin',
    outcome (ProfitService.distributeProfit E pid ic tr np admin) s = Ok d ->
    store_fault E' 0%nat = None ->
    store_fault E' 2%nat = None ->
    let s1 := store_after (ProfitService.distributeProfit E pid ic tr np admin) s in
    let again := ProfitService.distributeProfit E' pid ic' tr' np' admin' in
    let gate := ProjectService.isProjectReadyForDistribution E' pid in
    outcome again s1 = Throw (Error "Cannot distribute profit for completed project")
    /\ store_after again s1 = s1
    /\ effects_of again s1 = [Acquire; Begin; Query; Rollback; Release]
    /\ map_result ProjectService.ready (outcome gate s1) = Ok false
    /\ map_result ProjectService.reason (outcome gate s1)
       = Ok "Project is already completed".
Proof.
  intros E pid ic tr np admin s d E' ic' tr' np' admin' Hok H0 H2 s1 again gate.
  destruct (distributeProfit_ok _ _ _ _ _ _ _ _ Hok)
    as (p & rest & h & hs & hash & Hp & _ & _ & _ & _ & _ & Hs1).
  assert (Hsel : Sql.select_project pid s1
                 = Project.set_status Project.completed p
                   :: map (Project.set_status Project.completed) rest).
  { unfold s1. rewrite Hs1, select_project_distributed, Hp. reflexivity. }
  unfold again, gate, outcome, store_after, effects_of, persisted.
  rewrite (completed_project_throws E' pid ic' tr' np' admin' s1 _ _ H2 Hsel eq_refl).
  rewrite (completed_project_gate E' pid s1 _ _ H0 Hsel eq_refl).
  repeat split; reflexivity.
Qed.

Lemma completed_project_is_not_distributed_again_witness :
  let s1 :=
    store_after (ProfitService.distributeProfit Scenario.ledger_up "PROJECT_1"
                   (Num.of_Z 100000) (Num.of_Z 150000) (Num.of_Z 50000) 1)
      (Scenario.sold_out Project.active) in
  let again :=
    ProfitService.distributeProfit Scenario.ledger_up "PROJECT_1" (Num.of_Z 100000)
      (Num.of_Z 160000) (Num.of_Z 60000) 1 in
  let gate := ProjectService.isProjectReadyForDistribution Scenario.ledger_up "PROJECT_1" in
  outcome again s1 = Throw (Error "Cannot distribute profit for completed project")
  /\ store_after again s1 = s1
  /\ effects_of again s1 = [Acquire; Begin; Query; Rollback; Release]
  /\ map_result ProjectService.ready (outcome gate s1) = Ok false
  /\ map_result ProjectService.reason (outcome gate s1) = Ok "Project is already completed".
Proof.
  apply (completed_project_is_not_distributed_again Scenario.ledger_up "PROJECT_1"
           (Num.of_Z 100000) (Num.of_Z 150000) (Num.of_Z 50000) 1
           (Scenario.sold_out Project.active) Scenario.data_50000
           Scenario.ledger_up (Num.of_Z 100000) (Num.of_Z 160000) (Num.of_Z 60000) 1).
  - vm_compute. reflexivity.
  - reflexivity.
  - reflexivity.
Defined.

(** X3. A call of [distributeProfit] whose [pool.getConnection()] rejects
    throws that rejection and does nothing else. Otherwise the call takes
    one connection and releases it last; before that it opens the
    transaction, unless [beginTransaction] rejects, reads, writes and calls
    the contract, and closes the transaction: with a commit when it
    returns, and with a rollback when it throws, be it because the commit
    rejected, unless the rollback rejects as well. Then the call throws the
    rejection of the rollback. Whenever the call throws, the persisted
    store is what it was. *)
Theorem distribution_closes_its_transaction :
  forall c E pid ic tr np admin s,
    let call := ProfitService.distributeProfit E pid ic tr np admin in
    match getConnection_fault c with
    | Some e =>
        outcome_on c call s = Throw e
        /\ effects_on c call s = []
        /\ store_after_on c call s = s
    | None =>
        (exists mid,
            Forall inner mid
            /\ effects_on c call s
               = Acquire
                   :: (opened c ++ mid ++ closed c (outcome_on c call s) ++ [Release])%list)
        /\ (forall d, outcome_on c call s = Ok d ->
                      beginTransaction_fault c = None /\ commit_fault c = None)
        /\ (forall e, outcome_on c call s = Throw e ->
                      store_after_on c call s = s
                      /\ (forall e', rollback_fault c = Some e' -> e = e'))
    end.
Proof.
  intros c E pid ic tr np admin s call.
  unfold call, outcome_on, effects_on, store_after_on, run_on, world_on.
  pose proof (distributeProfit_on c E pid ic tr np admin s []) as H.
  destruct (getConnection_fault c) as [e|].
  { rewrite H. repeat split; reflexivity. }
  destruct H as (mid & Hmid & H).
  destruct (ProfitService.distributeProfit E pid ic tr np admin (mk_world s None [] c))
    as [[d|e] w']; cbn [fst snd closed].
  - destruct H as ((Hb & Hc) & _ & _ & Hlog). cbn [app] in Hlog.
    split; [|split; [intros _ _; split; assumption|discriminate]].
    exists mid. split; [exact Hmid|]. rewrite Hlog. unfold opened. rewrite Hb. reflexivity.
  - destruct H as (Hs & _ & Hr & Hlog). cbn [app] in Hlog.
    split; [|split; [discriminate|intros e0 [= <-]; split; assumption]].
    exists mid. split; [exact Hmid|exact Hlog].
Qed.

(** *** Grouping the holdings by user *)

Lemma group_total_absent u g :
  ~ In u (map Sql.user_id g) -> group_total u g = 0.
Proof.
  induction g as [|h g IH]; cbn [group_total fold_right map In]; [reflexivity|].
  intros Hn. fold (group_total u g).
  destruct (Sql.user_id h =? u) eqn:Hu.
  - apply Z.eqb_eq in Hu. tauto.
  - apply IH. tauto.
Qed.

Lemma group_total_of_row x g :
  NoDup (map Sql.user_id g) -> In x g -> group_total (Sql.user_id x) g = Sql.total_tokens x.
Proof.
  induction g as [|h g IH]; cbn [group_total fold_right map In]; [tauto|].
  intros Hnd Hin. fold (group_total (Sql.user_id x) g).
  inversion Hnd as [|? ? Hnot Hnd']; subst.
  destruct Hin as [->|Hin].
  - rewrite Z.eqb_refl, group_total_absent by assumption. lia.
  - destruct (Sql.user_id h =? Sql.user_id x) eqn:Hu.
    + apply Z.eqb_eq in Hu. exfalso. apply Hnot. rewrite Hu. apply in_map, Hin.
    + apply IH; assumption.
Qed.

Lemma add_to_group_users u a g :
  map Sql.user_id (Sql.add_to_group u a g)
  = if in_dec Z.eq_dec u (map Sql.user_id g)
    then map Sql.user_id g
    else (map Sql.user_id g ++ [u])%list.
Proof.
  induction g as [|h g IH]; cbn [Sql.add_to_group map]; [reflexivity|].
  destruct (Sql.user_id h =? u) eqn:Hu.
  - apply Z.eqb_eq in Hu. cbn [map Sql.user_id].
    destruct (in_dec Z.eq_dec u (Sql.user_id h :: map Sql.user_id g)) as [_|Hn].
    + rewrite Hu. reflexivity.
    + exfalso. apply Hn. left. exact Hu.
  - apply Z.eqb_neq in Hu. cbn [map]. rewrite IH.
    destruct (in_dec Z.eq_dec u (map Sql.user_id g)) as [Hi|Hn];
      destruct (in_dec Z.eq_dec u (Sql.user_id h :: map Sql.user_id g)) as [Hi'|Hn'];
      try reflexivity.
    + exfalso. apply Hn'. right. exact Hi.
    + destruct Hi' as [Heq|Hi']; [contradiction|contradiction].
Qed.

Lemma add_to_group_group_total v u a g :
  group_total v (Sql.add_to_group u a g)
  = group_total v g + (if u =? v then a else 0).
Proof.
  induction g as [|h g IH]; cbn [Sql.add_to_group group_total fold_right Sql.user_id
                                  Sql.total_tokens].
  - destruct (u =? v); lia.
  - fold (group_total v g).
    destruct (Sql.user_id h =? u) eqn:Hu.
    + apply Z.eqb_eq in Hu. cbn [group_total fold_right Sql.user_id Sql.total_tokens].
      fold (group_total v g). rewrite Hu.
      destruct (u =? v); lia.
    + cbn [group_total fold_right]. fold (group_total v (Sql.add_to_group u a g)).
      rewrite IH. destruct (Sql.user_id h =? v); lia.
Qed.

Lemma held_by_cons u k l :
  held_by u (k :: l) = (if Token.user_id k =? u then Token.amount k else 0) + held_by u l.
Proof.
  unfold held_by. cbn [filter].
  destruct (Token.user_id k =? u); cbn [sum_amounts fold_right]; reflexivity.
Qed.

Lemma group_fold_users l :
  forall g,
    let g' := fold_left
                (fun groups k => Sql.add_to_group (Token.user_id k) (Token.amount k) groups)
                l g in
    NoDup (map Sql.user_id g) ->
    NoDup (map Sql.user_id g')
    /\ (forall u, In u (map Sql.user_id g')
                  <-> In u (map Sql.user_id g) \/ In u (map Token.user_id l))
    /\ (forall u, group_total u g' = group_total u g + held_by u l).
Proof.
  induction l as [|k l IH]; intros g; cbn [fold_left].
  - intros Hnd. split; [exact Hnd|]. split.
    + intros u. cbn. tauto.
    + intros u. unfold held_by. cbn. lia.
  - intros Hnd.
    assert (Hnd1 : NoDup (map Sql.user_id
                            (Sql.add_to_group (Token.user_id k) (Token.amount k) g))).
    { rewrite add_to_group_users.
      destruct (in_dec Z.eq_dec (Token.user_id k) (map Sql.user_id g)) as [Hi|Hn];
        [exact Hnd|].
      apply NoDup_app; [exact Hnd|repeat constructor; intros []|].
      intros x Hx [<-|[]]. contradiction. }
    destruct (IH _ Hnd1) as (Hn & Hu & Ht).
    split; [exact Hn|]. split.
    + intros u. rewrite Hu, add_to_group_users. cbn [map In].
      destruct (in_dec Z.eq_dec (Token.user_id k) (map Sql.user_id g)) as [Hi|Hni].
      * split; [tauto|]. intros [H|[<-|H]]; tauto.
      * rewrite in_app_iff. cbn [In]. tauto.
    + intros u. rewrite Ht, add_to_group_group_total, held_by_cons. lia.
Qed.

Lemma select_token_holders_users pid s :
  NoDup (map Sql.user_id (Sql.select_token_holders pid s))
  /\ (forall u, In u (map Sql.user_id (Sql.select_token_holders pid s))
                <-> In u (map Token.user_id (Sql.active_tokens pid s)))
  /\ (forall x, In x (Sql.select_token_holders pid s) ->
                Sql.total_tokens x = held_by (Sql.user_id x) (Sql.active_tokens pid s)).
Proof.
  unfold Sql.select_token_holders.
  destruct (group_fold_users (Sql.active_tokens pid s) [] (NoDup_nil _)) as (Hn & Hu & Ht).
  split; [exact Hn|]. split.
  - intros u. rewrite Hu. cbn. tauto.
  - intros x Hx. rewrite <- (group_total_of_row x _ Hn Hx), Ht. cbn. lia.
Qed.

Lemma count_token_holders_length pid s :
  Sql.count_token_holders pid s = Z.of_nat (List.length (Sql.select_token_holders pid s)).
Proof.
  unfold Sql.count_token_holders. f_equal.
  destruct (select_token_holders_users pid s) as (Hn & Hu & _).
  rewrite <- (length_map Sql.user_id (Sql.select_token_holders pid s)).
  apply Nat.le_antisymm; apply NoDup_incl_length.
  - apply NoDup_nodup.
  - intros u Hin. apply Hu. apply nodup_In in Hin. exact Hin.
  - exact Hn.
  - intros u Hin. apply nodup_In, Hu, Hin.
Qed.

(** X4. The credits a distribution returns name every user with an active
    holding of the project exactly once; the credit of a user counts all
    the tokens of that user's active holdings and amounts to that count
    times the profit per token; there are as many credits as the gate
    counts holders. *)
Theorem each_holder_is_credited_once :
  forall E pid ic tr np admin s d,
    outcome (ProfitService.distributeProfit E pid ic tr np admin) s = Ok d ->
    NoDup (map ProfitService.user_id (ProfitService.userProfits d))
    /\ (forall u, In u (map ProfitService.user_id (ProfitService.userProfits d))
                  <-> In u (map Token.user_id (Sql.active_tokens pid s)))
    /\ (forall c, In c (ProfitService.userProfits d) ->
                  ProfitService.token_amount c
                  = held_by (ProfitService.user_id c) (Sql.active_tokens pid s)
                  /\ ProfitService.profit_amount c
                     = Num.mul (Num.of_Z (ProfitService.token_amount c))
                         (ProfitService.profitPerToken d))
    /\ Z.of_nat (List.length (ProfitService.userProfits d)) = Sql.count_token_holders pid s.
Proof.
  intros E pid ic tr np admin s d Hok.
  destruct (distributeProfit_ok _ _ _ _ _ _ _ _ Hok)
    as (p & rest & h & hs & hash & _ & _ & _ & Hh & _ & -> & _).
  cbn [ProfitService.userProfits ProfitService.profitPerToken].
  destruct (select_token_holders_users pid s) as (Hn & Hu & Ht).
  rewrite count_token_holders_length. rewrite Hh in *.
  assert (Hmap : map ProfitService.user_id
                   (map (credit_of (profit_per_token_of np (h :: hs))) (h :: hs))
                 = map Sql.user_id (h :: hs)).
  { rewrite map_map. apply map_ext. reflexivity. }
  rewrite Hmap. split; [exact Hn|]. split; [exact Hu|]. split.
  - intros c Hc. apply in_map_iff in Hc. destruct Hc as (x & <- & Hx).
    cbn [credit_of ProfitService.token_amount ProfitService.user_id
         ProfitService.profit_amount].
    split; [apply Ht, Hx|reflexivity].
  - rewrite length_map. reflexivity.
Qed.

Lemma each_holder_is_credited_once_witness :
  let d := Scenario.data_50000 in
  let s := Scenario.sold_out Project.active in
  NoDup (map ProfitService.user_id (ProfitService.userProfits d))
  /\ (forall u, In u (map ProfitService.user_id (ProfitService.userProfits d))
                <-> In u (map Token.user_id (Sql.active_tokens "PROJECT_1" s)))
  /\ (forall c, In c (ProfitService.userProfits d) ->
                ProfitService.token_amount c
                = held_by (ProfitService.user_id c) (Sql.active_tokens "PROJECT_1" s)
                /\ ProfitService.profit_amount c
                   = Num.mul (Num.of_Z (ProfitService.token_amount c))
                       (ProfitService.profitPerToken d))
  /\ Z.of_nat (List.length (ProfitService.userProfits d))
     = Sql.count_token_holders "PROJECT_1" s.
Proof.
  apply (each_holder_is_credited_once Scenario.ledger_up "PROJECT_1" (Num.of_Z 100000)
           (Num.of_Z 150000) (Num.of_Z 50000) 1 (Scenario.sold_out Project.active)
           Scenario.data_50000).
  vm_compute. reflexivity.
Defined.

(** *** The rows a distribution writes *)

Lemma id_below_next_id {A} (f : A -> Z) (l : list A) x :
  In x l -> f x < Sql.next_id (map f l).
Proof.
  unfold Sql.next_id. induction l as [|y l IH]; cbn [In map fold_right]; [tauto|].
  intros [->|Hin]; [lia|]. specialize (IH Hin). lia.
Qed.

Lemma latest_fold_bound pid B l :
  forall acc i,
    fold_left (fun acc d =>
                 if String.eqb (ProfitDistribution.project_id d) pid then
                   match acc with
                   | None => Some (ProfitDistribution.id d)
                   | Some i => Some (Z.max i (ProfitDistribution.id d))
                   end
                 else acc) l acc = Some i ->
    (forall j, acc = Some j -> j < B) ->
    (forall d, In d l -> ProfitDistribution.id d < B) ->
    i < B.
Proof.
  induction l as [|d l IH]; intros acc i; cbn [fold_left].
  - intros -> Hacc _. apply Hacc. reflexivity.
  - intros Hf Hacc Hl. apply (IH _ _ Hf).
    + intros j. destruct (String.eqb (ProfitDistribution.project_id d) pid).
      * pose proof (Hl d (or_introl eq_refl)).
        destruct acc as [a|]; intros [= <-]; [|assumption].
        specialize (Hacc a eq_refl). lia.
      * apply Hacc.
    + intros d' Hd'. apply Hl. right. exact Hd'.
Qed.

Lemma latest_distribution_id_inserted pid tp ash ush ppt s :
  Sql.latest_distribution_id pid (Sql.insert_profit_distribution pid tp ash ush ppt s)
  = Some (Sql.next_id (map ProfitDistribution.id (profit_distributions s))).
Proof.
  unfold Sql.latest_distribution_id, Sql.insert_profit_distribution.
  cbn [profit_distributions]. rewrite fold_left_app.
  cbn [fold_left ProfitDistribution.project_id ProfitDistribution.id].
  rewrite String.eqb_refl.
  match goal with |- match ?x with _ => _ end = _ => destruct x as [i|] eqn:Hi end;
    [|reflexivity].
  f_equal.
  apply (latest_fold_bound pid
           (Sql.next_id (map ProfitDistribution.id (profit_distributions s)))) in Hi.
  - lia.
  - intros j [=].
  - intros d Hd. apply id_below_next_id, Hd.
Qed.

Lemma update_first_last {A} (sel : A -> bool) (upd : A -> A) l x :
  (forall y, In y l -> sel y = false) -> sel x = true ->
  Sql.update_first sel upd (l ++ [x]) = (l ++ [upd x])%list.
Proof.
  intros Hl Hx. induction l as [|y l IH]; cbn [app Sql.update_first].
  - rewrite Hx. reflexivity.
  - rewrite (Hl y (or_introl eq_refl)), IH; [reflexivity|].
    intros z Hz. apply Hl. right. exact Hz.
Qed.

Lemma profit_distributions_confirmed hash pid tp ash ush ppt s :
  profit_distributions
    (Sql.confirm_latest_distribution hash pid
       (Sql.insert_profit_distribution pid tp ash ush ppt s))
  = (profit_distributions s
       ++ [ProfitDistribution.mk
             (Sql.next_id (map ProfitDistribution.id (profit_distributions s)))
             pid tp ash ush ppt (Some hash) ProfitDistribution.completed])%list.
Proof.
  unfold Sql.confirm_latest_distribution. rewrite latest_distribution_id_inserted.
  cbn [profit_distributions Sql.insert_profit_distribution].
  rewrite update_first_last; [reflexivity| |].
  - intros y Hy. apply andb_false_iff. right. apply Z.eqb_neq.
    pose proof (id_below_next_id ProfitDistribution.id _ _ Hy). lia.
  - cbn. rewrite String.eqb_refl, Z.eqb_refl. reflexivity.
Qed.

Lemma latest_distribution_id_last pid s l x :
  profit_distributions s = (l ++ [x])%list ->
  ProfitDistribution.project_id x = pid ->
  ProfitDistribution.id x = Sql.next_id (map ProfitDistribution.id l) ->
  Sql.latest_distribution_id pid s = Some (ProfitDistribution.id x).
Proof.
  intros Hs Hpid Hid. unfold Sql.latest_distribution_id. rewrite Hs, fold_left_app.
  cbn [fold_left]. rewrite Hpid, String.eqb_refl.
  match goal with |- match ?y with _ => _ end = _ => destruct y as [i|] eqn:Hi end;
    [|reflexivity].
  f_equal. apply (latest_fold_bound pid (ProfitDistribution.id x)) in Hi.
  - lia.
  - intros j [=].
  - intros d Hd. rewrite Hid. apply id_below_next_id, Hd.
Qed.

Lemma tokens_confirm_latest hash pid s :
  tokens (Sql.confirm_latest_distribution hash pid s) = tokens s
  /\ transactions (Sql.confirm_latest_distribution hash pid s) = transactions s.
Proof.
  unfold Sql.confirm_latest_distribution.
  destruct (Sql.latest_distribution_id pid s); split; reflexivity.
Qed.

Lemma write_credits_tables pid ppt n holders :
  forall s,
    Sql.latest_distribution_id pid s = Some n ->
    exists credits,
      user_profit_records (write_credits pid ppt holders s)
      = (user_profit_records s ++ credits)%list
      /\ map credit_of_record credits = map (credit_of ppt) holders
      /\ Forall (fun c => UserProfitRecord.distribution_id c = Some n
                          /\ UserProfitRecord.project_id c = pid) credits
      /\ profit_distributions (write_credits pid ppt holders s) = profit_distributions s
      /\ tokens (write_credits pid ppt holders s) = tokens s
      /\ transactions (write_credits pid ppt holders s) = transactions s.
Proof.
  induction holders as [|h hs IH]; intros s Hn; cbn [write_credits fold_left].
  - exists []. rewrite app_nil_r. repeat split; constructor.
  - fold (write_credits pid ppt hs
            (Sql.insert_user_profit_record (Sql.user_id h) pid (Sql.total_tokens h)
               (Num.mul (Num.of_Z (Sql.total_tokens h)) ppt) s)).
    destruct (IH (Sql.insert_user_profit_record (Sql.user_id h) pid (Sql.total_tokens h)
                    (Num.mul (Num.of_Z (Sql.total_tokens h)) ppt) s))
      as (credits & Hu & Hm & Hf & Hd & Ht & Hx); [exact Hn|].
    eexists (_ :: credits). rewrite Hu, Hd, Ht, Hx.
    cbn [user_profit_records Sql.insert_user_profit_record profit_distributions tokens
         transactions].
    rewrite <- app_assoc. cbn [app].
    split; [reflexivity|]. split; [cbn [map]; rewrite Hm; reflexivity|].
    split; [|repeat split; reflexivity].
    constructor; [|exact Hf]. cbn. split; [exact Hn|reflexivity].
Qed.

Lemma distributed_store_tables pid np hash holders s :
  exists credits,
    let n := Sql.next_id (map ProfitDistribution.id (profit_distributions s)) in
    profit_distributions (distributed_store pid np hash holders s)
    = (profit_distributions s
         ++ [ProfitDistribution.mk n pid np (admin_share_of np) (user_share_of np)
               (profit_per_token_of np holders) (Some hash)
               ProfitDistribution.completed])%list
    /\ user_profit_records (distributed_store pid np hash holders s)
       = (user_profit_records s ++ credits)%list
    /\ map credit_of_record credits = map (credit_of (profit_per_token_of np holders)) holders
    /\ Forall (fun c => UserProfitRecord.distribution_id c = Some n
                        /\ UserProfitRecord.project_id c = pid) credits
    /\ tokens (distributed_store pid np hash holders s) = tokens s
    /\ transactions (distributed_store pid np hash holders s) = transactions s.
Proof.
  unfold distributed_store.
  set (ppt := profit_per_token_of np holders).
  set (s1 := Sql.confirm_latest_distribution hash pid
               (Sql.insert_profit_distribution pid np (admin_share_of np)
                  (user_share_of np) ppt s)).
  assert (Hpd : profit_distributions s1
                = (profit_distributions s
                     ++ [ProfitDistribution.mk
                           (Sql.next_id (map ProfitDistribution.id (profit_distributions s)))
                           pid np (admin_share_of np) (user_share_of np) ppt
                           (Some hash) ProfitDistribution.completed])%list)
    by apply profit_distributions_confirmed.
  assert (Hlatest := latest_distribution_id_last pid s1 _ _ Hpd eq_refl eq_refl).
  cbn [ProfitDistribution.id] in Hlatest.
  destruct (write_credits_tables pid ppt _ holders s1 Hlatest)
    as (credits & Hu & Hm & Hf & Hpd' & Ht & Hx).
  exists credits.
  cbn [Sql.complete_project profit_distributions user_profit_records tokens transactions].
  rewrite Hu, Hpd', Hpd, Ht, Hx.
  unfold s1. rewrite user_profit_records_confirm_latest.
  split; [reflexivity|]. split; [reflexivity|]. split; [exact Hm|]. split; [exact Hf|].
  rewrite (proj1 (tokens_confirm_latest _ _ _)), (proj2 (tokens_confirm_latest _ _ _)).
  split; reflexivity.
Qed.

(** X5. What a distribution that returns has stored agrees with what it
    returns: one new distribution record, completed, with the returned
    shares, profit per token and hash, the earlier records untouched; one
    new credit record per returned credit, each pointing to the new
    distribution record; no holding and no transaction record is touched. *)
Theorem distribution_records_match_the_result :
  forall E pid ic tr np admin s d,
    let call := ProfitService.distributeProfit E pid ic tr np admin in
    outcome call s = Ok d ->
    exists credits,
      let n := Sql.next_id (map ProfitDistribution.id (profit_distributions s)) in
      profit_distributions (store_after call s)
      = (profit_distributions s
           ++ [ProfitDistribution.mk n pid np (ProfitService.adminShare d)
                 (ProfitService.userTotalShare d) (ProfitService.profitPerToken d)
                 (Some (ProfitService.blockchainHash d)) ProfitDistribution.completed])%list
      /\ user_profit_records (store_after call s) = (user_profit_records s ++ credits)%list
      /\ map credit_of_record credits = ProfitService.userProfits d
      /\ Forall (fun c => UserProfitRecord.distribution_id c = Some n
                          /\ UserProfitRecord.project_id c = pid) credits
      /\ tokens (store_after call s) = tokens s
      /\ transactions (store_after call s) = transactions s.
Proof.
  intros E pid ic tr np admin s d call Hok. unfold call in Hok.
  destruct (distributeProfit_ok _ _ _ _ _ _ _ _ Hok)
    as (p & rest & h & hs & hash & _ & _ & _ & _ & _ & -> & Hs).
  unfold call. rewrite Hs.
  cbn [ProfitService.adminShare ProfitService.userTotalShare ProfitService.profitPerToken
       ProfitService.userProfits ProfitService.blockchainHash].
  apply distributed_store_tables.
Qed.

Lemma distribution_records_match_the_result_witness :
  let call :=
    ProfitService.distributeProfit Scenario.ledger_up "PROJECT_1" (Num.of_Z 100000)
      (Num.of_Z 150000) (Num.of_Z 50000) 1 in
  let s := Scenario.sold_out Project.active in
  let d := Scenario.data_50000 in
  exists credits,
    let n := Sql.next_id (map ProfitDistribution.id (profit_distributions s)) in
    profit_distributions (store_after call s)
    = (profit_distributions s
         ++ [ProfitDistribution.mk n "PROJECT_1" (Num.of_Z 50000)
               (ProfitService.adminShare d) (ProfitService.userTotalShare d)
               (ProfitService.profitPerToken d) (Some (ProfitService.blockchainHash d))
               ProfitDistribution.completed])%list
    /\ user_profit_records (store_after call s) = (user_profit_records s ++ credits)%list
    /\ map credit_of_record credits = ProfitService.userProfits d
    /\ Forall (fun c => UserProfitRecord.distribution_id c = Some n
                        /\ UserProfitRecord.project_id c = "PROJECT_1") credits
    /\ tokens (store_after call s) = tokens s
    /\ transactions (store_after call s) = transactions s.
Proof.
  apply (distribution_records_match_the_result Scenario.ledger_up "PROJECT_1"
           (Num.of_Z 100000) (Num.of_Z 150000) (Num.of_Z 50000) 1
           (Scenario.sold_out Project.active) Scenario.data_50000).
  vm_compute. reflexivity.
Defined.

(** ** More on the token sale *)

Local Opaque Num.mul Num.of_Z string_of_Z.

Lemma purchaseTokens_run E user b s :
  purchase_end E user b s (run (TokenController.purchaseTokens E user b) s).
Proof.
  destruct b as [[pid|] [amount|]];
    try (apply purchase_invalid; intros ? ? [[=] _]).
  unfold TokenController.purchaseTokens, BlockchainService.createToken.
  eff_unfold. eff_simpl.
  cbn [TokenController.project_id TokenController.amount].
  destruct (negb (truthy_string (Some pid)) || negb (truthy_int (Some amount))
            || (amount <=? 0)) eqn:Hv.
  { apply purchase_invalid. intros ? ? ([= <- <-] & Hpid & Hpos).
    apply String.eqb_neq in Hpid. cbn in Hv. rewrite Hpid in Hv. cbn in Hv.
    replace (amount =? 0) with false in Hv by (symmetry; apply Z.eqb_neq; lia).
    cbn in Hv. apply Z.leb_le in Hv. lia. }
  assert (Hn : names (TokenController.mk_body (Some pid) (Some amount)) pid amount).
  { apply orb_false_elim in Hv. destruct Hv as [Hv Hpos]. apply Z.leb_gt in Hpos.
    apply orb_false_elim in Hv. destruct Hv as [Hpid _].
    cbn in Hpid. apply negb_false_iff, negb_true_iff, String.eqb_neq in Hpid.
    split; [reflexivity|]. split; assumption. }
  clear Hv. eff_simpl.
  destruct (store_fault E 2%nat) as [e|] eqn:H2.
  { apply (purchase_unread _ _ _ _ pid amount e); assumption. }
  eff_simpl.
  destruct (Sql.select_active_project pid s) as [|project rest] eqn:Hsel.
  { apply (purchase_not_found _ _ _ _ pid amount); assumption. }
  destruct (Project.available_tokens project <? amount) eqn:Hav.
  { apply Z.ltb_lt in Hav.
    apply (purchase_insufficient _ _ _ _ pid amount project rest); assumption. }
  apply Z.ltb_ge in Hav.
  destruct (contract_createToken E (generated_token_id E) pid amount) as [hash|e] eqn:Hl.
  2:{ apply (purchase_failed _ _ _ _ pid amount project rest 0); try assumption.
      left. eauto. }
  eff_simpl. cbn [BlockchainService.hash].
  destruct (store_fault E 4%nat) as [e|] eqn:H4.
  { apply (purchase_failed _ _ _ _ pid amount project rest 1); try assumption.
    right. exists e. cbn. tauto. }
  eff_simpl.
  destruct (store_fault E 5%nat) as [e|] eqn:H5.
  { apply (purchase_failed _ _ _ _ pid amount project rest 2); try assumption.
    right. exists e. cbn. tauto. }
  eff_simpl.
  destruct (store_fault E 6%nat) as [e|] eqn:H6.
  { apply (purchase_failed _ _ _ _ pid amount project rest 3); try assumption.
    right. exists e. cbn. tauto. }
  eff_simpl.
  apply (purchase_committed _ _ _ _ pid amount project rest hash); assumption.
Qed.

Ltac purchase_cases E user b s :=
  unfold outcome, store_after, effects_of, persisted;
  generalize (purchaseTokens_run E user b s);
  generalize (run (TokenController.purchaseTokens E user b) s);
  let r := fresh "r" in
  let H := fresh "H" in
  intros r H; destruct H; cbn [fst snd db saved log status_code data].

Lemma body_names_or_not b :
  match TokenController.project_id b, TokenController.amount b with
  | Some pid, Some amount =>
      if negb (truthy_string (Some pid)) || negb (truthy_int (Some amount))
         || (amount <=? 0)
      then forall p a, ~ names b p a
      else names b pid amount
  | _, _ => forall p a, ~ names b p a
  end.
Proof.
  destruct b as [[pid|] [amount|]]; cbn [TokenController.project_id TokenController.amount];
    try (intros ? ? [[=] _]).
  destruct (negb (truthy_string (Some pid)) || negb (truthy_int (Some amount))
            || (amount <=? 0)) eqn:Hv.
  - intros ? ? ([= <- <-] & Hpid & Hpos).
    apply String.eqb_neq in Hpid. cbn in Hv. rewrite Hpid in Hv. cbn in Hv.
    replace (amount =? 0) with false in Hv by (symmetry; apply Z.eqb_neq; lia).
    cbn in Hv. apply Z.leb_le in Hv. lia.
  - apply orb_false_elim in Hv. destruct Hv as [Hv Hpos]. apply Z.leb_gt in Hpos.
    apply orb_false_elim in Hv. destruct Hv as [Hpid _].
    cbn in Hpid. apply negb_false_iff, negb_true_iff, String.eqb_neq in Hpid.
    split; [reflexivity|]. split; assumption.
Qed.

Ltac purchase_on c b pid amount :=
  destruct c as [ga gb gc gr]; destruct b as [[pid|] [amount|]];
  unfold TokenController.purchaseTokens, BlockchainService.createToken;
  eff_unfold; eff_simpl;
  cbn [TokenController.project_id TokenController.amount] in *.

Ltac unchanged_leaf :=
  eff_simpl; cbn [status_code data In];
  lazymatch goal with
  | |- (_ \/ _) /\ _ = _ =>
      split; [first [left; reflexivity | right; reflexivity] | reflexivity]
  | |- _ =>
      split; [tauto|]; split; [intros _; reflexivity | intros Hx; discriminate Hx]
  end.

(** X6. A purchase request whose connection calls may reject changes the
    store only when it is answered 201. It throws only when
    [pool.getConnection()] rejects, before anything is done, or when the
    [rollback] of the catch block rejects, and then with that very error;
    the store is then as it was. Otherwise it is answered, with 201, 400,
    404 or 500; answered otherwise than 201 it leaves the store as it was;
    answered 201 it has recorded the purchase of the named amount of an
    active project with enough supply, under the hash the contract
    returned, which is the hash of the answer. *)
Theorem purchase_commits_or_changes_nothing :
  forall c E user b s,
    let request := TokenController.purchaseTokens E user b in
    match outcome_on c request s with
    | Throw e =>
        (getConnection_fault c = Some e \/ rollback_fault c = Some e)
        /\ store_after_on c request s = s
    | Ok resp =>
        In (status_code resp) [201; 400; 404; 500]
        /\ (status_code resp <> 201 -> store_after_on c request s = s)
        /\ (status_code resp = 201 ->
            exists pid amount project rest summary,
              names b pid amount
              /\ Sql.select_active_project pid s = project :: rest
              /\ amount <= Project.available_tokens project
              /\ data resp = Some summary
              /\ contract_createToken E (generated_token_id E) pid amount
                 = Mined (TokenController.blockchain_hash summary)
              /\ store_after_on c request s
                 = purchased_store E user pid amount project
                     (TokenController.blockchain_hash summary) s)
    end.
Proof.
  intros c E user b s request. unfold request.
  pose proof (body_names_or_not b) as Hb.
  purchase_on c b pid amount;
    (destruct ga as [e|]; [unchanged_leaf|]); try unchanged_leaf.
  revert Hb.
  destruct (negb (truthy_string (Some pid)) || negb (truthy_int (Some amount))
            || (amount <=? 0)); intros Hb; [unchanged_leaf|].
  eff_simpl.
  destruct gb as [e|]; [destruct gr; unchanged_leaf|]. eff_simpl.
  destruct (store_fault E 2%nat) as [e|]; [destruct gr; unchanged_leaf|]. eff_simpl.
  destruct (Sql.select_active_project pid s) as [|project rest] eqn:Hsel;
    [unchanged_leaf|].
  destruct (Project.available_tokens project <? amount) eqn:Hav; [unchanged_leaf|].
  apply Z.ltb_ge in Hav.
  destruct (contract_createToken E (generated_token_id E) pid amount) as [hash|e] eqn:Hl;
    [|destruct gr; unchanged_leaf].
  eff_simpl. cbn [BlockchainService.hash].
  destruct (store_fault E 4%nat) as [e|]; [destruct gr; unchanged_leaf|]. eff_simpl.
  destruct (store_fault E 5%nat) as [e|]; [destruct gr; unchanged_leaf|]. eff_simpl.
  destruct (store_fault E 6%nat) as [e|]; [destruct gr; unchanged_leaf|]. eff_simpl.
  destruct gc as [e|]; [destruct gr; unchanged_leaf|]. eff_simpl.
  cbn [status_code data In].
  split; [tauto|]. split; [intros Hx; exfalso; apply Hx; reflexivity|].
  intros _. eexists pid, amount, project, rest, _.
  split; [exact Hb|]. split; [exact Hsel|]. split; [exact Hav|].
  split; [reflexivity|]. cbn [TokenController.blockchain_hash]. split; [exact Hl|reflexivity].
Qed.

Ltac discipline_leaf Hb :=
  eff_simpl; cbn [map_result status_code app];
  lazymatch goal with
  | |- _ = _ /\ _ = _ => split; reflexivity
  | |- _ =>
      split;
      [ match goal with
        | |- exists mid, ?l = _ /\ _ => exists (removelast (List.tl l))
        end; cbn; intuition discriminate |];
      split;
      [ split;
        [ intros Hin;
          first [ split; [eexists _, _; exact Hb | reflexivity]
                | exfalso; cbn in Hin; intuition discriminate ]
        | intros [(p & a & Hn) Hg];
          first [ discriminate Hg | exfalso; exact (Hb _ _ Hn) | cbn; tauto ] ] |];
      cbn [In]; intuition (try discriminate; try congruence)
  end.

(** X7. A purchase request whose [pool.getConnection()] rejects throws that
    error and has touched no connection. Otherwise it takes one connection
    and releases it last, whatever rejects in between. Its transaction is
    open exactly when the body names a project and a positive amount and
    [beginTransaction] resolves; it is committed exactly when the request
    is answered 201 and rolled back exactly when it is answered 500; a
    request answered 404 releases the connection with its transaction
    neither committed nor rolled back; a request that throws does so with
    the error of the rejected [rollback], and has neither committed nor
    rolled back. *)
Theorem purchase_connection_discipline :
  forall c E user b s,
    let request := TokenController.purchaseTokens E user b in
    let l := effects_on c request s in
    let answer := map_result status_code (outcome_on c request s) in
    match getConnection_fault c with
    | Some e => outcome_on c request s = Throw e /\ l = []
    | None =>
        (exists mid, l = Acquire :: (mid ++ [Release])%list
                     /\ ~ In Acquire mid /\ ~ In Release mid)
        /\ (In Begin l <-> (exists pid amount, names b pid amount)
                           /\ beginTransaction_fault c = None)
        /\ (In Commit l <-> answer = Ok 201)
        /\ (In Rollback l <-> answer = Ok 500)
        /\ (answer = Ok 404 -> In Begin l /\ ~ In Commit l /\ ~ In Rollback l)
        /\ (forall e, answer = Throw e ->
            rollback_fault c = Some e /\ ~ In Commit l /\ ~ In Rollback l)
    end.
Proof.
  intros c E user b s request l answer. unfold answer, l, request.
  pose proof (body_names_or_not b) as Hb.
  purchase_on c b pid amount;
    (destruct ga as [e|]; [discipline_leaf Hb|]); try discipline_leaf Hb.
  revert Hb.
  destruct (negb (truthy_string (Some pid)) || negb (truthy_int (Some amount))
            || (amount <=? 0)); intros Hb; [discipline_leaf Hb|].
  eff_simpl.
  destruct gb as [e|]; [destruct gr; discipline_leaf Hb|]. eff_simpl.
  destruct (store_fault E 2%nat) as [e|]; [destruct gr; discipline_leaf Hb|]. eff_simpl.
  destruct (Sql.select_active_project pid s) as [|project rest];
    [discipline_leaf Hb|].
  destruct (Project.available_tokens project <? amount); [discipline_leaf Hb|].
  destruct (contract_createToken E (generated_token_id E) pid amount) as [hash|e];
    [|destruct gr; discipline_leaf Hb].
  eff_simpl. cbn [BlockchainService.hash].
  destruct (store_fault E 4%nat) as [e|]; [destruct gr; discipline_leaf Hb|]. eff_simpl.
  destruct (store_fault E 5%nat) as [e|]; [destruct gr; discipline_leaf Hb|]. eff_simpl.
  destruct (store_fault E 6%nat) as [e|]; [destruct gr; discipline_leaf Hb|]. eff_simpl.
  destruct gc as [e|]; [destruct gr; discipline_leaf Hb|].
  discipline_leaf Hb.
Qed.

(** X8. A purchase of a positive amount within the supply of an active
    project, with the store answering and the contract mining the token,
    is answered 201 with [total_value = amount * token_price]; it appends
    one active holding of the buyer and one completed purchase transaction
    from the project's admin to the buyer, both with the contract's hash,
    debits the amount from the project's rows and touches nothing else. *)
Theorem purchase_records_holding_and_transaction :
  forall E user pid amount s p rest hash,
    no_faults E ->
    pid <> "" ->
    0 < amount ->
    Sql.select_active_project pid s = p :: rest ->
    amount <= Project.available_tokens p ->
    contract_createToken E (generated_token_id E) pid amount = Mined hash ->
    let request :=
      TokenController.purchaseTokens E user
        (TokenController.mk_body (Some pid) (Some amount)) in
    let after := store_after request s in
    let total_value := Num.mul (Num.of_Z amount) (Project.token_price p) in
    outcome request s
    = Ok (mk_response 201 "Tokens purchased successfully" None
            (Some (TokenController.mk_token_summary (generated_token_id E) pid amount
                     total_value hash)))
    /\ tokens after
       = (tokens s
            ++ [Token.mk (Sql.next_id (map Token.id (tokens s))) (generated_token_id E)
                  pid user amount (Project.token_price p) total_value Token.active
                  (Some hash)])%list
    /\ transactions after
       = (transactions s
            ++ [Transaction.mk (Sql.next_id (map Transaction.id (transactions s)))
                  (generated_transaction_id E) (Project.admin_id p) user pid amount
                  total_value Transaction.purchase Transaction.completed (Some hash)])%list
    /\ projects after = map (debit amount pid) (projects s)
    /\ profit_distributions after = profit_distributions s
    /\ user_profit_records after = user_profit_records s.
Proof.
  intros E user pid amount s p rest hash Hnf Hpid Hpos Hsel Hle Hl request after total_value.
  unfold after, total_value, request.
  purchase_cases E user (TokenController.mk_body (Some pid) (Some amount)) s;
    try match goal with
        | Hn : names _ _ _ |- _ => destruct Hn as ([= <- <-] & _ & _)
        end.
  - exfalso. apply (H pid amount). split; [reflexivity|]. split; assumption.
  - rewrite Hnf in *. discriminate.
  - congruence.
  - rewrite Hsel in *. match goal with Hx : _ :: _ = _ :: _ |- _ => injection Hx as <- <- end.
    lia.
  - match goal with
    | Hx : _ \/ _ |- _ => destruct Hx as [[_ [e He]]|[e [_ He]]]
    end; [congruence|rewrite Hnf in He; discriminate].
  - rewrite Hsel in *. match goal with Hx : _ :: _ = _ :: _ |- _ => injection Hx as <- <- end.
    rewrite Hl in *. match goal with Hx : Mined _ = Mined _ |- _ => injection Hx as <- end.
    repeat split; reflexivity.
Qed.

Lemma purchase_records_holding_and_transaction_witness :
  let request :=
    TokenController.purchaseTokens Scenario.ledger_up 12
      (TokenController.mk_body (Some "PROJECT_1") (Some 2)) in
  let s := Scenario.three_left in
  let p := Scenario.project_row Project.active 10 3 in
  let after := store_after request s in
  let total_value := Num.mul (Num.of_Z 2) (Project.token_price p) in
  outcome request s
  = Ok (mk_response 201 "Tokens purchased successfully" None
          (Some (TokenController.mk_token_summary
                   (generated_token_id Scenario.ledger_up) "PROJECT_1" 2
                   total_value "0xa1")))
  /\ tokens after
     = (tokens s
          ++ [Token.mk (Sql.next_id (map Token.id (tokens s)))
                (generated_token_id Scenario.ledger_up) "PROJECT_1" 12 2
                (Project.token_price p) total_value Token.active (Some "0xa1")])%list
  /\ transactions after
     = (transactions s
          ++ [Transaction.mk (Sql.next_id (map Transaction.id (transactions s)))
                (generated_transaction_id Scenario.ledger_up) (Project.admin_id p) 12
                "PROJECT_1" 2 total_value Transaction.purchase Transaction.completed
                (Some "0xa1")])%list
  /\ projects after = map (debit 2 "PROJECT_1") (projects s)
  /\ profit_distributions after = profit_distributions s
  /\ user_profit_records after = user_profit_records s.
Proof.
  apply (purchase_records_holding_and_transaction Scenario.ledger_up 12 "PROJECT_1" 2
           Scenario.three_left (Scenario.project_row Project.active 10 3) [] "0xa1").
  - intros k. reflexivity.
  - discriminate.
  - lia.
  - reflexivity.
  - cbn. lia.
  - reflexivity.
Defined.

Lemma projects_distributed pid np hash holders s :
  projects (distributed_store pid np hash holders s)
  = projects (snd (Sql.update_project_status Project.completed pid s)).
Proof.
  unfold distributed_store. cbn [Sql.complete_project projects snd Sql.update_project_status].
  rewrite projects_write_credits, projects_confirm_latest. reflexivity.
Qed.

Lemma tokens_distributed pid np hash holders s :
  tokens (distributed_store pid np hash holders s) = tokens s.
Proof.
  unfold distributed_store. cbn [Sql.complete_project tokens].
  assert (Hw : forall ppt hs s0, tokens (write_credits pid ppt hs s0) = tokens s0).
  { intros ppt hs. induction hs as [|h hs IH]; intros s0; cbn; [reflexivity|].
    unfold write_credits in IH. rewrite IH. reflexivity. }
  rewrite Hw, (proj1 (tokens_confirm_latest _ _ _)). reflexivity.
Qed.

Lemma select_active_project_closed st pid s :
  st <> Project.active ->
  Sql.select_active_project pid (snd (Sql.update_project_status st pid s)) = [].
Proof.
  intros Hst. unfold Sql.select_active_project. cbn [snd Sql.update_project_status projects].
  induction (projects s) as [|q l IH]; cbn [map filter]; [reflexivity|].
  destruct (String.eqb (Project.project_id q) pid) eqn:Hq.
  - cbn [Project.set_status Project.project_id Project.status]. rewrite Hq.
    destruct st; try contradiction; cbn; exact IH.
  - rewrite Hq. cbn [andb]. exact IH.
Qed.

Lemma select_project_status st pid s :
  Sql.select_project pid (snd (Sql.update_project_status st pid s))
  = map (Project.set_status st) (Sql.select_project pid s).
Proof.
  unfold Sql.select_project. cbn [snd Sql.update_project_status projects].
  induction (projects s) as [|q l IH]; cbn [map filter]; [reflexivity|].
  destruct (String.eqb (Project.project_id q) pid) eqn:Hq; cbn; rewrite Hq, IH; reflexivity.
Qed.

Lemma purchase_of_closed_project E user pid amount s :
  store_fault E 2%nat = None ->
  pid <> "" ->
  0 < amount ->
  Sql.select_active_project pid s = [] ->
  run (TokenController.purchaseTokens E user
         (TokenController.mk_body (Some pid) (Some amount))) s
  = (Ok (mk_response 404 "Project not found or not active" None None),
     mk_world s (Some s) [Acquire; Begin; Query; Release] healthy).
Proof.
  intros Hnf Hpid Hpos Hsel.
  generalize (purchaseTokens_run E user (TokenController.mk_body (Some pid) (Some amount)) s).
  generalize (run (TokenController.purchaseTokens E user
                     (TokenController.mk_body (Some pid) (Some amount))) s).
  intros r H. destruct H;
    try match goal with
        | Hn : names _ _ _ |- _ => destruct Hn as ([= <- <-] & _ & _)
        end; try congruence.
  exfalso. apply (H pid amount). split; [reflexivity|]. split; assumption.
Qed.

(** X9. After a distribution that returned, a purchase of the project is
    answered 404 and changes nothing: the set of holdings of a completed
    project is frozen, and the distribution itself has not touched it. *)
Theorem completed_project_sells_no_token :
  forall E pid ic tr np admin s d E' user amount,
    outcome (ProfitService.distributeProfit E pid ic tr np admin) s = Ok d ->
    store_fault E' 2%nat = None ->
    pid <> "" ->
    0 < amount ->
    let s1 := store_after (ProfitService.distributeProfit E pid ic tr np admin) s in
    let request :=
      TokenController.purchaseTokens E' user
        (TokenController.mk_body (Some pid) (Some amount)) in
    outcome request s1 = Ok (mk_response 404 "Project not found or not active" None None)
    /\ store_after request s1 = s1
    /\ tokens s1 = tokens s.
Proof.
  intros E pid ic tr np admin s d E' user amount Hok Hnf Hpid Hpos s1 request.
  destruct (distributeProfit_ok _ _ _ _ _ _ _ _ Hok)
    as (p & rest & h & hs & hash & _ & _ & _ & _ & _ & _ & Hs1).
  assert (Hsel : Sql.select_active_project pid s1 = []).
  { unfold s1. rewrite Hs1. unfold Sql.select_active_project.
    rewrite projects_distributed.
    apply (select_active_project_closed Project.completed pid s). discriminate. }
  unfold request, outcome, store_after, persisted.
  rewrite (purchase_of_closed_project E' user pid amount s1 Hnf Hpid Hpos Hsel).
  cbn [fst snd saved]. split; [reflexivity|]. split; [reflexivity|].
  unfold s1. rewrite Hs1. apply tokens_distributed.
Qed.

Lemma completed_project_sells_no_token_witness :
  let s := Scenario.sold_out Project.active in
  let s1 :=
    store_after (ProfitService.distributeProfit Scenario.ledger_up "PROJECT_1"
                   (Num.of_Z 100000) (Num.of_Z 150000) (Num.of_Z 50000) 1) s in
  let request :=
    TokenController.purchaseTokens Scenario.ledger_up 13
      (TokenController.mk_body (Some "PROJECT_1") (Some 1)) in
  outcome request s1 = Ok (mk_response 404 "Project not found or not active" None None)
  /\ store_after request s1 = s1
  /\ tokens s1 = tokens s.
Proof.
  apply (completed_project_sells_no_token Scenario.ledger_up "PROJECT_1" (Num.of_Z 100000)
           (Num.of_Z 150000) (Num.of_Z 50000) 1 (Scenario.sold_out Project.active)
           Scenario.data_50000 Scenario.ledger_up 13 1).
  - vm_compute. reflexivity.
  - reflexivity.
  - discriminate.
  - lia.
Defined.

(** X10. For an active project that keeps the supply invariant with a positive
    supply, the gate reports as sold the sum of the active holdings, and
    reports the project ready exactly when that sum is the whole supply. *)
Theorem gate_is_ready_exactly_when_sold_out :
  forall E pid T s,
    no_faults E ->
    0 < T ->
    supply_invariant pid T s ->
    Forall (fun p => Project.status p = Project.active) (Sql.select_project pid s) ->
    exists r,
      outcome (ProjectService.isProjectReadyForDistribution E pid) s = Ok r
      /\ ProjectService.totalTokens r = T
      /\ ProjectService.tokensSold r = sum_amounts (Sql.active_tokens pid s)
      /\ (ProjectService.ready r = true <-> sum_amounts (Sql.active_tokens pid s) = T).
Proof.
  intros E pid T s Hnf HT (p & Hsel & Htot & Hnn & Hav) Hact.
  rewrite Hsel in Hact. inversion Hact as [|? ? Hst _]; subst.
  unfold ProjectService.isProjectReadyForDistribution. eff_unfold. eff_simpl.
  rewrite !Hnf. eff_simpl. rewrite Hsel, Hst. cbn [Project.status_eqb].
  destruct (0 <? Project.available_tokens p) eqn:Hlt.
  - apply Z.ltb_lt in Hlt. eexists. split; [reflexivity|].
    cbn [ProjectService.totalTokens ProjectService.tokensSold ProjectService.ready].
    split; [reflexivity|]. split; [lia|]. split; [discriminate|lia].
  - apply Z.ltb_ge in Hlt. eff_simpl. rewrite Hnf. eff_simpl.
    destruct (Sql.count_token_holders pid s =? 0) eqn:Hz.
    + apply Z.eqb_eq, count_token_holders_zero in Hz. rewrite Hz in *.
      cbn [sum_amounts fold_right] in *. lia.
    + eexists. split; [reflexivity|].
      cbn [ProjectService.totalTokens ProjectService.tokensSold ProjectService.ready].
      split; [reflexivity|]. split; [lia|]. split; [lia|reflexivity].
Qed.

Lemma gate_is_ready_exactly_when_sold_out_witness :
  exists r,
    outcome (ProjectService.isProjectReadyForDistribution Scenario.ledger_up "PROJECT_1")
            Scenario.three_left = Ok r
    /\ ProjectService.totalTokens r = 10
    /\ ProjectService.tokensSold r
       = sum_amounts (Sql.active_tokens "PROJECT_1" Scenario.three_left)
    /\ (ProjectService.ready r = true
        <-> sum_amounts (Sql.active_tokens "PROJECT_1" Scenario.three_left) = 10).
Proof.
  apply (gate_is_ready_exactly_when_sold_out Scenario.ledger_up "PROJECT_1" 10
           Scenario.three_left).
  - intros k. reflexivity.
  - lia.
  - exists (Scenario.project_row Project.active 10 3).
    split; [reflexivity|]. split; [reflexivity|]. split; [cbn; lia|reflexivity].
  - constructor; [reflexivity|constructor].
Defined.

(** ** The gate, the endpoints and the engine together *)

Ltac gate_done :=
  do 2 eexists; split; [reflexivity|]; split; [repeat constructor|];
  intros; discriminate || (repeat match goal with H : Some _ = Some _ |- _ =>
                                    injection H as <- end; reflexivity).

Lemma gate_run E pid s :
  exists r l,
    run (ProjectService.isProjectReadyForDistribution E pid) s
    = (Ok r, mk_world s None l healthy)
    /\ Forall (fun ev => ev = Query) l
    /\ (forall e, store_fault E 0%nat = Some e -> r = database_error e).
Proof.
  unfold ProjectService.isProjectReadyForDistribution. eff_unfold. eff_simpl.
  destruct (store_fault E 0%nat); [gate_done|].
  eff_simpl.
  destruct (Sql.select_project pid s) as [|p rest]; [gate_done|].
  destruct (Project.status_eqb (Project.status p) Project.completed); [gate_done|].
  destruct (Project.status_eqb (Project.status p) Project.cancelled); [gate_done|].
  destruct (0 <? Project.available_tokens p); [gate_done|].
  eff_simpl.
  destruct (store_fault E 1%nat); [gate_done|].
  eff_simpl.
  destruct (Sql.count_token_holders pid s =? 0); gate_done.
Qed.

(** X11. The readiness endpoint always answers 200 with the result of the gate
    and writes nothing; its 500 answer is unreachable. When the store
    fails, the answer is still 200, with [ready = false] and the database
    error as the reason. *)
Theorem readiness_endpoint_always_answers_200 :
  forall E pid s,
    let request := ProfitController.checkDistributionReadiness E pid in
    exists r,
      outcome (ProjectService.isProjectReadyForDistribution E pid) s = Ok r
      /\ outcome request s
         = Ok (mk_response 200 "Distribution readiness checked" None (Some r))
      /\ store_after request s = s
      /\ (forall e, store_fault E 0%nat = Some e ->
                    ProjectService.ready r = false
                    /\ ProjectService.reason r = "Database error: " ++ error_message e).
Proof.
  intros E pid s request.
  destruct (gate_run E pid s) as (r & l & Hrun & _ & Hdb).
  exists r.
  unfold request, ProfitController.checkDistributionReadiness, outcome, store_after,
    persisted, run, Eff.try_catch, Eff.bind in *.
  rewrite Hrun. cbn. split; [reflexivity|]. split; [reflexivity|]. split; [reflexivity|].
  intros e He. rewrite (Hdb e He). split; reflexivity.
Qed.

Lemma distributeProfit_commits_from E pid ic tr np admin s sv l0 p rest h hs hash :
  no_faults E ->
  Sql.select_project pid s = p :: rest ->
  Project.status p <> Project.completed ->
  Project.available_tokens p <= 0 ->
  Sql.select_token_holders pid s = h :: hs ->
  dividend_outcome E pid np (h :: hs) = Mined hash ->
  exists l,
    ProfitService.distributeProfit E pid ic tr np admin (mk_world s sv l0 healthy)
    = (Ok (ProfitService.mk_distributionData pid ic tr np (admin_share_of np)
             (user_share_of np) (profit_per_token_of np (h :: hs))
             (ProfitService.sum_total_tokens (h :: hs))
             (map (credit_of (profit_per_token_of np (h :: hs))) (h :: hs))
             hash Project.completed),
       mk_world (distributed_store pid np hash (h :: hs) s) None l healthy).
Proof.
  intros Hnf Hp Hst Hav Hh Hl.
  unfold dividend_outcome, profit_per_token_of, user_share_of, admin_share_of in Hl.
  unfold ProfitService.distributeProfit, BlockchainService.addDividenProfit.
  eff_unfold. eff_simpl. rewrite !Hnf. eff_simpl. rewrite Hp.
  destruct (Project.status_eqb (Project.status p) Project.completed) eqn:Hc.
  { apply status_eqb_eq in Hc. contradiction. }
  replace (0 <? Project.available_tokens p) with false
    by (symmetry; apply Z.ltb_ge; lia).
  eff_simpl. rewrite ?Hnf. eff_simpl. rewrite Hh. eff_simpl. rewrite ?Hnf. eff_simpl.
  rewrite Hl. eff_simpl. rewrite ?Hnf. eff_simpl. cbn [BlockchainService.hash].
  rewrite (for_each_credit_holder E Hnf pid _ (h :: hs)). eff_simpl.
  rewrite ?Hnf. eff_simpl. eexists. reflexivity.
Qed.

Lemma endpoint_after_gate E user b pid ic tr np s r w :
  asks_to_distribute b pid ic tr np ->
  run (ProjectService.isProjectReadyForDistribution E pid) s = (Ok r, w) ->
  run (ProfitController.distributeProfit E user b) s
  = if negb (ProjectService.ready r) then (Ok (not_ready_response r), w)
    else
      match ProfitService.distributeProfit E pid ic tr np user w with
      | (Ok d, w') =>
          (Ok (mk_response 200 "Profit distributed successfully" None
                 (Some (ProfitController.DistributionData d))), w')
      | (Throw e, w') =>
          (Ok (mk_response 500 "Error distributing profit" (Some (error_message e)) None),
           w')
      end.
Proof.
  intros (-> & Hpid & Hic & Htr & Hnp & Hle) Hgate.
  unfold ProfitController.distributeProfit, run, Eff.try_catch in *.
  cbn [ProfitController.projectId ProfitController.initialCapital
       ProfitController.totalRevenue ProfitController.newProfit].
  apply String.eqb_neq in Hpid. cbn [truthy_string]. rewrite Hpid, Hic, Htr, Hnp, Hle.
  cbn [negb orb]. unfold Eff.bind at 1. rewrite Hgate.
  destruct (negb (ProjectService.ready r)); [reflexivity|].
  unfold Eff.bind.
  destruct (ProfitService.distributeProfit E pid ic tr np user w) as [[d|e] w'];
    reflexivity.
Qed.

Lemma endpoint_without_request E user b s :
  (forall pid ic tr np, ~ asks_to_distribute b pid ic tr np) ->
  exists resp,
    run (ProfitController.distributeProfit E user b) s = (Ok resp, fresh_world s)
    /\ status_code resp = 400.
Proof.
  intros Hno. destruct b as [pid ic tr np].
  unfold ProfitController.distributeProfit, run, Eff.try_catch, Eff.ret.
  cbn [ProfitController.projectId ProfitController.initialCapital
       ProfitController.totalRevenue ProfitController.newProfit].
  destruct pid as [pid|]; [|eexists; split; reflexivity].
  destruct ic as [ic|]; [|eexists; split; reflexivity].
  destruct tr as [tr|]; [|eexists; split; reflexivity].
  destruct np as [np|]; [|eexists; split; reflexivity].
  destruct (negb (truthy_string (Some pid)) || negb (Num.truthy ic)
            || negb (Num.truthy tr) || negb (Num.truthy np)) eqn:Hv;
    [eexists; split; reflexivity|].
  destruct (Num.leb np (Num.of_Z 0)) eqn:Hle; [eexists; split; reflexivity|].
  exfalso. apply (Hno pid ic tr np).
  apply orb_false_elim in Hv. destruct Hv as [Hv Hnp].
  apply orb_false_elim in Hv. destruct Hv as [Hv Htr].
  apply orb_false_elim in Hv. destruct Hv as [Hpid Hic].
  apply negb_false_iff in Hnp, Htr, Hic, Hpid.
  cbn in Hpid. apply negb_true_iff, String.eqb_neq in Hpid.
  repeat split; assumption.
Qed.

Lemma asks_to_distribute_dec b :
  (exists pid ic tr np, asks_to_distribute b pid ic tr np)
  \/ (forall pid ic tr np, ~ asks_to_distribute b pid ic tr np).
Proof.
  destruct b as [[pid|] [ic|] [tr|] [np|]];
    try (right; intros ? ? ? ? ([=] & _); fail).
  destruct (String.eqb pid "") eqn:Hpid.
  { right. intros ? ? ? ? ([= <- <- <- <-] & Hne & _).
    apply String.eqb_eq in Hpid. contradiction. }
  apply String.eqb_neq in Hpid.
  destruct (Num.truthy ic) eqn:Hic;
    [|right; intros ? ? ? ? ([= <- <- <- <-] & _ & ? & _); congruence].
  destruct (Num.truthy tr) eqn:Htr;
    [|right; intros ? ? ? ? ([= <- <- <- <-] & _ & _ & ? & _); congruence].
  destruct (Num.truthy np) eqn:Hnp;
    [|right; intros ? ? ? ? ([= <- <- <- <-] & _ & _ & _ & ? & _); congruence].
  destruct (Num.leb np (Num.of_Z 0)) eqn:Hle;
    [right; intros ? ? ? ? ([= <- <- <- <-] & _ & _ & _ & _ & ?); congruence|].
  left. exists pid, ic, tr, np. repeat split; assumption.
Qed.

(** X12. The distribute endpoint is always answered, with 200, 400 or 500, and
    never throws. Answered otherwise than 200 it leaves the store as it
    was; answered 200, the body passed the validation, the gate reported
    the project ready and the store holds the distribution the answer
    describes. *)
Theorem distribute_endpoint_changes_the_store_only_with_200 :
  forall E user b s,
    let request := ProfitController.distributeProfit E user b in
    exists resp,
      outcome request s = Ok resp
      /\ In (status_code resp) [200; 400; 500]
      /\ (status_code resp <> 200 -> store_after request s = s)
      /\ (status_code resp = 200 ->
          exists pid ic tr np d,
            asks_to_distribute b pid ic tr np
            /\ map_result ProjectService.ready
                 (outcome (ProjectService.isProjectReadyForDistribution E pid) s)
               = Ok true
            /\ data resp = Some (ProfitController.DistributionData d)
            /\ store_after request s
               = distributed_store pid np (ProfitService.blockchainHash d)
                   (Sql.select_token_holders pid s) s).
Proof.
  intros E user b s request. unfold request, outcome, store_after, persisted.
  destruct (asks_to_distribute_dec b) as [(pid & ic & tr & np & Hb)|Hno].
  2:{ destruct (endpoint_without_request E user b s Hno) as (resp & -> & Hc).
      exists resp. cbn [fst snd fresh_world saved db]. rewrite Hc. cbn [In].
      split; [reflexivity|]. split; [tauto|]. split; [reflexivity|]. discriminate. }
  destruct (gate_run E pid s) as (r & l & Hgate & _).
  rewrite (endpoint_after_gate E user b pid ic tr np s r _ Hb Hgate).
  destruct (ProjectService.ready r) eqn:Hready; cbn [negb].
  2:{ eexists. cbn [fst snd status_code not_ready_response saved db In].
      split; [reflexivity|]. split; [tauto|]. split; [reflexivity|]. discriminate. }
  pose proof (distributeProfit_from E pid ic tr np user s l) as Hrun.
  destruct (ProfitService.distributeProfit E pid ic tr np user (mk_world s None l healthy))
    as [[d|e] w']; cbn [db] in Hrun.
  - destruct Hrun as (p & rest & h & hs & hash & _ & _ & _ & Hh & _ & -> & Hdb & Hsv).
    eexists. cbn [fst snd status_code data In].
    split; [reflexivity|]. split; [tauto|].
    split; [intros Hx; exfalso; apply Hx; reflexivity|]. intros _.
    eexists pid, ic, tr, np, _. split; [exact Hb|].
    split; [unfold outcome; rewrite Hgate; cbn; rewrite Hready; reflexivity|].
    split; [reflexivity|]. rewrite Hsv, Hdb, Hh. reflexivity.
  - destruct Hrun as [Hdb Hsv]. eexists. cbn [fst snd status_code In].
    split; [reflexivity|]. split; [tauto|]. rewrite Hsv, Hdb.
    split; [reflexivity|]. discriminate.
Qed.

(** X13. When the gate reports the project of a valid request as not ready (not
    found, completed, cancelled, not sold out, without holders, or a
    failing store), the endpoint answers 400 with the gate's reason and
    counters and does no more than the gate's own queries: the engine is
    not called and no connection is taken. *)
Theorem not_ready_project_is_refused_by_the_endpoint :
  forall E user b pid ic tr np s r,
    asks_to_distribute b pid ic tr np ->
    outcome (ProjectService.isProjectReadyForDistribution E pid) s = Ok r ->
    ProjectService.ready r = false ->
    let request := ProfitController.distributeProfit E user b in
    outcome request s = Ok (not_ready_response r)
    /\ store_after request s = s
    /\ effects_of request s
       = effects_of (ProjectService.isProjectReadyForDistribution E pid) s
    /\ Forall (fun ev => ev = Query) (effects_of request s).
Proof.
  intros E user b pid ic tr np s r Hb Hr Hready request.
  destruct (gate_run E pid s) as (r' & l & Hgate & Hl & _).
  assert (r' = r) as -> by (unfold outcome in Hr; rewrite Hgate in Hr; cbn in Hr; congruence).
  unfold request, outcome, store_after, effects_of, persisted.
  rewrite (endpoint_after_gate E user b pid ic tr np s r _ Hb Hgate), Hready, Hgate.
  cbn. repeat split; try reflexivity. exact Hl.
Qed.

Lemma not_ready_project_is_refused_by_the_endpoint_witness :
  let r := ProjectService.mk_readiness false "Project is cancelled" true 100 100 0 None in
  let s := Scenario.sold_out Project.cancelled in
  let request := ProfitController.distributeProfit Scenario.ledger_up 1 Scenario.body_50000 in
  outcome request s = Ok (not_ready_response r)
  /\ store_after request s = s
  /\ effects_of request s
     = effects_of (ProjectService.isProjectReadyForDistribution Scenario.ledger_up
                     "PROJECT_1") s
  /\ Forall (fun ev => ev = Query) (effects_of request s).
Proof.
  apply (not_ready_project_is_refused_by_the_endpoint Scenario.ledger_up 1
           Scenario.body_50000 "PROJECT_1" (Num.of_Z 100000) (Num.of_Z 150000)
           (Num.of_Z 50000) (Scenario.sold_out Project.cancelled)
           (ProjectService.mk_readiness false "Project is cancelled" true 100 100 0 None)).
  - split; [reflexivity|]. split; [discriminate|].
    split; [vm_compute; reflexivity|]. split; [vm_compute; reflexivity|].
    split; vm_compute; reflexivity.
  - vm_compute. reflexivity.
  - reflexivity.
Defined.

(** X14. The gate and the engine agree: when the gate reports the project of a
    valid request ready, the store answers and the contract mines the
    dividend, none of the engine's own checks fails; the endpoint answers
    200 with the distribution data and the store holds the distribution,
    with one credit per holder the gate counted. *)
Theorem ready_project_is_distributed_by_the_endpoint :
  forall E user b pid ic tr np s r hash,
    no_faults E ->
    asks_to_distribute b pid ic tr np ->
    outcome (ProjectService.isProjectReadyForDistribution E pid) s = Ok r ->
    ProjectService.ready r = true ->
    dividend_outcome E pid np (Sql.select_token_holders pid s) = Mined hash ->
    let request := ProfitController.distributeProfit E user b in
    let holders := Sql.select_token_holders pid s in
    outcome request s
    = Ok (mk_response 200 "Profit distributed successfully" None
            (Some (ProfitController.DistributionData
                     (ProfitService.mk_distributionData pid ic tr np (admin_share_of np)
                        (user_share_of np) (profit_per_token_of np holders)
                        (ProfitService.sum_total_tokens holders)
                        (map (credit_of (profit_per_token_of np holders)) holders)
                        hash Project.completed))))
    /\ store_after request s = distributed_store pid np hash holders s
    /\ Z.of_nat (List.length holders) = Sql.count_token_holders pid s.
Proof.
  intros E user b pid ic tr np s r hash Hnf Hb Hr Hready Hl request holders.
  destruct (ready_project E pid s r Hnf Hr Hready)
    as (p & rest & Hp & Hst & Hav & _ & _ & _ & Hcount).
  destruct (gate_run E pid s) as (r' & l & Hgate & _ & _).
  assert (r' = r) as -> by (unfold outcome in Hr; rewrite Hgate in Hr; cbn in Hr; congruence).
  pose proof (select_token_holders_not_nil pid s Hcount) as Hne.
  unfold holders in *.
  destruct (Sql.select_token_holders pid s) as [|h hs] eqn:Hh; [contradiction|].
  destruct (distributeProfit_commits_from E pid ic tr np user s None l
              p rest h hs hash Hnf Hp ltac:(congruence) Hav Hh Hl) as (l' & Hrun).
  unfold request, outcome, store_after, persisted.
  rewrite (endpoint_after_gate E user b pid ic tr np s r _ Hb Hgate), Hready.
  cbn [negb]. rewrite Hrun. cbn [fst snd saved db].
  split; [reflexivity|]. split; [reflexivity|].
  rewrite count_token_holders_length, Hh. reflexivity.
Qed.

Lemma ready_project_is_distributed_by_the_endpoint_witness :
  let s := Scenario.sold_out Project.active in
  let request := ProfitController.distributeProfit Scenario.ledger_up 1 Scenario.body_50000 in
  let holders := Sql.select_token_holders "PROJECT_1" s in
  let np := Num.of_Z 50000 in
  outcome request s
  = Ok (mk_response 200 "Profit distributed successfully" None
          (Some (ProfitController.DistributionData
                   (ProfitService.mk_distributionData "PROJECT_1" (Num.of_Z 100000)
                      (Num.of_Z 150000) np (admin_share_of np) (user_share_of np)
                      (profit_per_token_of np holders)
                      (ProfitService.sum_total_tokens holders)
                      (map (credit_of (profit_per_token_of np holders)) holders)
                      "0xd1" Project.completed))))
  /\ store_after request s = distributed_store "PROJECT_1" np "0xd1" holders s
  /\ Z.of_nat (List.length holders) = Sql.count_token_holders "PROJECT_1" s.
Proof.
  apply (ready_project_is_distributed_by_the_endpoint Scenario.ledger_up 1
           Scenario.body_50000 "PROJECT_1" (Num.of_Z 100000) (Num.of_Z 150000)
           (Num.of_Z 50000) (Scenario.sold_out Project.active)
           (ProjectService.mk_readiness true "Project is ready for profit distribution"
              true 100 100 0 (Some 2))
           "0xd1").
  - intros k. reflexivity.
  - split; [reflexivity|]. split; [discriminate|].
    split; [vm_compute; reflexivity|]. split; [vm_compute; reflexivity|].
    split; vm_compute; reflexivity.
  - vm_compute. reflexivity.
  - reflexivity.
  - reflexivity.
Defined.

(** ** Closing and reopening a project *)

Lemma select_owned_in_select pid admin s :
  Sql.select_owned_project pid admin s <> [] -> Sql.select_project pid s <> [].
Proof.
  unfold Sql.select_owned_project, Sql.select_project.
  induction (projects s) as [|q l IH]; cbn [filter map]; [tauto|].
  destruct (String.eqb (Project.project_id q) pid); cbn [andb]; [discriminate|exact IH].
Qed.

Lemma updateProjectStatus_run E user pid status s :
  match ProjectController.included_status status with
  | None =>
      run (ProjectController.updateProjectStatus E user pid status) s
      = (Ok (mk_response 400 "Invalid status. Must be: active, completed, or cancelled"
               None None),
         fresh_world s)
  | Some st =>
      match store_fault E 0%nat with
      | Some e =>
          run (ProjectController.updateProjectStatus E user pid status) s
          = (Ok (mk_response 500 "Error updating project status"
                   (Some (error_message e)) None),
             mk_world s None [Query] healthy)
      | None =>
          match Sql.select_owned_project pid user s with
          | [] =>
              run (ProjectController.updateProjectStatus E user pid status) s
              = (Ok (mk_response 403 "You can only update your own projects" None None),
                 mk_world s None [Query] healthy)
          | _ :: _ =>
              match store_fault E 1%nat with
              | Some e =>
                  run (ProjectController.updateProjectStatus E user pid status) s
                  = (Ok (mk_response 500 "Error updating project status"
                           (Some (error_message e)) None),
                     mk_world s None [Query; Write] healthy)
              | None =>
                  run (ProjectController.updateProjectStatus E user pid status) s
                  = (Ok (mk_response 200 "Project status updated successfully" None
                           (Some (ProjectController.mk_status_update pid st))),
                     mk_world (snd (Sql.update_project_status st pid s)) None
                       [Query; Write] healthy)
              end
          end
      end
  end.
Proof.
  unfold ProjectController.updateProjectStatus,
    ProjectService.isProjectOwnedByAdmin, ProjectService.updateProjectStatus.
  destruct (ProjectController.included_status status) as [st|]; [|reflexivity].
  eff_unfold. eff_simpl.
  destruct (store_fault E 0%nat); [reflexivity|]. eff_simpl.
  pose proof (select_owned_in_select pid user s) as Hown.
  destruct (Sql.select_owned_project pid user s) as [|i l]; [reflexivity|].
  cbn [List.length]. replace (0 <? Z.of_nat (S (List.length l))) with true
    by (symmetry; apply Z.ltb_lt; lia).
  cbn [negb]. eff_simpl.
  destruct (store_fault E 1%nat); [reflexivity|].
  cbn [Sql.update_project_status fst snd]. eff_simpl.
  destruct (Sql.select_project pid s) as [|q r]; [exfalso; apply Hown; [discriminate|reflexivity]|].
  cbn [List.length]. replace (0 <? Z.of_nat (S (List.length r))) with true
    by (symmetry; apply Z.ltb_lt; lia).
  reflexivity.
Qed.

(** X15. A status update is always answered, with 200, 400, 403 or 500: the 404
    answer of the endpoint is unreachable, [affectedRows] counting the rows
    the statement matched. The store changes only with the answer 200,
    which takes one of the three status names and a project row whose
    admin is the requester; then the rows of that project have the new
    status. *)
Theorem status_update_needs_the_owner :
  forall E user pid status s,
    let request := ProjectController.updateProjectStatus E user pid status in
    exists resp,
      outcome request s = Ok resp
      /\ In (status_code resp) [200; 400; 403; 500]
      /\ (status_code resp <> 200 -> store_after request s = s)
      /\ (status_code resp = 200 ->
          exists st,
            ProjectController.included_status status = Some st
            /\ Sql.select_owned_project pid user s <> []
            /\ data resp = Some (ProjectController.mk_status_update pid st)
            /\ store_after request s = snd (Sql.update_project_status st pid s)).
Proof.
  intros E user pid status s request. unfold request, outcome, store_after, persisted.
  pose proof (updateProjectStatus_run E user pid status s) as H.
  destruct (ProjectController.included_status status) as [st|].
  2:{ rewrite H. eexists. cbn. split; [reflexivity|]. split; [tauto|].
      split; [reflexivity|]. discriminate. }
  destruct (store_fault E 0%nat).
  { rewrite H. eexists. cbn. split; [reflexivity|]. split; [tauto|].
    split; [reflexivity|]. discriminate. }
  destruct (Sql.select_owned_project pid user s) as [|i l].
  { rewrite H. eexists. cbn. split; [reflexivity|]. split; [tauto|].
    split; [reflexivity|]. discriminate. }
  destruct (store_fault E 1%nat).
  { rewrite H. eexists. cbn. split; [reflexivity|]. split; [tauto|].
    split; [reflexivity|]. discriminate. }
  rewrite H. eexists. cbn [fst snd saved db status_code data In].
  split; [reflexivity|]. split; [tauto|].
  split; [intros Hx; exfalso; apply Hx; reflexivity|].
  intros _. exists st. split; [reflexivity|]. split; [discriminate|].
  split; reflexivity.
Qed.

(** X16. A status update, with a valid status, of a project none of whose rows
    belongs to the requester is answered 403 after one query and writes
    nothing; this includes a project that does not exist. *)
Theorem status_update_of_another_admin_is_forbidden :
  forall E user pid status s st,
    store_fault E 0%nat = None ->
    ProjectController.included_status status = Some st ->
    Forall (fun p => Project.admin_id p <> user) (Sql.select_project pid s) ->
    let request := ProjectController.updateProjectStatus E user pid status in
    outcome request s
    = Ok (mk_response 403 "You can only update your own projects" None None)
    /\ store_after request s = s
    /\ effects_of request s = [Query].
Proof.
  intros E user pid status s st Hnf Hst Hothers request.
  assert (Hown : Sql.select_owned_project pid user s = []).
  { unfold Sql.select_owned_project, Sql.select_project in *.
    induction (projects s) as [|q l IH]; cbn [filter map] in *; [reflexivity|].
    destruct (String.eqb (Project.project_id q) pid); cbn [andb].
    - inversion Hothers as [|? ? Hq Hl]; subst.
      replace (Project.admin_id q =? user) with false
        by (symmetry; apply Z.eqb_neq; exact Hq).
      apply IH, Hl.
    - apply IH, Hothers. }
  unfold request, outcome, store_after, effects_of, persisted.
  pose proof (updateProjectStatus_run E user pid status s) as H.
  rewrite Hst, Hnf, Hown in H. rewrite H.
  repeat split; reflexivity.
Qed.

Lemma status_update_of_another_admin_is_forbidden_witness :
  let request :=
    ProjectController.updateProjectStatus Scenario.ledger_up 2 "PROJECT_1"
      (Some "cancelled") in
  let s := Scenario.sold_out Project.active in
  outcome request s = Ok (mk_response 403 "You can only update your own projects" None None)
  /\ store_after request s = s
  /\ effects_of request s = [Query].
Proof.
  apply (status_update_of_another_admin_is_forbidden Scenario.ledger_up 2 "PROJECT_1"
           (Some "cancelled") (Scenario.sold_out Project.active) Project.cancelled).
  - reflexivity.
  - reflexivity.
  - constructor; [cbn; lia|constructor].
Defined.

Lemma status_update_200 E user pid status s :
  map_result status_code (outcome (ProjectController.updateProjectStatus E user pid status) s)
  = Ok 200 ->
  exists st,
    ProjectController.included_status status = Some st
    /\ Sql.select_project pid s <> []
    /\ store_after (ProjectController.updateProjectStatus E user pid status) s
       = snd (Sql.update_project_status st pid s).
Proof.
  unfold outcome, store_after, persisted.
  pose proof (updateProjectStatus_run E user pid status s) as H.
  pose proof (select_owned_in_select pid user s) as Hown.
  destruct (ProjectController.included_status status) as [st|];
    [|rewrite H; cbn; discriminate].
  destruct (store_fault E 0%nat); [rewrite H; cbn; discriminate|].
  destruct (Sql.select_owned_project pid user s) as [|i l]; [rewrite H; cbn; discriminate|].
  destruct (store_fault E 1%nat); [rewrite H; cbn; discriminate|].
  rewrite H. cbn [fst snd saved db]. intros _. exists st.
  split; [reflexivity|]. split; [apply Hown; discriminate|reflexivity].
Qed.

(** X17. After its owner has set a project to [cancelled] or [completed], a
    purchase of the project is answered 404 and changes nothing, and the
    gate reports the project as cancelled, or as already completed. *)
Theorem closed_project_sells_no_token :
  forall E user pid status s st E' buyer amount,
    let update := ProjectController.updateProjectStatus E user pid status in
    let s1 := store_after update s in
    let request :=
      TokenController.purchaseTokens E' buyer
        (TokenController.mk_body (Some pid) (Some amount)) in
    let gate := ProjectService.isProjectReadyForDistribution E' pid in
    map_result status_code (outcome update s) = Ok 200 ->
    ProjectController.included_status status = Some st ->
    st <> Project.active ->
    store_fault E' 0%nat = None ->
    store_fault E' 2%nat = None ->
    pid <> "" ->
    0 < amount ->
    outcome request s1 = Ok (mk_response 404 "Project not found or not active" None None)
    /\ store_after request s1 = s1
    /\ map_result ProjectService.ready (outcome gate s1) = Ok false
    /\ map_result ProjectService.reason (outcome gate s1)
       = Ok (match st with
             | Project.cancelled => "Project is cancelled"
             | _ => "Project is already completed"
             end).
Proof.
  intros E user pid status s st E' buyer amount update s1 request gate
    H200 Hst Hclosed H0 H2 Hpid Hpos.
  destruct (status_update_200 E user pid status s H200) as (st' & Hst' & Hsel & Hs1).
  assert (st' = st) as -> by congruence.
  fold update in Hs1. fold s1 in Hs1.
  assert (Hact : Sql.select_active_project pid s1 = [])
    by (rewrite Hs1; apply select_active_project_closed; exact Hclosed).
  unfold request, outcome at 1, store_after, persisted.
  rewrite (purchase_of_closed_project E' buyer pid amount s1 H2 Hpid Hpos Hact).
  cbn [fst snd saved]. split; [reflexivity|]. split; [reflexivity|].
  assert (Hrows : Sql.select_project pid s1
                  = map (Project.set_status st) (Sql.select_project pid s))
    by (rewrite Hs1; apply select_project_status).
  destruct (Sql.select_project pid s) as [|p rest]; [contradiction|]. cbn [map] in Hrows.
  unfold gate, ProjectService.isProjectReadyForDistribution. eff_unfold. eff_simpl.
  rewrite H0. eff_simpl. rewrite Hrows. cbn [Project.status Project.set_status].
  destruct st; [contradiction| |]; split; reflexivity.
Qed.

Lemma closed_project_sells_no_token_witness :
  let update :=
    ProjectController.updateProjectStatus Scenario.ledger_up 1 "PROJECT_1"
      (Some "cancelled") in
  let s1 := store_after update Scenario.three_left in
  let request :=
    TokenController.purchaseTokens Scenario.ledger_up 12
      (TokenController.mk_body (Some "PROJECT_1") (Some 2)) in
  let gate := ProjectService.isProjectReadyForDistribution Scenario.ledger_up "PROJECT_1" in
  outcome request s1 = Ok (mk_response 404 "Project not found or not active" None None)
  /\ store_after request s1 = s1
  /\ map_result ProjectService.ready (outcome gate s1) = Ok false
  /\ map_result ProjectService.reason (outcome gate s1) = Ok "Project is cancelled".
Proof.
  apply (closed_project_sells_no_token Scenario.ledger_up 1 "PROJECT_1" (Some "cancelled")
           Scenario.three_left Project.cancelled Scenario.ledger_up 12 2).
  - vm_compute. reflexivity.
  - reflexivity.
  - discriminate.
  - reflexivity.
  - reflexivity.
  - discriminate.
  - lia.
Defined.

Lemma select_token_holders_tokens pid a b :
  tokens a = tokens b -> Sql.select_token_holders pid a = Sql.select_token_holders pid b.
Proof.
  intros H. unfold Sql.select_token_holders, Sql.active_tokens. rewrite H. reflexivity.
Qed.

(** X18. The status update reopens a completed project: after a distribution
    that returned, once the owner has set the project back to [active], a
    second distribution of the same project returns as well, credits the
    same holders for the same tokens, and leaves two completed
    distribution records for the project. *)
Theorem reopened_project_is_distributed_again :
  forall E pid ic tr np admin s d E1 user E2 ic2 tr2 np2 admin2 hash2,
    let first := ProfitService.distributeProfit E pid ic tr np admin in
    let s1 := store_after first s in
    let reopen := ProjectController.updateProjectStatus E1 user pid (Some "active") in
    let s2 := store_after reopen s1 in
    let second := ProfitService.distributeProfit E2 pid ic2 tr2 np2 admin2 in
    outcome first s = Ok d ->
    map_result status_code (outcome reopen s1) = Ok 200 ->
    no_faults E2 ->
    dividend_outcome E2 pid np2 (Sql.select_token_holders pid s) = Mined hash2 ->
    exists d2 row1 row2,
      outcome second s2 = Ok d2
      /\ map ProfitService.user_id (ProfitService.userProfits d2)
         = map ProfitService.user_id (ProfitService.userProfits d)
      /\ map ProfitService.token_amount (ProfitService.userProfits d2)
         = map ProfitService.token_amount (ProfitService.userProfits d)
      /\ profit_distributions (store_after second s2)
         = (profit_distributions s ++ [row1; row2])%list
      /\ ProfitDistribution.project_id row1 = pid
      /\ ProfitDistribution.project_id row2 = pid
      /\ ProfitDistribution.total_profit row1 = np
      /\ ProfitDistribution.total_profit row2 = np2
      /\ ProfitDistribution.status row1 = ProfitDistribution.completed
      /\ ProfitDistribution.status row2 = ProfitDistribution.completed.
Proof.
  intros E pid ic tr np admin s d E1 user E2 ic2 tr2 np2 admin2 hash2
    first s1 reopen s2 second Hok H200 Hnf Hl.
  destruct (distributeProfit_ok E pid ic tr np admin s d Hok)
    as (p & rest & h & hs & hash & Hp & _ & Hav & Hh & _ & -> & Hs1).
  fold first in Hs1. fold s1 in Hs1.
  destruct (status_update_200 E1 user pid (Some "active") s1 H200) as (st & Hst & _ & Hs2).
  cbn in Hst. injection Hst as <-. fold reopen in Hs2. fold s2 in Hs2.
  assert (Htok : tokens s2 = tokens s).
  { rewrite Hs2. cbn [snd Sql.update_project_status tokens]. rewrite Hs1.
    apply tokens_distributed. }
  assert (Hh2 : Sql.select_token_holders pid s2 = h :: hs)
    by (rewrite (select_token_holders_tokens pid s2 s Htok); exact Hh).
  assert (Hp2 : Sql.select_project pid s2
                = Project.set_status Project.active (Project.set_status Project.completed p)
                  :: map (Project.set_status Project.active)
                       (map (Project.set_status Project.completed) rest)).
  { rewrite Hs2, select_project_status, Hs1, select_project_distributed, Hp. reflexivity. }
  rewrite Hh in Hl.
  pose proof (distributeProfit_commits E2 Hnf pid ic2 tr2 np2 admin2 s2 _ _ h hs hash2
                Hp2 ltac:(discriminate) Hav Hh2 Hl) as Hrun.
  destruct (distributed_store_tables pid np hash (h :: hs) s)
    as (c1 & Hpd1 & _).
  destruct (distributed_store_tables pid np2 hash2 (h :: hs) s2)
    as (c2 & Hpd2 & _).
  cbv zeta in Hpd1, Hpd2.
  assert (Hpd12 : profit_distributions s2 = profit_distributions s1)
    by (rewrite Hs2; reflexivity).
  unfold second, outcome, store_after, persisted. rewrite Hrun. cbn [fst snd saved db].
  rewrite Hpd2, Hpd12, Hs1, Hpd1, <- app_assoc. cbn [app].
  do 3 eexists. split; [reflexivity|].
  cbn [ProfitService.userProfits]. rewrite !map_map. cbn [credit_of ProfitService.user_id
    ProfitService.token_amount].
  split; [reflexivity|]. split; [reflexivity|]. split; [reflexivity|].
  repeat split; reflexivity.
Qed.

Lemma reopened_project_is_distributed_again_witness :
  let first :=
    ProfitService.distributeProfit Scenario.ledger_up "PROJECT_1" (Num.of_Z 100000)
      (Num.of_Z 150000) (Num.of_Z 50000) 1 in
  let s := Scenario.sold_out Project.active in
  let s1 := store_after first s in
  let reopen :=
    ProjectController.updateProjectStatus Scenario.ledger_up 1 "PROJECT_1" (Some "active") in
  let s2 := store_after reopen s1 in
  let second :=
    ProfitService.distributeProfit Scenario.ledger_up "PROJECT_1" (Num.of_Z 100000)
      (Num.of_Z 160000) (Num.of_Z 60000) 1 in
  exists d2 row1 row2,
    outcome second s2 = Ok d2
    /\ map ProfitService.user_id (ProfitService.userProfits d2)
       = map ProfitService.user_id (ProfitService.userProfits Scenario.data_50000)
    /\ map ProfitService.token_amount (ProfitService.userProfits d2)
       = map ProfitService.token_amount (ProfitService.userProfits Scenario.data_50000)
    /\ profit_distributions (store_after second s2)
       = (profit_distributions s ++ [row1; row2])%list
    /\ ProfitDistribution.project_id row1 = "PROJECT_1"
    /\ ProfitDistribution.project_id row2 = "PROJECT_1"
    /\ ProfitDistribution.total_profit row1 = Num.of_Z 50000
    /\ ProfitDistribution.total_profit row2 = Num.of_Z 60000
    /\ ProfitDistribution.status row1 = ProfitDistribution.completed
    /\ ProfitDistribution.status row2 = ProfitDistribution.completed.
Proof.
  apply (reopened_project_is_distributed_again Scenario.ledger_up "PROJECT_1"
           (Num.of_Z 100000) (Num.of_Z 150000) (Num.of_Z 50000) 1
           (Scenario.sold_out Project.active) Scenario.data_50000
           Scenario.ledger_up 1
           Scenario.ledger_up (Num.of_Z 100000) (Num.of_Z 160000) (Num.of_Z 60000) 1
           "0xd1").
  - vm_compute. reflexivity.
  - vm_compute. reflexivity.
  - intros k. reflexivity.
  - reflexivity.
Defined.

(** ** The review of transactions *)

Lemma review_run E q tid s :
  match store_fault E 0%nat with
  | Some e =>
      snd (run (review E q tid) s) = mk_world s None [Query] healthy
      /\ map_result status_code (fst (run (review E q tid) s)) = Ok 500
  | None =>
      match Sql.select_pending_transaction tid s with
      | [] =>
          run (review E q tid) s
          = (Ok (mk_response 404 "Transaction not found or not in pending status"
                   None None),
             mk_world s None [Query] healthy)
      | _ :: _ =>
          match store_fault E 1%nat with
          | Some e =>
              snd (run (review E q tid) s) = mk_world s None [Query; Write] healthy
              /\ map_result status_code (fst (run (review E q tid) s)) = Ok 500
          | None =>
              snd (run (review E q tid) s)
              = mk_world (Sql.set_transaction_status (reviewed_status q) tid s) None
                  [Query; Write] healthy
              /\ map_result status_code (fst (run (review E q tid) s)) = Ok 200
              /\ map_result data (fst (run (review E q tid) s))
                 = Ok (Some (TransactionController.mk_review tid
                               (match q with Approve => None | Reject reason => reason end)))
          end
      end
  end.
Proof.
  destruct q as [|reason]; cbn [review reviewed_status];
    unfold TransactionController.approveTransaction,
      TransactionController.rejectTransaction;
    eff_unfold; eff_simpl;
    (destruct (store_fault E 0%nat); [split; reflexivity|]); eff_simpl;
    (destruct (Sql.select_pending_transaction tid s); [reflexivity|]); eff_simpl;
    (destruct (store_fault E 1%nat); [split; reflexivity|]); eff_simpl;
    repeat split; reflexivity.
Qed.

Lemma select_pending_after_review st tid tid' s :
  st <> Transaction.pending ->
  Sql.select_pending_transaction tid' (Sql.set_transaction_status st tid s)
  = if String.eqb tid tid' then [] else Sql.select_pending_transaction tid' s.
Proof.
  intros Hst. unfold Sql.select_pending_transaction, Sql.set_transaction_status.
  cbn [transactions].
  induction (transactions s) as [|x l IH]; cbn [map filter].
  - destruct (String.eqb tid tid'); reflexivity.
  - destruct (String.eqb (Transaction.transaction_id x) tid) eqn:Hx.
    + apply String.eqb_eq in Hx. subst tid.
      cbn [Transaction.set_status Transaction.transaction_id Transaction.is_pending
           Transaction.status].
      destruct (String.eqb (Transaction.transaction_id x) tid') eqn:Hx'.
      * rewrite IH. destruct st; try contradiction; reflexivity.
      * cbn [andb]. exact IH.
    + destruct (String.eqb tid tid') eqn:Ht.
      * apply String.eqb_eq in Ht. subst tid'. rewrite Hx. cbn [andb]. exact IH.
      * rewrite IH. reflexivity.
Qed.

(** X19. Approving or rejecting a transaction is always answered, with 200, 404
    or 500. The store changes only with the answer 200, which takes a
    pending transaction of that identifier; then the transactions of that
    identifier carry the reviewed status. With the store answering and no
    such pending transaction the answer is 404. *)
Theorem review_changes_pending_transactions_only :
  forall E q tid s,
    let request := review E q tid in
    exists resp,
      outcome request s = Ok resp
      /\ In (status_code resp) [200; 404; 500]
      /\ (status_code resp <> 200 -> store_after request s = s)
      /\ (status_code resp = 200 ->
          Sql.select_pending_transaction tid s <> []
          /\ store_after request s = Sql.set_transaction_status (reviewed_status q) tid s)
      /\ (store_fault E 0%nat = None ->
          Sql.select_pending_transaction tid s = [] -> status_code resp = 404).
Proof.
  intros E q tid s request. unfold request, outcome, store_after, persisted.
  pose proof (review_run E q tid s) as H.
  destruct (run (review E q tid) s) as [[resp|e] w]; cbn [fst snd map_result] in *.
  2:{ exfalso. destruct (store_fault E 0%nat); [destruct H; discriminate|].
      destruct (Sql.select_pending_transaction tid s); [discriminate|].
      destruct (store_fault E 1%nat); destruct H as (_ & H & _) || destruct H as (_ & H);
        discriminate. }
  exists resp. split; [reflexivity|].
  destruct (store_fault E 0%nat).
  { destruct H as [-> [= ->]]. cbn. split; [tauto|]. split; [reflexivity|].
    split; discriminate. }
  destruct (Sql.select_pending_transaction tid s).
  { injection H as -> ->. cbn. split; [tauto|]. split; [reflexivity|].
    split; [discriminate|reflexivity]. }
  destruct (store_fault E 1%nat).
  { destruct H as [-> [= ->]]. cbn. split; [tauto|]. split; [reflexivity|].
    split; discriminate. }
  destruct H as (-> & [= ->] & _). cbn [saved db In].
  split; [tauto|]. split; [intros Hx; exfalso; apply Hx; reflexivity|].
  split; [intros _; split; [discriminate|reflexivity]|discriminate].
Qed.

(** X20. A transaction that was approved or rejected cannot be reviewed again:
    every later approval or rejection of its identifier is answered 404
    and changes nothing, and the transactions of that identifier keep the
    status of the first review. *)
Theorem reviewed_transaction_is_final :
  forall E q tid s E' q',
    let first := review E q tid in
    let s1 := store_after first s in
    let again := review E' q' tid in
    map_result status_code (outcome first s) = Ok 200 ->
    store_fault E' 0%nat = None ->
    outcome again s1
    = Ok (mk_response 404 "Transaction not found or not in pending status" None None)
    /\ store_after again s1 = s1
    /\ Forall (fun x => Transaction.transaction_id x = tid ->
                        Transaction.status x = reviewed_status q)
         (transactions s1).
Proof.
  intros E q tid s E' q' first s1 again H200 H0.
  assert (Hs1 : s1 = Sql.set_transaction_status (reviewed_status q) tid s).
  { unfold s1, first, store_after, persisted. unfold first, outcome in H200.
    pose proof (review_run E q tid s) as H.
    destruct (store_fault E 0%nat); [destruct H as [_ H]; congruence|].
    destruct (Sql.select_pending_transaction tid s).
    { rewrite H in H200. discriminate. }
    destruct (store_fault E 1%nat); [destruct H as [_ H]; congruence|].
    destruct H as (-> & _). reflexivity. }
  assert (Hnone : Sql.select_pending_transaction tid s1 = []).
  { rewrite Hs1, select_pending_after_review, String.eqb_refl; [reflexivity|].
    destruct q; discriminate. }
  unfold again, outcome, store_after, persisted.
  pose proof (review_run E' q' tid s1) as H. rewrite H0, Hnone in H. rewrite H.
  cbn [fst snd saved db]. split; [reflexivity|]. split; [reflexivity|].
  rewrite Hs1. unfold Sql.set_transaction_status. cbn [transactions].
  apply Forall_forall. intros x Hx. apply in_map_iff in Hx.
  destruct Hx as (y & <- & _).
  destruct (String.eqb (Transaction.transaction_id y) tid) eqn:Hy.
  - intros _. reflexivity.
  - apply String.eqb_neq in Hy. intros Hc. contradiction.
Qed.

Lemma reviewed_transaction_is_final_witness :
  let first := review Scenario.ledger_up Approve "TXN_1" in
  let s1 := store_after first Scenario.awaiting in
  let again := review Scenario.ledger_up (Reject (Some "too late")) "TXN_1" in
  outcome again s1
  = Ok (mk_response 404 "Transaction not found or not in pending status" None None)
  /\ store_after again s1 = s1
  /\ Forall (fun x => Transaction.transaction_id x = "TXN_1" ->
                      Transaction.status x = reviewed_status Approve)
       (transactions s1).
Proof.
  apply (reviewed_transaction_is_final Scenario.ledger_up Approve "TXN_1" Scenario.awaiting
           Scenario.ledger_up (Reject (Some "too late"))).
  - vm_compute. reflexivity.
  - reflexivity.
Defined.

Lemma purchase_no_pending c s : no_pending s -> no_pending (purchase c s).
Proof.
  intros Hs. unfold purchase.
  destruct (purchase_store_cases (call_env c) (call_user c) (call_body c) s)
    as [->|(pid & amount & project & rest & hash & _ & _ & _ & _ & ->)]; [exact Hs|].
  unfold no_pending, purchased_store. cbn [transactions Sql.insert_transaction
    Sql.decrement_available_tokens Sql.insert_token].
  apply Forall_app. split; [exact Hs|]. constructor; [discriminate|constructor].
Qed.

Lemma no_pending_selects_nothing tid s :
  no_pending s -> Sql.select_pending_transaction tid s = [].
Proof.
  unfold no_pending, Sql.select_pending_transaction.
  induction 1 as [|x l Hx _ IH]; cbn [filter]; [reflexivity|].
  unfold Transaction.is_pending at 1.
  destruct (Transaction.status x); try contradiction; rewrite andb_false_r; exact IH.
Qed.

(** X21. Purchases record their transaction as completed, never as pending: on
    a store with no pending transaction, and on every store reached from
    it along any sequence of purchase requests, no transaction is pending
    and every approval or rejection is answered 404 and changes nothing. *)
Theorem purchases_leave_nothing_to_review :
  forall calls s E q tid,
    no_pending s ->
    store_fault E 0%nat = None ->
    Forall (fun s' =>
              no_pending s'
              /\ outcome (review E q tid) s'
                 = Ok (mk_response 404 "Transaction not found or not in pending status"
                         None None)
              /\ store_after (review E q tid) s' = s')
           (s :: stores_along calls s).
Proof.
  intros calls s E q tid Hs H0.
  assert (Hone : forall s', no_pending s' ->
            no_pending s'
            /\ outcome (review E q tid) s'
               = Ok (mk_response 404 "Transaction not found or not in pending status"
                       None None)
            /\ store_after (review E q tid) s' = s').
  { intros s' Hs'. split; [exact Hs'|].
    unfold outcome, store_after, persisted.
    pose proof (review_run E q tid s') as H.
    rewrite H0, (no_pending_selects_nothing tid s' Hs') in H. rewrite H.
    split; reflexivity. }
  constructor; [apply Hone, Hs|].
  revert s Hs. induction calls as [|c calls IH]; intros s Hs; cbn [stores_along].
  - constructor.
  - constructor; [apply Hone, purchase_no_pending, Hs|].
    apply IH, purchase_no_pending, Hs.
Qed.

Lemma purchases_leave_nothing_to_review_witness :
  let buy e user amount :=
    mk_call e user (TokenController.mk_body (Some "PROJECT_1") (Some amount)) in
  let calls :=
    [buy Scenario.ledger_up 12 2; buy Scenario.ledger_down 13 1;
     buy Scenario.ledger_up 13 1] in
  let request := review Scenario.ledger_up Approve "TXN_1700000000002_9c0d1e2f" in
  Forall (fun s' =>
            no_pending s'
            /\ outcome request s'
               = Ok (mk_response 404 "Transaction not found or not in pending status"
                       None None)
            /\ store_after request s' = s')
         (Scenario.three_left :: stores_along calls Scenario.three_left).
Proof.
  intros buy calls request.
  apply (purchases_leave_nothing_to_review calls Scenario.three_left Scenario.ledger_up
           Approve "TXN_1700000000002_9c0d1e2f").
  - constructor.
  - reflexivity.
Defined.

(** ** A new project *)

Lemma select_active_project_absent pid s :
  Sql.select_project pid s = [] -> Sql.select_active_project pid s = [].
Proof.
  unfold Sql.select_project, Sql.select_active_project.
  induction (projects s) as [|q l IH]; cbn [filter]; [reflexivity|].
  destruct (String.eqb (Project.project_id q) pid); [discriminate|]. cbn [andb]. exact IH.
Qed.

Lemma created_store E name description T price capital admin s0 :
  store_fault E 0%nat = None ->
  Sql.select_project (generated_project_id E) s0 = [] ->
  let create := ProjectService.createProject E name description T price capital admin in
  let row := Project.mk (Sql.next_id (map Project.id (projects s0)))
               (generated_project_id E) name description T T price capital admin
               Project.active in
  outcome create s0 = Ok row
  /\ store_after create s0
     = mk_store (projects s0 ++ [row]) (tokens s0) (transactions s0)
         (profit_distributions s0) (user_profit_records s0)
  /\ Sql.select_project (generated_project_id E) (store_after create s0) = [row]
  /\ Sql.select_active_project (generated_project_id E) (store_after create s0) = [row].
Proof.
  intros Hnf Hfresh create row.
  assert (Hs : run create s0
               = (Ok row,
                  mk_world (mk_store (projects s0 ++ [row]) (tokens s0) (transactions s0)
                              (profit_distributions s0) (user_profit_records s0))
                    None [Write] healthy)).
  { unfold create, ProjectService.createProject. eff_unfold. eff_simpl.
    rewrite Hnf. reflexivity. }
  unfold outcome, store_after, persisted. rewrite Hs. cbn [fst snd saved db].
  split; [reflexivity|]. split; [reflexivity|].
  pose proof (select_active_project_absent _ _ Hfresh) as Hact.
  unfold Sql.select_project, Sql.select_active_project in *. cbn [projects].
  rewrite !filter_app, Hfresh, Hact. cbn. rewrite String.eqb_refl. split; reflexivity.
Qed.

(** X22. A project that was just created is not ready for distribution,
    whatever its supply: with a positive supply the gate reports that 0 of
    its tokens are sold, otherwise that it has no holder. *)
Theorem new_project_is_not_ready :
  forall E name description T price capital admin s0 E',
    store_fault E 0%nat = None ->
    Sql.select_project (generated_project_id E) s0 = [] ->
    Sql.active_tokens (generated_project_id E) s0 = [] ->
    no_faults E' ->
    let create := ProjectService.createProject E name description T price capital admin in
    let gate := ProjectService.isProjectReadyForDistribution E' (generated_project_id E) in
    outcome gate (store_after create s0)
    = Ok (ProjectService.mk_readiness false
            (if 0 <? T then ProjectService.not_sold_out_reason 0 T T
             else "No active token holders found for this project")
            true 0 T T None).
Proof.
  intros E name description T price capital admin s0 E' Hnf Hfresh Hnone Hnf' create gate.
  destruct (created_store E name description T price capital admin s0 Hnf Hfresh)
    as (_ & Hs & Hsel & _).
  fold create in Hs, Hsel. rewrite Hs in *.
  match type of Hsel with Sql.select_project _ ?s1 = _ =>
    assert (Hcount : Sql.count_token_holders (generated_project_id E) s1 = 0)
      by (apply count_token_holders_zero; exact Hnone)
  end.
  unfold gate, ProjectService.isProjectReadyForDistribution. eff_unfold. eff_simpl.
  rewrite !Hnf'. eff_simpl. rewrite Hsel. cbn [Project.status Project.status_eqb Project.total_tokens
                     Project.available_tokens].
  rewrite Z.sub_diag.
  destruct (0 <? T); [reflexivity|].
  eff_simpl. rewrite Hnf'. eff_simpl. rewrite Hcount. reflexivity.
Qed.

Lemma new_project_is_not_ready_witness :
  let E := Scenario.ledger_up in
  let create :=
    ProjectService.createProject E "Solar farm" "" 10 (Num.of_Z 1000) (Num.of_Z 10000) 1 in
  let gate := ProjectService.isProjectReadyForDistribution E (generated_project_id E) in
  outcome gate (store_after create empty_store)
  = Ok (ProjectService.mk_readiness false
          (if 0 <? 10 then ProjectService.not_sold_out_reason 0 10 10
           else "No active token holders found for this project")
          true 0 10 10 None).
Proof.
  apply (new_project_is_not_ready Scenario.ledger_up "Solar farm" "" 10 (Num.of_Z 1000)
           (Num.of_Z 10000) 1 empty_store Scenario.ledger_up).
  - reflexivity.
  - reflexivity.
  - reflexivity.
  - intros k. reflexivity.
Defined.

(** X23. [createProject] stores the supply it is given, also when it is zero or
    negative; on such a project every purchase of a positive amount is
    answered 400 with the insufficient-supply message and changes
    nothing. *)
Theorem project_without_supply_sells_nothing :
  forall E name description T price capital admin s0 E' user amount,
    store_fault E 0%nat = None ->
    Sql.select_project (generated_project_id E) s0 = [] ->
    T <= 0 ->
    store_fault E' 2%nat = None ->
    generated_project_id E <> "" ->
    0 < amount ->
    let create := ProjectService.createProject E name description T price capital admin in
    let s1 := store_after create s0 in
    let request :=
      TokenController.purchaseTokens E' user
        (TokenController.mk_body (Some (generated_project_id E)) (Some amount)) in
    map_result Project.available_tokens (outcome create s0) = Ok T
    /\ outcome request s1
       = Ok (mk_response 400 (TokenController.insufficient_message T) None None)
    /\ store_after request s1 = s1.
Proof.
  intros E name description T price capital admin s0 E' user amount
    Hnf Hfresh HT Hnf' Hpid Hpos create s1 request.
  destruct (created_store E name description T price capital admin s0 Hnf Hfresh)
    as (Hout & _ & _ & Hact).
  fold create in Hout, Hact. fold s1 in Hact. rewrite Hout.
  split; [reflexivity|].
  unfold request, outcome, store_after, persisted.
  generalize (purchaseTokens_run E' user
                (TokenController.mk_body (Some (generated_project_id E)) (Some amount)) s1).
  generalize (run (TokenController.purchaseTokens E' user
                     (TokenController.mk_body (Some (generated_project_id E))
                        (Some amount))) s1).
  intros r H. destruct H;
    try match goal with
        | Hn : names _ _ _ |- _ => destruct Hn as ([= <- <-] & _ & _)
        end; try congruence.
  - exfalso. apply (H (generated_project_id E) amount).
    split; [reflexivity|]. split; assumption.
  - rewrite Hact in *.
    match goal with Hx : _ :: _ = _ :: _ |- _ => injection Hx as <- <- end.
    split; reflexivity.
  - rewrite Hact in *.
    match goal with Hx : _ :: _ = _ :: _ |- _ => injection Hx as <- <- end.
    cbn [Project.available_tokens] in *. lia.
  - rewrite Hact in *.
    match goal with Hx : _ :: _ = _ :: _ |- _ => injection Hx as <- <- end.
    cbn [Project.available_tokens] in *. lia.
Qed.

Lemma project_without_supply_sells_nothing_witness :
  let E := Scenario.ledger_up in
  let create :=
    ProjectService.createProject E "Solar farm" "" (-5) (Num.of_Z 1000) (Num.of_Z 10000) 1 in
  let s1 := store_after create empty_store in
  let request :=
    TokenController.purchaseTokens E 12
      (TokenController.mk_body (Some (generated_project_id E)) (Some 1)) in
  map_result Project.available_tokens (outcome create empty_store) = Ok (-5)
  /\ outcome request s1
     = Ok (mk_response 400 (TokenController.insufficient_message (-5)) None None)
  /\ store_after request s1 = s1.
Proof.
  apply (project_without_supply_sells_nothing Scenario.ledger_up "Solar farm" "" (-5)
           (Num.of_Z 1000) (Num.of_Z 10000) 1 empty_store Scenario.ledger_up 12 1).
  - reflexivity.
  - reflexivity.
  - lia.
  - reflexivity.
  - discriminate.
  - lia.
Defined.

(** ** Project statistics *)

Lemma nodup_length_le (l : list Z) :
  (List.length (nodup Z.eq_dec l) <= List.length l)%nat.
Proof.
  induction l as [|x l IH]; cbn [nodup List.length]; [lia|].
  destruct (in_dec Z.eq_dec x l); cbn [List.length]; lia.
Qed.

Lemma nodup_length_eq (l : list Z) :
  List.length (nodup Z.eq_dec l) = List.length l <-> NoDup l.
Proof.
  split.
  - induction l as [|x l IH]; cbn [nodup List.length]; [constructor|].
    pose proof (nodup_length_le l).
    destruct (in_dec Z.eq_dec x l) as [Hin|Hn]; cbn [List.length]; [lia|].
    intros [= Hl]. constructor; [exact Hn|apply IH, Hl].
  - intros H. rewrite nodup_fixed_point by exact H. reflexivity.
Qed.

Lemma sum_amounts_fold l : fold_right Z.add 0 (map Token.amount l) = sum_amounts l.
Proof. induction l as [|k l IH]; cbn; [reflexivity|]. unfold sum_amounts in IH. lia. Qed.

(** X24. The statistics endpoint answers 404 exactly for a project that does
    not exist and writes nothing. Its [tokens_sold] is the sum of the
    active holdings, which under the supply invariant is [total_tokens -
    available_tokens]; its [token_holders_count] counts the active
    holdings, not the holders: it is at least the number of distinct
    holders the gate counts, and equal to it exactly when no user has two
    active holdings. *)
Theorem statistics_count_holdings :
  forall E pid s,
    store_fault E 0%nat = None ->
    let request := ProjectController.getProjectStats E pid in
    store_after request s = s
    /\ match Sql.select_project pid s with
       | [] => outcome request s = Ok (mk_response 404 "Project not found" None None)
       | p :: _ =>
           exists st,
             outcome request s
             = Ok (mk_response 200 "Project statistics retrieved successfully" None
                     (Some st))
             /\ Sql.stats_project st = p
             /\ Sql.tokens_sold st = sum_amounts (Sql.active_tokens pid s)
             /\ Sql.token_holders_count st
                = Z.of_nat (List.length (Sql.active_tokens pid s))
             /\ Sql.count_token_holders pid s <= Sql.token_holders_count st
             /\ (Sql.count_token_holders pid s = Sql.token_holders_count st
                 <-> NoDup (map Token.user_id (Sql.active_tokens pid s)))
             /\ (forall T, supply_invariant pid T s ->
                           Sql.tokens_sold st
                           = Project.total_tokens p - Project.available_tokens p)
       end.
Proof.
  intros E pid s Hnf request.
  unfold request, ProjectController.getProjectStats, ProjectService.getProjectStats.
  eff_unfold. eff_simpl. rewrite Hnf. eff_simpl.
  split; [destruct (Sql.select_project_stats pid s); reflexivity|].
  unfold Sql.select_project_stats.
  destruct (Sql.select_project pid s) as [|p rest] eqn:Hsel; [reflexivity|].
  cbn [map]. eexists. split; [reflexivity|].
  cbn [Sql.stats_project Sql.tokens_sold Sql.token_holders_count].
  assert (Hid : Project.project_id p = pid).
  { apply (select_project_id pid s). rewrite Hsel. left. reflexivity. }
  rewrite Hid, sum_amounts_fold. unfold Sql.count_token_holders.
  pose proof (nodup_length_le (map Token.user_id (Sql.active_tokens pid s))) as Hle.
  pose proof (nodup_length_eq (map Token.user_id (Sql.active_tokens pid s))) as Heq.
  rewrite length_map in Hle, Heq.
  split; [reflexivity|]. split; [reflexivity|]. split; [reflexivity|].
  split; [lia|]. split.
  - rewrite <- Heq. split; [intros H; apply Nat2Z.inj, H|intros ->; reflexivity].
  - intros T (p' & Hsel' & Htot & _ & Hav). rewrite Hsel in Hsel'.
    injection Hsel' as <- _. lia.
Qed.

Lemma statistics_count_holdings_witness :
  let request := ProjectController.getProjectStats Scenario.ledger_up "PROJECT_1" in
  let s := Scenario.two_holdings in
  store_after request s = s
  /\ match Sql.select_project "PROJECT_1" s with
     | [] => outcome request s = Ok (mk_response 404 "Project not found" None None)
     | p :: _ =>
         exists st,
           outcome request s
           = Ok (mk_response 200 "Project statistics retrieved successfully" None
                   (Some st))
           /\ Sql.stats_project st = p
           /\ Sql.tokens_sold st = sum_amounts (Sql.active_tokens "PROJECT_1" s)
           /\ Sql.token_holders_count st
              = Z.of_nat (List.length (Sql.active_tokens "PROJECT_1" s))
           /\ Sql.count_token_holders "PROJECT_1" s <= Sql.token_holders_count st
           /\ (Sql.count_token_holders "PROJECT_1" s = Sql.token_holders_count st
               <-> NoDup (map Token.user_id (Sql.active_tokens "PROJECT_1" s)))
           /\ (forall T, supply_invariant "PROJECT_1" T s ->
                         Sql.tokens_sold st
                         = Project.total_tokens p - Project.available_tokens p)
     end.
Proof.
  apply (statistics_count_holdings Scenario.ledger_up "PROJECT_1" Scenario.two_holdings).
  reflexivity.
Defined.

Local Transparent Num.mul Num.of_Z string_of_Z.
